(** * Witboost OpenMetadata data-catalog plugin: a shallow embedding

    The development follows the Python sources:
    - [src/services/openmetadata_client_service.py]  (the catalog gateway),
    - [src/services/provision_service.py]            (validate / provision / unprovision),
    - [src/services/glossary_terms_service.py]       (glossary lookup),
    - [src/dependencies.py]                          (descriptor unpacking).

    Python exceptions are results of type [Res]; code that talks to the
    catalog is a state-and-exception computation [M W A] over an abstract
    world [W]; the catalog client and the gateway are records of such
    computations, so that every theorem holds for every behaviour of the
    remote catalog (and for every mock of it). *)

From Stdlib Require Import ZArith Ascii Lia.
From stdpp Require Import gmap strings list.

(** ** Python builtins used by the sources *)

Module Py.

(** [s.split(sep)] for a one-character separator: never empty, one more
    segment than there are separators. *)
Fixpoint split (sep : ascii) (s : string) : list string :=
  match s with
  | EmptyString => [EmptyString]
  | String c rest =>
      if Ascii.eqb c sep then EmptyString :: split sep rest
      else match split sep rest with
           | [] => [String c EmptyString]
           | seg :: segs => String c seg :: segs
           end
  end.

(** [sep.join(l)] *)
Fixpoint join (sep : string) (l : list string) : string :=
  match l with
  | [] => EmptyString
  | [x] => x
  | x :: rest => x +:+ sep +:+ join sep rest
  end.

(** Truth value of a [str]: the empty string is falsy. *)
Definition truthy (s : string) : bool :=
  match s with EmptyString => false | String _ _ => true end.

(** Truth value of a [str | None]. *)
Definition truthy_opt (o : option string) : bool :=
  match o with None => false | Some s => truthy s end.

(** [needle in hay] on strings: substring test. *)
Fixpoint contains (needle hay : string) : bool :=
  String.prefix needle hay ||
  match hay with
  | EmptyString => false
  | String _ rest => contains needle rest
  end.

(** Normalisation of one bound of a slice over a sequence of length
    [len]: a negative bound counts from the end, then bounds are clipped
    to [0, len]. *)
Definition slice_bound (len i : Z) : Z :=
  if (i <? 0)%Z then Z.max 0 (i + len) else Z.min i len.

(** [l[start:stop]] for integers [start] and [stop] (step 1). *)
Definition slice {A} (l : list A) (start stop : Z) : list A :=
  let len := Z.of_nat (length l) in
  let lo := slice_bound len start in
  let hi := slice_bound len stop in
  take (Z.to_nat (hi - lo)) (drop (Z.to_nat lo) l).

(** [repr(s)] of a [str].  A character of the model stands for the code
    point of the same number (below 256).  Among these, the printable
    ones are the ASCII characters from the space to the tilde and the
    code points from 161 on except the soft hyphen (173). *)
Definition printable (n : nat) : bool :=
  (32 <=? n) && (n <? 127) || (161 <=? n) && negb (n =? 173).

Definition hex_digit (n : nat) : ascii :=
  default "0"%char (String.get n "0123456789abcdef").

Definition backslash : ascii := "092".

Definition double_quote : ascii := "034".

Definition single_quote : ascii := "039".

(** One character between the quotes: the quote in use and the backslash
    get a backslash, tab, line feed and carriage return their letter,
    every other non-printable character its two hexadecimal digits. *)
Definition escape (quote c : ascii) : string :=
  let n := nat_of_ascii c in
  if Ascii.eqb c quote || Ascii.eqb c backslash
  then String backslash (String c EmptyString)
  else if n =? 9 then String backslash "t"
  else if n =? 10 then String backslash "n"
  else if n =? 13 then String backslash "r"
  else if printable n then String c EmptyString
  else String backslash
         (String "x" (String (hex_digit (n / 16))
                        (String (hex_digit (n mod 16)) EmptyString))).

Fixpoint escaped (quote : ascii) (s : string) : string :=
  match s with
  | EmptyString => EmptyString
  | String c rest => escape quote c +:+ escaped quote rest
  end.

Fixpoint has (c : ascii) (s : string) : bool :=
  match s with
  | EmptyString => false
  | String c' rest => Ascii.eqb c' c || has c rest
  end.

(** The double quote is used only for a string that holds a single quote
    and no double quote. *)
Definition repr (s : string) : string :=
  let quote :=
    if has single_quote s && negb (has double_quote s)
    then double_quote else single_quote in
  String quote (escaped quote s +:+ String quote EmptyString).

End Py.

(** ** Exceptions and results *)

(** The exception classes the sources raise or catch.  [ServiceError]
    stands for [src/models/service_error.py] together with its subclass
    [OpenMetadataClientServiceError]: every [except ServiceError] clause
    catches both, and both carry [error_msg]. *)
Inductive Exception :=
| ServiceError (error_msg : string)
| IndexError
| KeyError (key : string)
| ValueError (msg : string)
| LibraryError (msg : string).

(** [str(e)]; the text of a [KeyError] is the [repr] of its key. *)
Definition str (e : Exception) : string :=
  match e with
  | ServiceError m => m
  | IndexError => "list index out of range"
  | KeyError k => Py.repr k
  | ValueError m => m
  | LibraryError m => m
  end.

Inductive Res (A : Type) :=
| Ok (a : A)
| Raise (e : Exception).
Arguments Ok {A} a.
Arguments Raise {A} e.

(** [l[i]] for a non-negative literal index. *)
Definition index {A} (l : list A) (i : nat) : Res A :=
  match l !! i with
  | Some x => Ok x
  | None => Raise IndexError
  end.

(** ** Computations over a world: state passing with exceptions *)

Definition M (W A : Type) : Type := W -> W * Res A.

Definition ret {W A} (a : A) : M W A := fun w => (w, Ok a).

Definition raise {W A} (e : Exception) : M W A := fun w => (w, Raise e).

Definition bind {W A B} (m : M W A) (k : A -> M W B) : M W B :=
  fun w =>
    match m w with
    | (w', Ok a) => k a w'
    | (w', Raise e) => (w', Raise e)
    end.

(** A pure, possibly failing expression evaluated inside a computation. *)
Definition lift {W A} (r : Res A) : M W A := fun w => (w, r).

(** [try: m except Exception as e: h e] *)
Definition try_except {W A} (m : M W A) (h : Exception -> M W A) : M W A :=
  fun w =>
    match m w with
    | (w', Ok a) => (w', Ok a)
    | (w', Raise e) => h e w'
    end.

(** [try: m except ServiceError as se: h se.error_msg]; any other
    exception propagates. *)
Definition try_except_ServiceError {W A} (m : M W A) (h : string -> M W A)
  : M W A :=
  fun w =>
    match m w with
    | (w', Raise (ServiceError msg)) => h msg w'
    | other => other
    end.

(** [for x in l: body x] *)
Fixpoint for_each {W A} (l : list A) (body : A -> M W unit) : M W unit :=
  match l with
  | [] => ret tt
  | x :: rest => bind (body x) (fun _ => for_each rest body)
  end.

(** [[f x for x in l]] where [f] may raise. *)
Fixpoint map_res {A B} (f : A -> Res B) (l : list A) : Res (list B) :=
  match l with
  | [] => Ok []
  | x :: rest =>
      match f x with
      | Raise e => Raise e
      | Ok y =>
          match map_res f rest with
          | Raise e => Raise e
          | Ok ys => Ok (y :: ys)
          end
      end
  end.

Declare Scope py_scope.
Delimit Scope py_scope with py.
Notation "x <- m ;; k" := (bind m (fun x => k))
  (at level 100, m at next level, right associativity) : py_scope.
Notation "m ;;; k" := (bind m (fun _ => k))
  (at level 100, right associativity) : py_scope.
Local Open Scope py_scope.

(** ** The descriptor model *)

(** Modelled from the spec: [src/models/data_product_descriptor.py] is not
    among the sources.  Spec section 3 gives the shape (a data product
    with an ordered collection of components, each with a data contract
    whose schema is an ordered sequence of columns carrying optional tag
    labels; a tag label has a source with exactly the two values
    CLASSIFICATION and GLOSSARY).  The fields are the ones the services
    read, typed as the services and their tests use them. *)
Inductive TagSourceTagLabel := CLASSIFICATION | GLOSSARY.

#[global] Instance TagSourceTagLabel_eq_dec : EqDecision TagSourceTagLabel.
Proof. solve_decision. Defined.

(** The string value of a source, as the tests pass it
    ([source="Classification"]). *)
Definition TagSourceTagLabel_value (s : TagSourceTagLabel) : string :=
  match s with
  | CLASSIFICATION => "Classification"
  | GLOSSARY => "Glossary"
  end.

Module OpenMetadataTagLabel.
Record t := mk {
  tagFQN : string;
  labelType : string;
  state : string;
  source : TagSourceTagLabel
}.
End OpenMetadataTagLabel.

Module OpenMetadataColumn.
Record t := mk {
  name : string;
  dataType : string;
  description : option string;
  tags : option (list OpenMetadataTagLabel.t)
}.
End OpenMetadataColumn.

Module DataContract.
Record t := mk {
  schema_ : option (list OpenMetadataColumn.t)
}.
End DataContract.

Module OutputPort.
Record t := mk {
  id : string;
  name : string;
  description : string;
  kind : string;
  platform : option string;
  technology : option string;
  dataContract : DataContract.t
}.
End OutputPort.

Module DataProduct.
Record t := mk {
  id : string;
  name : string;
  description : string;
  domain : string;
  components : list OutputPort.t
}.

(** Modelled from the spec: [get_output_ports] is a method of the
    missing descriptor model.  The spec speaks of "every component (in
    descriptor order)" and of "Component / OutputPort" as one entity, so
    the output ports are the components, in descriptor order. *)
Definition get_output_ports (dp : t) : list OutputPort.t := components dp.
End DataProduct.

(** ** The API models *)

(** Modelled from the spec: [src/models/api_models.py] is not among the
    sources.  Spec section 3: a ValidationError is an ordered list of
    error strings, a SystemErr a single message, a ProvisioningStatus a
    status (only COMPLETED is produced), a result string and an optional
    info block of public and private key/value data. *)
Record ValidationError := mkValidationError { errors : list string }.

Record SystemErr := mkSystemErr { error : string }.

Inductive Status1 := COMPLETED.

Record Info := mkInfo {
  publicInfo : gmap string (gmap string (gmap string string));
  privateInfo : gmap string string
}.

Record ProvisioningStatus := mkProvisioningStatus {
  status : Status1;
  result : string;
  info : option Info
}.

(** Modelled from the spec: the descriptor kinds.  [dependencies.py]
    names the two accepted members; the third member stands for "any
    other value" of spec section 4.1. *)
Inductive DescriptorKind :=
| DATAPRODUCT_DESCRIPTOR
| COMPONENT_DESCRIPTOR
| DATAPRODUCT_DESCRIPTOR_WITH_RESULTS.

#[global] Instance DescriptorKind_eq_dec : EqDecision DescriptorKind.
Proof. solve_decision. Defined.

Module ProvisioningRequest.
Record t := mk {
  descriptorKind : DescriptorKind;
  descriptor : string;
  removeData : option bool
}.
End ProvisioningRequest.

(** [src/models/customurlpicker_models.py] *)
Module CustomUrlPickerItem.
Record t := mk {
  id : string;
  glossary : string;
  name : string;
  fqn : string
}.
End CustomUrlPickerItem.

Module CustomUrlPickerResourcesRequestBody.
Record t := mk { domain : option string }.
End CustomUrlPickerResourcesRequestBody.

Record CustomUrlPickerSystemError := mkCustomUrlPickerSystemError {
  system_errors : list string
}.

(** ** Catalog entities and requests (the OpenMetadata client library) *)

Module EntityReference.
Record t := mk {
  id : string;
  type_ : string;
  name : option string
}.
End EntityReference.

(** A classification tag; [fullyQualifiedName] is an optional plain
    string. *)
Module Tag.
Record t := mk { fullyQualifiedName : option string }.
End Tag.

(** A glossary term.  [fullyQualifiedName] is an optional wrapper object
    around a string: [Some s] is the wrapper with [root = s] (a wrapper
    object is truthy whatever its root), [None] is Python's [None].
    [name] is the [root] of the (required) entity name. *)
Module GlossaryTerm.
Record t := mk {
  fullyQualifiedName : option string;
  name : string;
  glossary : EntityReference.t;
  domain : option EntityReference.t
}.
End GlossaryTerm.

(** An entity as returned by the client; the gateway reads only [id]. *)
Module Entity.
Record t := mk { id : string }.
End Entity.

(** The entity classes passed to [get_by_name], [delete] and
    [list_all_entities]. *)
Inductive EntityClass :=
| OMDataProductClass
| ContainerClass
| TagClass
| GlossaryTermClass.

#[global] Instance EntityClass_eq_dec : EqDecision EntityClass.
Proof. solve_decision. Defined.

(** Enumerations of the client library that the gateway indexes by member
    name ([DataType[c.dataType]] and the like). *)
Inductive OMEnum :=
| StorageServiceType | DomainType | DataType | LabelType | TagSource | State.

Module TagLabel.
Record t := mk {
  tagFQN : string;
  labelType : string;
  source : string;
  state : string
}.
End TagLabel.

Module Column.
Record t := mk {
  name : string;
  dataType : string;
  description : string;
  tags : list TagLabel.t
}.
End Column.

Module CreateContainerRequest.
Record t := mk {
  name : string;
  displayName : string;
  description : string;
  domain : string;
  dataProducts : list string;
  dataModel_columns : list Column.t;
  service : string;
  extension : gmap string string
}.
End CreateContainerRequest.

Inductive CreateRequest :=
| CreateStorageServiceRequest (name serviceType : string)
| CreateDomainRequest (domainType name description : string)
| CreateDataProductRequest (name displayName description domain : string)
| CreateContainer (r : CreateContainerRequest.t).

(** [OMetaCustomProperties(entity_type, CreateCustomPropertyRequest(name,
    description, PropertyType(EntityReference(id, type))))] *)
Module OMetaCustomProperties.
Record t := mk {
  entity_type : EntityClass;
  name : string;
  description : string;
  propertyType_id : string;
  propertyType_type : string
}.
End OMetaCustomProperties.

Module ParseResult.
Record t := mk { scheme : string; netloc : string }.
End ParseResult.

(** The models of the client library that wrap one string:
    [ColumnName(s)], [Markdown(s)], [TagFQN(s)] and
    [FullyQualifiedEntityName(s)]. *)
Inductive RootModel :=
| ColumnName | Markdown | TagFQN | FullyQualifiedEntityName.

(** What the sources take from libraries without the catalog being
    involved.  A constructor of a library model validates its arguments
    and may raise; the report of a constructor is a function of the value
    it is given.  [validate_root], [validate_tag_label] and
    [validate_column] are the constructors that run between other steps
    that may fault.  [validate_request] (and [validate_custom_property])
    is the request's constructor together with the constructors of its
    parts that run after the last step of another kind; which of several
    invalid fields a library reports is the library's business, and every
    such fault reaches the same handler. *)
Record Library := mkLibrary {
  enum_member : OMEnum -> string -> bool;
  validate_request : CreateRequest -> option Exception;
  validate_custom_property : OMetaCustomProperties.t -> option Exception;
  urlparse : string -> Res ParseResult.t;
  urlunparse : string * string * string * string * string * string -> string;
  quote : string -> string;
  validate_root : RootModel -> string -> option Exception;
  validate_tag_label : TagLabel.t -> option Exception;
  validate_column : Column.t -> option Exception
}.

(** [E[name]]: the member called [name], or [KeyError]. *)
Definition enum_getitem (lib : Library) (E : OMEnum) (name : string)
  : Res string :=
  if enum_member lib E name then Ok name else Raise (KeyError name).

(** Raise what a validation step reports. *)
Definition checked {A} (report : option Exception) (a : A) : Res A :=
  match report with
  | None => Ok a
  | Some e => Raise e
  end.

(** ** The catalog client *)

(** The calls the gateway makes on the client, as a mock would record
    them. *)
Inductive ClientCall :=
| CallGet (path : string)
| CallCreateOrUpdateCustomProperty (p : OMetaCustomProperties.t)
| CallCreateOrUpdate (data : CreateRequest)
| CallGetByName (entity : EntityClass) (fqn : string)
| CallDelete (entity : EntityClass) (entity_id : string) (arg3 arg4 : bool)
| CallListAllEntities (entity : EntityClass).

(** The client ([metadata.ingestion.ometa.ometa_api.OpenMetadata]) over an
    arbitrary state [S] of the remote catalog.  Every method may change
    the state and may raise. *)
Module OpenMetadata.
Record t (S : Type) := mk {
  get : string -> M S (option (gmap string string));
  create_or_update_custom_property : OMetaCustomProperties.t -> M S unit;
  create_or_update : CreateRequest -> M S Entity.t;
  get_by_name : EntityClass -> string -> M S (option Entity.t);
  delete : EntityClass -> string -> bool -> bool -> M S unit;
  list_all_tags : M S (list Tag.t);
  list_all_glossary_terms : M S (list GlossaryTerm.t);
  hostPort : string
}.
Arguments mk {S}.
Arguments get {S}.
Arguments create_or_update_custom_property {S}.
Arguments create_or_update {S}.
Arguments get_by_name {S}.
Arguments delete {S}.
Arguments list_all_tags {S}.
Arguments list_all_glossary_terms {S}.
Arguments hostPort {S}.
End OpenMetadata.

(** Recording of calls: run [m] on the first component and append [c] to
    the log. *)
Definition recorded {S C A} (c : C) (m : M S A) : M (S * list C) A :=
  fun w =>
    match m (fst w) with
    | (s', r) => ((s', snd w ++ [c]), r)
    end.

(** The client with every call recorded. *)
Definition recording_client {S} (c : OpenMetadata.t S)
  : OpenMetadata.t (S * list ClientCall) :=
  OpenMetadata.mk
    (fun path => recorded (CallGet path) (OpenMetadata.get c path))
    (fun p => recorded (CallCreateOrUpdateCustomProperty p)
                (OpenMetadata.create_or_update_custom_property c p))
    (fun data => recorded (CallCreateOrUpdate data)
                   (OpenMetadata.create_or_update c data))
    (fun cls fqn => recorded (CallGetByName cls fqn)
                      (OpenMetadata.get_by_name c cls fqn))
    (fun cls i a b => recorded (CallDelete cls i a b)
                        (OpenMetadata.delete c cls i a b))
    (recorded (CallListAllEntities TagClass) (OpenMetadata.list_all_tags c))
    (recorded (CallListAllEntities GlossaryTermClass)
       (OpenMetadata.list_all_glossary_terms c))
    (OpenMetadata.hostPort c).

(** [src/settings/openmetadata_settings.py] *)
Record OpenMetadataSettings := mkSettings {
  api_base_url : string;
  jwt_token : string;
  default_domain_type : string;
  default_storage_service_name : string;
  default_storage_service_type : string
}.

(** Sequencing of pure, possibly failing expressions. *)
Definition res_bind {A B} (r : Res A) (k : A -> Res B) : Res B :=
  match r with
  | Ok a => k a
  | Raise e => Raise e
  end.

Notation "x <~ r ;; k" := (res_bind r (fun x => k))
  (at level 100, r at next level, right associativity) : py_scope.

(** [d[key]] on a dict with string keys. *)
Definition getitem (d : gmap string string) (key : string) : Res string :=
  match d !! key with
  | Some v => Ok v
  | None => Raise (KeyError key)
  end.

(** [x or []] and [x or ""] *)
Definition or_empty {A} (o : option (list A)) : list A := default [] o.

Definition or_empty_str (o : option string) : string := default EmptyString o.

(** Truth value of a [set]. *)
Definition nonempty (X : gset string) : bool := bool_decide (X ≠ ∅).

(** Truth value of a [list | None]. *)
Definition truthy_list {A} (o : option (list A)) : bool :=
  match o with
  | Some (_ :: _) => true
  | _ => false
  end.

(** ** The catalog gateway: [OpenMetadataClientService] *)

Module OpenMetadataClientService.
Section Service.
Context {S : Type}.
Variable openmetadata_client : OpenMetadata.t S.
Variable openmetadata_settings : OpenMetadataSettings.
Variable lib : Library.

(** Every method body is wrapped alike: any exception becomes the
    service error with the method's message and the cause's text. *)
Definition wrap {A} (message : string) (body : M S A) : M S A :=
  try_except body
    (fun e => raise (ServiceError (message +:+ " Details: " +:+ str e))).

Definition _get_dp_name_from_id (id : string) : Res string :=
  let splitted := Py.split ":" id in
  s3 <~ index splitted 3 ;;
  s4 <~ index splitted 4 ;;
  s5 <~ index splitted 5 ;;
  Ok (s3 +:+ ":" +:+ s4 +:+ ":" +:+ s5).

Definition _get_component_name_from_id (id : string) : Res string :=
  let splitted := Py.split ":" id in
  s3 <~ index splitted 3 ;;
  s4 <~ index splitted 4 ;;
  s5 <~ index splitted 5 ;;
  s6 <~ index splitted 6 ;;
  Ok (s3 +:+ ":" +:+ s4 +:+ ":" +:+ s5 +:+ ":" +:+ s6).

Definition custom_attributes : list (string * string) :=
  [ ("kind", "Type of the entity.");
    ("platform",
     "Represents the vendor: Azure, GCP, AWS, CDP on AWS, etc. It is a free field, but it is useful to understand better the platform where the component will be running.");
    ("technology", "Represents which technology is used for the component.") ].

Definition create_or_update_container_custom_attributes : M S unit :=
  wrap "Failed to create or update container custom attributes."
    (string_type <- OpenMetadata.get openmetadata_client
                      "/metadata/types/name/string" ;;
     match string_type with
     | None =>
         raise (ValueError
           "Unable to retrieve the string type definition. Please contact the platform team.")
     | Some d =>
         if decide (d = ∅) then
           raise (ValueError
             "Unable to retrieve the string type definition. Please contact the platform team.")
         else
           for_each custom_attributes
             (fun '(type_name, description) =>
                p <- lift (description <~
                             checked (validate_root lib Markdown description)
                               description ;;
                           i <~ getitem d "id" ;;
                           n <~ getitem d "name" ;;
                           let p := OMetaCustomProperties.mk ContainerClass
                                      type_name description i n in
                           checked (validate_custom_property lib p) p) ;;
                OpenMetadata.create_or_update_custom_property
                  openmetadata_client p)
     end).

Definition create_or_update_generic_storage_service : M S Entity.t :=
  wrap ("Failed to create or update storage service "
          +:+ default_storage_service_name openmetadata_settings +:+ ".")
    (create_storage_service <-
       lift (ty <~ enum_getitem lib StorageServiceType
                     (default_storage_service_type openmetadata_settings) ;;
             let r := CreateStorageServiceRequest
                        (default_storage_service_name openmetadata_settings)
                        ty in
             checked (validate_request lib r) r) ;;
     OpenMetadata.create_or_update openmetadata_client create_storage_service).

Definition create_or_update_domain (name : string) : M S Entity.t :=
  wrap ("Failed to create or update domain " +:+ name +:+ ".")
    (create_domain <-
       lift (ty <~ enum_getitem lib DomainType
                     (default_domain_type openmetadata_settings) ;;
             let r := CreateDomainRequest ty name name in
             checked (validate_request lib r) r) ;;
     OpenMetadata.create_or_update openmetadata_client create_domain).

Definition create_or_update_dp (dp : DataProduct.t) : M S Entity.t :=
  wrap ("Failed to create or update DP " +:+ DataProduct.id dp +:+ ".")
    (create_dp <-
       lift (name <~ _get_dp_name_from_id (DataProduct.id dp) ;;
             let r := CreateDataProductRequest name (DataProduct.name dp)
                        (DataProduct.description dp) (DataProduct.domain dp) in
             checked (validate_request lib r) r) ;;
     OpenMetadata.create_or_update openmetadata_client create_dp).

Definition delete_dp (dp : DataProduct.t) : M S unit :=
  wrap ("Failed to delete DP " +:+ DataProduct.id dp +:+ ".")
    (name <- lift (_get_dp_name_from_id (DataProduct.id dp)) ;;
     existing_dp <- OpenMetadata.get_by_name openmetadata_client
                      OMDataProductClass name ;;
     match existing_dp with
     | Some e =>
         OpenMetadata.delete openmetadata_client OMDataProductClass
           (Entity.id e) false true
     | None => ret tt
     end).

(** [TagLabel(tagFQN=TagFQN(t.tagFQN), labelType=LabelType[t.labelType],
              source=TagSource[t.source], state=State[t.state])]: the
    arguments are evaluated from left to right, then the constructor
    runs. *)
Definition to_om_tag (t : OpenMetadataTagLabel.t) : Res TagLabel.t :=
  fqn <~ checked (validate_root lib TagFQN (OpenMetadataTagLabel.tagFQN t))
           (OpenMetadataTagLabel.tagFQN t) ;;
  lt <~ enum_getitem lib LabelType (OpenMetadataTagLabel.labelType t) ;;
  src <~ enum_getitem lib TagSource
           (TagSourceTagLabel_value (OpenMetadataTagLabel.source t)) ;;
  st <~ enum_getitem lib State (OpenMetadataTagLabel.state t) ;;
  let label := TagLabel.mk fqn lt src st in
  checked (validate_tag_label lib label) label.

Definition _to_om_tag_list (c : OpenMetadataColumn.t) : Res (list TagLabel.t) :=
  if truthy_list (OpenMetadataColumn.tags c) then
    map_res to_om_tag (or_empty (OpenMetadataColumn.tags c))
  else Ok [].

(** [Column(name=ColumnName(c.name), dataType=DataType[c.dataType],
            description=Markdown(c.description or ""),
            tags=self._to_om_tag_list(c))] *)
Definition to_om_column (c : OpenMetadataColumn.t) : Res Column.t :=
  name <~ checked (validate_root lib ColumnName (OpenMetadataColumn.name c))
            (OpenMetadataColumn.name c) ;;
  dt <~ enum_getitem lib DataType (OpenMetadataColumn.dataType c) ;;
  description <~
    checked (validate_root lib Markdown
               (or_empty_str (OpenMetadataColumn.description c)))
      (or_empty_str (OpenMetadataColumn.description c)) ;;
  tags <~ _to_om_tag_list c ;;
  let column := Column.mk name dt description tags in
  checked (validate_column lib column) column.

Definition _to_om_column_list (op : OutputPort.t) : Res (list Column.t) :=
  if truthy_list (DataContract.schema_ (OutputPort.dataContract op)) then
    map_res to_om_column
      (or_empty (DataContract.schema_ (OutputPort.dataContract op)))
  else Ok [].

Definition create_or_update_op (dp : DataProduct.t) (op : OutputPort.t)
  : M S Entity.t :=
  wrap ("Failed to create or update Output Port " +:+ OutputPort.id op +:+ ".")
    (create_op <-
       lift (name <~ _get_component_name_from_id (OutputPort.id op) ;;
             dp_id_name <~ _get_dp_name_from_id (DataProduct.id dp) ;;
             dp_name <~ checked (validate_root lib FullyQualifiedEntityName
                                   dp_id_name) dp_id_name ;;
             columns <~ _to_om_column_list op ;;
             let r := CreateContainer
                        (CreateContainerRequest.mk name (OutputPort.name op)
                           (OutputPort.description op) (DataProduct.domain dp)
                           [dp_name] columns
                           (default_storage_service_name openmetadata_settings)
                           (<["kind" := OutputPort.kind op]>
                              (<["platform" :=
                                   or_empty_str (OutputPort.platform op)]>
                                 (<["technology" :=
                                      or_empty_str (OutputPort.technology op)]>
                                    ∅)))) in
             checked (validate_request lib r) r) ;;
     OpenMetadata.create_or_update openmetadata_client create_op).

Definition delete_op (op : OutputPort.t) : M S unit :=
  wrap ("Failed to delete Output Port " +:+ OutputPort.id op +:+ ".")
    (name <- lift (_get_component_name_from_id (OutputPort.id op)) ;;
     existing_op <- OpenMetadata.get_by_name openmetadata_client ContainerClass
                      (default_storage_service_name openmetadata_settings
                         +:+ "." +:+ name) ;;
     match existing_op with
     | Some e =>
         OpenMetadata.delete openmetadata_client ContainerClass
           (Entity.id e) false true
     | None => ret tt
     end).

Definition get_all_classification_tags : M S (list Tag.t) :=
  wrap "Failed to retrieve classification tags."
    (OpenMetadata.list_all_tags openmetadata_client).

Definition get_all_glossary_terms : M S (list GlossaryTerm.t) :=
  wrap "Failed to retrieve glossary terms."
    (OpenMetadata.list_all_glossary_terms openmetadata_client).

Definition get_base_url : Res string :=
  let host := OpenMetadata.hostPort openmetadata_client in
  parsed <~ urlparse lib host ;;
  Ok (urlunparse lib (ParseResult.scheme parsed, ParseResult.netloc parsed,
                      "/", "", "", "")).

End Service.
End OpenMetadataClientService.

(** ** The gateway as the services see it *)

(** [ProvisionService] and [GlossaryTermsService] hold an object with the
    gateway's methods; the tests pass a mock.  [W] is whatever the object
    acts on. *)
Module Gateway.
Record t (W : Type) := mk {
  create_or_update_generic_storage_service : M W Entity.t;
  create_or_update_container_custom_attributes : M W unit;
  create_or_update_domain : string -> M W Entity.t;
  create_or_update_dp : DataProduct.t -> M W Entity.t;
  create_or_update_op : DataProduct.t -> OutputPort.t -> M W Entity.t;
  delete_dp : DataProduct.t -> M W unit;
  delete_op : OutputPort.t -> M W unit;
  get_all_classification_tags : M W (list Tag.t);
  get_all_glossary_terms : M W (list GlossaryTerm.t);
  get_base_url : M W string;
  _get_dp_name_from_id : string -> M W string
}.
Arguments mk {W}.
Arguments create_or_update_generic_storage_service {W}.
Arguments create_or_update_container_custom_attributes {W}.
Arguments create_or_update_domain {W}.
Arguments create_or_update_dp {W}.
Arguments create_or_update_op {W}.
Arguments delete_dp {W}.
Arguments delete_op {W}.
Arguments get_all_classification_tags {W}.
Arguments get_all_glossary_terms {W}.
Arguments get_base_url {W}.
Arguments _get_dp_name_from_id {W}.
End Gateway.

(** The real gateway over a client. *)
Definition openmetadata_client_service {S} (client : OpenMetadata.t S)
  (settings : OpenMetadataSettings) (lib : Library) : Gateway.t S :=
  Gateway.mk
    (OpenMetadataClientService.create_or_update_generic_storage_service
       client settings lib)
    (OpenMetadataClientService.create_or_update_container_custom_attributes
       client lib)
    (OpenMetadataClientService.create_or_update_domain client settings lib)
    (OpenMetadataClientService.create_or_update_dp client lib)
    (OpenMetadataClientService.create_or_update_op client settings lib)
    (OpenMetadataClientService.delete_dp client)
    (OpenMetadataClientService.delete_op client settings)
    (OpenMetadataClientService.get_all_classification_tags client)
    (OpenMetadataClientService.get_all_glossary_terms client)
    (lift (OpenMetadataClientService.get_base_url client lib))
    (fun id => lift (OpenMetadataClientService._get_dp_name_from_id id)).

(** The gateway calls [ProvisionService] makes, as a mock would record
    them, each with how it ended. *)
Inductive GatewayCall :=
| CreateOrUpdateGenericStorageService
| CreateOrUpdateContainerCustomAttributes
| CreateOrUpdateDomain (name : string)
| CreateOrUpdateDp (dp : DataProduct.t)
| CreateOrUpdateOp (dp : DataProduct.t) (op : OutputPort.t)
| DeleteDp (dp : DataProduct.t)
| DeleteOp (op : OutputPort.t)
| GetAllClassificationTags
| GetAllGlossaryTerms
| GetBaseUrl
| GetDpNameFromId (id : string).

Inductive Outcome :=
| Returned
| Raised (e : Exception).

Definition outcome_of {A} (r : Res A) : Outcome :=
  match r with
  | Ok _ => Returned
  | Raise e => Raised e
  end.

Definition observed {W A} (c : GatewayCall) (m : M W A)
  : M (W * list (GatewayCall * Outcome)) A :=
  fun w =>
    match m (fst w) with
    | (w', r) => ((w', snd w ++ [(c, outcome_of r)]), r)
    end.

(** A gateway with every call and its outcome recorded. *)
Definition observed_gateway {W} (g : Gateway.t W)
  : Gateway.t (W * list (GatewayCall * Outcome)) :=
  Gateway.mk
    (observed CreateOrUpdateGenericStorageService
       (Gateway.create_or_update_generic_storage_service g))
    (observed CreateOrUpdateContainerCustomAttributes
       (Gateway.create_or_update_container_custom_attributes g))
    (fun name => observed (CreateOrUpdateDomain name)
                   (Gateway.create_or_update_domain g name))
    (fun dp => observed (CreateOrUpdateDp dp) (Gateway.create_or_update_dp g dp))
    (fun dp op => observed (CreateOrUpdateOp dp op)
                    (Gateway.create_or_update_op g dp op))
    (fun dp => observed (DeleteDp dp) (Gateway.delete_dp g dp))
    (fun op => observed (DeleteOp op) (Gateway.delete_op g op))
    (observed GetAllClassificationTags (Gateway.get_all_classification_tags g))
    (observed GetAllGlossaryTerms (Gateway.get_all_glossary_terms g))
    (observed GetBaseUrl (Gateway.get_base_url g))
    (fun id => observed (GetDpNameFromId id) (Gateway._get_dp_name_from_id g id)).

(** ** [ProvisionService] *)

Module ProvisionService.
Section Service.
Context {W : Type}.
Variable openmetadata_client_service : Gateway.t W.
Variable lib : Library.

(** The order in which a Python [set] of strings is iterated is not fixed
    by the sources; [iter] is that order. *)
Variable iter : gset string -> list string.

(** [[column for op in data_product.get_output_ports()
            for column in (op.dataContract.schema_ or [])]] *)
Definition columns (data_product : DataProduct.t) : list OpenMetadataColumn.t :=
  flat_map (fun op => or_empty (DataContract.schema_ (OutputPort.dataContract op)))
    (DataProduct.get_output_ports data_product).

(** [[tag for column in columns if column.tags for tag in column.tags]] *)
Definition tags (data_product : DataProduct.t) : list OpenMetadataTagLabel.t :=
  flat_map (fun column => or_empty (OpenMetadataColumn.tags column))
    (List.filter (fun column => truthy_list (OpenMetadataColumn.tags column))
       (columns data_product)).

(** [{t.tagFQN for t in tags if t.source == src}] *)
Definition tags_of_source (src : TagSourceTagLabel)
  (data_product : DataProduct.t) : gset string :=
  list_to_set
    (map OpenMetadataTagLabel.tagFQN
       (List.filter
          (fun t => bool_decide (OpenMetadataTagLabel.source t = src))
          (tags data_product))).

Definition classification_tags := tags_of_source CLASSIFICATION.

Definition glossary_terms := tags_of_source GLOSSARY.

(** [{t.fullyQualifiedName for t in ... if t.fullyQualifiedName}] *)
Definition existing_tags (all_tags : list Tag.t) : gset string :=
  list_to_set
    (omap (fun t =>
             if Py.truthy_opt (Tag.fullyQualifiedName t)
             then Tag.fullyQualifiedName t else None)
       all_tags).

(** [{g.fullyQualifiedName.root for g in ... if g.fullyQualifiedName}] *)
Definition existing_terms (all_terms : list GlossaryTerm.t) : gset string :=
  list_to_set (omap GlossaryTerm.fullyQualifiedName all_terms).

Definition missing_tags_message (missing_tags : gset string) : string :=
  "Missing classification tags " +:+ Py.join "," (iter missing_tags)
    +:+ " in OpenMetadata".

Definition missing_terms_message (missing_terms : gset string) : string :=
  "Missing glossary terms " +:+ Py.join "," (iter missing_terms)
    +:+ " in OpenMetadata".

(** The result is [None], a [ValidationError] or a [SystemErr]. *)
Definition validate (data_product : DataProduct.t)
  : M W (option (ValidationError + SystemErr)) :=
  try_except_ServiceError
    (let classification_tags := classification_tags data_product in
     let glossary_terms := glossary_terms data_product in
     all_tags <- Gateway.get_all_classification_tags
                   openmetadata_client_service ;;
     let existing_tags := existing_tags all_tags in
     all_terms <- Gateway.get_all_glossary_terms openmetadata_client_service ;;
     let existing_terms := existing_terms all_terms in
     let missing_tags := classification_tags ∖ existing_tags in
     let missing_terms := glossary_terms ∖ existing_terms in
     if nonempty missing_tags || nonempty missing_terms then
       let errors := [] in
       let errors :=
         if nonempty missing_tags
         then errors ++ [missing_tags_message missing_tags] else errors in
       let errors :=
         if nonempty missing_terms
         then errors ++ [missing_terms_message missing_terms] else errors in
       ret (Some (inl (mkValidationError errors)))
     else ret None)
    (fun error_msg => ret (Some (inr (mkSystemErr error_msg)))).

Definition _get_public_info (data_product : DataProduct.t)
  : M W (gmap string (gmap string (gmap string string))) :=
  base_url <- Gateway.get_base_url openmetadata_client_service ;;
  dp_name <- Gateway._get_dp_name_from_id openmetadata_client_service
               (DataProduct.id data_product) ;;
  let href := base_url +:+ "dataProduct/" +:+ quote lib dp_name in
  let system_url : gmap string string :=
    <["type" := "string"]>
      (<["label" := "OpenMetadata URL"]>
         (<["value" := "View in OpenMetadata"]>
            (<["href" := href]> ∅))) in
  let openmetadata_info : gmap string (gmap string string) :=
    <["system_url" := system_url]> ∅ in
  ret (<[DataProduct.id data_product := openmetadata_info]> ∅).

Definition provision (data_product : DataProduct.t)
  : M W (ProvisioningStatus + SystemErr) :=
  try_except_ServiceError
    (Gateway.create_or_update_generic_storage_service
       openmetadata_client_service ;;;
     Gateway.create_or_update_container_custom_attributes
       openmetadata_client_service ;;;
     Gateway.create_or_update_domain openmetadata_client_service
       (DataProduct.domain data_product) ;;;
     Gateway.create_or_update_dp openmetadata_client_service data_product ;;;
     for_each (DataProduct.get_output_ports data_product)
       (fun op =>
          Gateway.create_or_update_op openmetadata_client_service
            data_product op ;;;
          ret tt) ;;;
     public_info <- _get_public_info data_product ;;
     ret (inl (mkProvisioningStatus COMPLETED ""
                 (Some (mkInfo public_info ∅)))))
    (fun error_msg => ret (inr (mkSystemErr error_msg))).

Definition unprovision (data_product : DataProduct.t) (remove_data : bool)
  : M W (ProvisioningStatus + SystemErr) :=
  try_except_ServiceError
    (for_each (DataProduct.get_output_ports data_product)
       (fun op => Gateway.delete_op openmetadata_client_service op) ;;;
     Gateway.delete_dp openmetadata_client_service data_product ;;;
     ret (inl (mkProvisioningStatus COMPLETED "" None)))
    (fun error_msg => ret (inr (mkSystemErr error_msg))).

End Service.
End ProvisionService.

(** ** [GlossaryTermsService] *)

Module GlossaryTermsService.
Section Service.
Context {W : Type}.
Variable openmetadata_client_service : Gateway.t W.

(** [str.lower] *)
Variable lower : string -> string.

(** [term.fullyQualifiedName and filter.lower() in
    term.fullyQualifiedName.root.lower()] *)
Definition matches_filter (filter : string) (term : GlossaryTerm.t) : bool :=
  match GlossaryTerm.fullyQualifiedName term with
  | Some root => Py.contains (lower filter) (lower root)
  | None => false
  end.

Definition filtered_terms (filter : option string)
  (all_terms : list GlossaryTerm.t) : list GlossaryTerm.t :=
  match filter with
  | Some f =>
      if Py.truthy f then List.filter (matches_filter f) all_terms
      else all_terms
  | None => all_terms
  end.

(** [term.fullyQualifiedName and term.domain and term.domain.name and
    domain.lower() in term.domain.name.lower()] *)
Definition matches_domain (domain : string) (term : GlossaryTerm.t) : bool :=
  match GlossaryTerm.fullyQualifiedName term with
  | Some _ =>
      match GlossaryTerm.domain term with
      | Some d =>
          match EntityReference.name d with
          | Some name =>
              Py.truthy name && Py.contains (lower domain) (lower name)
          | None => false
          end
      | None => false
      end
  | None => false
  end.

(** The value of [resources_request_body and resources_request_body.domain]
    when it is truthy. *)
Definition domain_filter
  (resources_request_body : option CustomUrlPickerResourcesRequestBody.t)
  : option string :=
  match resources_request_body with
  | Some body =>
      match CustomUrlPickerResourcesRequestBody.domain body with
      | Some d => if Py.truthy d then Some d else None
      | None => None
      end
  | None => None
  end.

Definition filtered_terms_by_domain
  (resources_request_body : option CustomUrlPickerResourcesRequestBody.t)
  (filtered_terms : list GlossaryTerm.t) : list GlossaryTerm.t :=
  match domain_filter resources_request_body with
  | Some d => List.filter (matches_domain d) filtered_terms
  | None => filtered_terms
  end.

Definition paginated_terms (offset limit : Z)
  (filtered_terms_by_domain : list GlossaryTerm.t) : list GlossaryTerm.t :=
  Py.slice filtered_terms_by_domain (offset * limit) (offset * limit + limit).

(** [CustomUrlPickerItem(id=..., glossary=term.glossary.name, ...)]: the
    glossary reference's name is optional, the item's [glossary] is a
    required string, so the constructor rejects [None]. *)
Definition picker_item (root : string) (term : GlossaryTerm.t)
  : Res CustomUrlPickerItem.t :=
  match EntityReference.name (GlossaryTerm.glossary term) with
  | Some g => Ok (CustomUrlPickerItem.mk root g (GlossaryTerm.name term) root)
  | None =>
      Raise (LibraryError "1 validation error for CustomUrlPickerItem")
  end.

(** [[CustomUrlPickerItem(...) for term in paginated_terms
      if term.fullyQualifiedName]] *)
Fixpoint picker_items (paginated_terms : list GlossaryTerm.t)
  : Res (list CustomUrlPickerItem.t) :=
  match paginated_terms with
  | [] => Ok []
  | term :: rest =>
      match GlossaryTerm.fullyQualifiedName term with
      | Some root =>
          item <~ picker_item root term ;;
          items <~ picker_items rest ;;
          Ok (item :: items)
      | None => picker_items rest
      end
  end.

Definition get_terms
  (resources_request_body : option CustomUrlPickerResourcesRequestBody.t)
  (offset limit : Z) (filter : option string)
  : M W (list CustomUrlPickerItem.t + CustomUrlPickerSystemError) :=
  try_except_ServiceError
    (all_terms <- Gateway.get_all_glossary_terms openmetadata_client_service ;;
     let filtered_terms := filtered_terms filter all_terms in
     let filtered_terms_by_domain :=
       filtered_terms_by_domain resources_request_body filtered_terms in
     let paginated_terms :=
       paginated_terms offset limit filtered_terms_by_domain in
     items <- lift (picker_items paginated_terms) ;;
     ret (inl items))
    (fun error_msg => ret (inr (mkCustomUrlPickerSystemError [error_msg]))).

End Service.
End GlossaryTermsService.

(** ** [dependencies.unpack_provisioning_request] *)

Section Dependencies.

(** The generic tree [yaml.safe_load] produces. *)
Context {Yaml : Type}.

(** [yaml.safe_load] *)
Variable safe_load : string -> Res Yaml.

(** [parse_yaml_with_model(_, DataProduct)] from
    [src/utility/parsing_pydantic_models.py], which is not among the
    sources: it returns a data product or a [ValidationError], or
    raises. *)
Variable parse_yaml_with_model : Yaml -> Res (DataProduct.t + ValidationError).

(** How an f-string renders a descriptor kind. *)
Variable format_kind : DescriptorKind -> string.

Definition unpack_provisioning_request
  (provisioning_request : ProvisioningRequest.t)
  : Res (DataProduct.t + ValidationError) :=
  let kind := ProvisioningRequest.descriptorKind provisioning_request in
  if negb (bool_decide (kind = DATAPRODUCT_DESCRIPTOR))
     && negb (bool_decide (kind = DATAPRODUCT_DESCRIPTOR_WITH_RESULTS))
  then
    let error :=
      "Expecting a DATAPRODUCT_DESCRIPTOR but got a " +:+ format_kind kind
        +:+ " instead; please check with the platform team." in
    Ok (inr (mkValidationError [error]))
  else
    match
      (descriptor_dict <~
         safe_load (ProvisioningRequest.descriptor provisioning_request) ;;
       parse_yaml_with_model descriptor_dict)
    with
    | Ok data_product_or_error => Ok data_product_or_error
    | Raise ex =>
        Ok (inr (mkValidationError ["Unable to parse the descriptor."; str ex]))
    end.

End Dependencies.

(** ** Vocabulary of the statements *)

(** Number of occurrences of a character. *)
Fixpoint occurrences (sep : ascii) (s : string) : nat :=
  match s with
  | EmptyString => 0
  | String c rest =>
      (if Ascii.eqb c sep then 1 else 0) + occurrences sep rest
  end.

(** The gateway calls of a provisioning, in the order of spec section
    4.4: storage service, custom attributes, domain, data product, then one
    output port per component in descriptor order. *)
Definition provision_plan (dp : DataProduct.t) : list GatewayCall :=
  [ CreateOrUpdateGenericStorageService;
    CreateOrUpdateContainerCustomAttributes;
    CreateOrUpdateDomain (DataProduct.domain dp);
    CreateOrUpdateDp dp ]
  ++ map (CreateOrUpdateOp dp) (DataProduct.get_output_ports dp).

(** After the plan, [provision] asks the gateway object for the base url
    and the data-product name to build the deep link; these two methods
    do not reach the catalog. *)
Definition provision_calls (dp : DataProduct.t) : list GatewayCall :=
  provision_plan dp ++ [GetBaseUrl; GetDpNameFromId (DataProduct.id dp)].

(** A log in which every call returned. *)
Definition returned (calls : list GatewayCall) : list (GatewayCall * Outcome) :=
  map (fun c => (c, Returned)) calls.

(** What a service method with [except ServiceError] makes of an exception
    [e] raised inside its [try]: a service error becomes [on_service_error],
    anything else propagates. *)
Definition fault_result {A} (on_service_error : string -> A) (e : Exception)
  : Res A :=
  match e with
  | ServiceError msg => Ok (on_service_error msg)
  | _ => Raise e
  end.

(** One gateway call, its value dropped. *)
Definition perform {W} (g : Gateway.t W) (c : GatewayCall) : M W unit :=
  match c with
  | CreateOrUpdateGenericStorageService =>
      Gateway.create_or_update_generic_storage_service g ;;; ret tt
  | CreateOrUpdateContainerCustomAttributes =>
      Gateway.create_or_update_container_custom_attributes g ;;; ret tt
  | CreateOrUpdateDomain name => Gateway.create_or_update_domain g name ;;; ret tt
  | CreateOrUpdateDp dp => Gateway.create_or_update_dp g dp ;;; ret tt
  | CreateOrUpdateOp dp op => Gateway.create_or_update_op g dp op ;;; ret tt
  | DeleteDp dp => Gateway.delete_dp g dp ;;; ret tt
  | DeleteOp op => Gateway.delete_op g op ;;; ret tt
  | GetAllClassificationTags => Gateway.get_all_classification_tags g ;;; ret tt
  | GetAllGlossaryTerms => Gateway.get_all_glossary_terms g ;;; ret tt
  | GetBaseUrl => Gateway.get_base_url g ;;; ret tt
  | GetDpNameFromId id => Gateway._get_dp_name_from_id g id ;;; ret tt
  end.

(** Calls in sequence, stopping at the first exception. *)
Definition run_calls {W} (g : Gateway.t W) (calls : list GatewayCall)
  : M W unit :=
  for_each calls (perform g).

(** A tag label of source [src] with name [fqn] occurs in the schema of
    some component of the data product. *)
Definition referenced (src : TagSourceTagLabel) (dp : DataProduct.t)
  (fqn : string) : Prop :=
  exists op columns column labels t,
    op ∈ DataProduct.components dp
    /\ DataContract.schema_ (OutputPort.dataContract op) = Some columns
    /\ column ∈ columns
    /\ OpenMetadataColumn.tags column = Some labels
    /\ t ∈ labels
    /\ OpenMetadataTagLabel.source t = src
    /\ OpenMetadataTagLabel.tagFQN t = fqn.

(** The catalog has a classification tag, respectively a glossary term,
    of that fully-qualified name. *)
Definition in_catalog_tags (all_tags : list Tag.t) (fqn : string) : Prop :=
  exists t, t ∈ all_tags /\ Tag.fullyQualifiedName t = Some fqn.

Definition in_catalog_terms (all_terms : list GlossaryTerm.t) (fqn : string)
  : Prop :=
  exists t, t ∈ all_terms /\ GlossaryTerm.fullyQualifiedName t = Some fqn.

(** The message of one category of missing identifiers; none when
    nothing is missing. *)
Definition category_message (category : string) (missing : list string)
  : list string :=
  match missing with
  | [] => []
  | _ => ["Missing " +:+ category +:+ " " +:+ Py.join "," missing
            +:+ " in OpenMetadata"]
  end.

(** What validation answers when [missing_tags] and [missing_terms] are
    the missing identifiers: nothing when both are empty, otherwise a
    ValidationError with the classification message first. *)
Definition validation_answer (missing_tags missing_terms : list string)
  : option (ValidationError + SystemErr) :=
  match missing_tags, missing_terms with
  | [], [] => None
  | _, _ =>
      Some (inl (mkValidationError
                   (category_message "classification tags" missing_tags
                    ++ category_message "glossary terms" missing_terms)))
  end.

(** The picker item of a glossary term that has a fully-qualified name
    and a named glossary. *)
Definition item_of (term : GlossaryTerm.t) : option CustomUrlPickerItem.t :=
  match GlossaryTerm.fullyQualifiedName term,
        EntityReference.name (GlossaryTerm.glossary term) with
  | Some root, Some g =>
      Some (CustomUrlPickerItem.mk root g (GlossaryTerm.name term) root)
  | _, _ => None
  end.

(** The term has a domain reference that carries a non-empty name. *)
Definition has_named_domain (term : GlossaryTerm.t) : Prop :=
  exists d name,
    GlossaryTerm.domain term = Some d
    /\ EntityReference.name d = Some name
    /\ name <> EmptyString.

(** The term with its domain reference taken away. *)
Definition without_domain (term : GlossaryTerm.t) : GlossaryTerm.t :=
  GlossaryTerm.mk (GlossaryTerm.fullyQualifiedName term)
    (GlossaryTerm.name term) (GlossaryTerm.glossary term) None.

(** The list a page of glossary terms is cut from: the catalog's terms
    after the text filter and the domain filter. *)
Definition candidates (lower : string -> string)
  (body : option CustomUrlPickerResourcesRequestBody.t)
  (filter : option string) (all_terms : list GlossaryTerm.t)
  : list GlossaryTerm.t :=
  GlossaryTermsService.filtered_terms_by_domain lower body
    (GlossaryTermsService.filtered_terms lower filter all_terms).

(** ** Sample data (from the tests) *)

Definition sample_component_id : string :=
  "urn:dmb:cmp:healthcare:vaccinations:0:snowflake-output-port".

Definition five_segment_id : string := "urn:dmb:cmp:healthcare:vaccinations".

(** The data product and output port of the service tests. *)
Definition sample_tags : list OpenMetadataTagLabel.t :=
  [ OpenMetadataTagLabel.mk "classification.tag1" "Manual" "Confirmed"
      CLASSIFICATION;
    OpenMetadataTagLabel.mk "glossary.term1" "Manual" "Confirmed" GLOSSARY ].

Definition sample_op : OutputPort.t :=
  OutputPort.mk "urn:dmb:cmp:healthcare:vaccinations:0:output-port"
    "Test Output Port" "Test Description" "outputport"
    (Some "TestPlatform") (Some "TestTech")
    (DataContract.mk
       (Some [OpenMetadataColumn.mk "test_column" "STRING"
                (Some "Test description") (Some sample_tags)])).

Definition sample_dp : DataProduct.t :=
  DataProduct.mk "urn:dmb:cmp:healthcare:vaccinations:0" "Test DP"
    "Test Description" "domain" [sample_op].

(** A mock gateway without state: [fault c] is the exception the call [c]
    raises, if any; otherwise the call returns a fixed value. *)
Definition mock_call {A} (fault : GatewayCall -> option Exception)
  (c : GatewayCall) (value : A) : M unit A :=
  match fault c with
  | Some e => raise e
  | None => ret value
  end.

Definition mock_gateway (fault : GatewayCall -> option Exception)
  (all_tags : list Tag.t) (all_terms : list GlossaryTerm.t) : Gateway.t unit :=
  Gateway.mk
    (mock_call fault CreateOrUpdateGenericStorageService (Entity.mk "id"))
    (mock_call fault CreateOrUpdateContainerCustomAttributes tt)
    (fun name => mock_call fault (CreateOrUpdateDomain name) (Entity.mk "id"))
    (fun dp => mock_call fault (CreateOrUpdateDp dp) (Entity.mk "id"))
    (fun dp op => mock_call fault (CreateOrUpdateOp dp op) (Entity.mk "id"))
    (fun dp => mock_call fault (DeleteDp dp) tt)
    (fun op => mock_call fault (DeleteOp op) tt)
    (mock_call fault GetAllClassificationTags all_tags)
    (mock_call fault GetAllGlossaryTerms all_terms)
    (mock_call fault GetBaseUrl "http://localhost:8585/")
    (fun id => mock_call fault (GetDpNameFromId id) "DP Name").

(** The second provisioning step faults with a service error. *)
Definition attributes_fault (c : GatewayCall) : option Exception :=
  match c with
  | CreateOrUpdateContainerCustomAttributes => Some (ServiceError "Test error")
  | _ => None
  end.

Definition no_fault (c : GatewayCall) : option Exception := None.

(** Library functions for the examples: every enumeration member exists,
    every model validates, urls are left as they are. *)
Definition sample_lib : Library :=
  mkLibrary (fun _ _ => true) (fun _ => None) (fun _ => None)
    (fun host => Ok (ParseResult.mk "http" host))
    (fun '(scheme, netloc, path, _, _, _) =>
       scheme +:+ "://" +:+ netloc +:+ path)
    (fun s => s)
    (fun _ _ => None) (fun _ => None) (fun _ => None).

(** The catalog of [test_validate_success]: both referenced names exist. *)
Definition sample_catalog_tags : list Tag.t :=
  [Tag.mk (Some "classification.tag1")].

Definition sample_term : GlossaryTerm.t :=
  GlossaryTerm.mk (Some "glossary1.term1") "term1"
    (EntityReference.mk "1" "Glossary" (Some "glossary1"))
    (Some (EntityReference.mk "2" "Glossary" (Some "domain1"))).

Definition sample_catalog_terms : list GlossaryTerm.t :=
  [GlossaryTerm.mk (Some "glossary.term1") "term1"
     (EntityReference.mk "1" "Glossary" (Some "glossary1")) None].

(** The first catalog read of [validate] faults
    ([test_validate_service_error]). *)
Definition tags_read_fault (c : GatewayCall) : option Exception :=
  match c with
  | GetAllClassificationTags => Some (ServiceError "Test error")
  | _ => None
  end.

(** [OpenMetadataSettings(api_base_url="", jwt_token="")] with the defaults
    of the settings class. *)
Definition sample_settings : OpenMetadataSettings :=
  mkSettings "" "" "Aggregate" "generic" "CustomStorage".

(** A client on a catalog that holds nothing and never faults
    ([get_by_name] returns [None]). *)
Definition empty_catalog_client : OpenMetadata.t unit :=
  OpenMetadata.mk
    (fun _ => ret (Some (<["id" := "1"]> (<["name" := "string"]> ∅))))
    (fun _ => ret tt)
    (fun _ => ret (Entity.mk "id"))
    (fun _ _ => ret None)
    (fun _ _ _ _ => ret tt)
    (ret [])
    (ret [])
    "http://localhost:8585".

(** The second term of [test_get_terms_with_pagination]; it has no
    domain. *)
Definition sample_term2 : GlossaryTerm.t :=
  GlossaryTerm.mk (Some "glossary1.term2") "term2"
    (EntityReference.mk "1" "Glossary" (Some "glossary1")) None.

(** A term without a fully-qualified name. *)
Definition unnamed_term : GlossaryTerm.t :=
  GlossaryTerm.mk None "term0"
    (EntityReference.mk "1" "Glossary" (Some "glossary1")) None.

Definition sample_item : CustomUrlPickerItem.t :=
  CustomUrlPickerItem.mk "glossary1.term1" "glossary1" "term1" "glossary1.term1".

Definition sample_item2 : CustomUrlPickerItem.t :=
  CustomUrlPickerItem.mk "glossary1.term2" "glossary1" "term2" "glossary1.term2".

(** Lower-casing of the letters A to Z, for the examples. *)
Definition lower_ascii (c : ascii) : ascii :=
  let n := nat_of_ascii c in
  if (65 <=? n) && (n <=? 90) then ascii_of_nat (n + 32) else c.

Fixpoint sample_lower (s : string) : string :=
  match s with
  | EmptyString => EmptyString
  | String c rest => String (lower_ascii c) (sample_lower rest)
  end.

(** An unpacking environment for the examples: the tree is the text, a
    text that opens a flow sequence without closing it does not load, and
    the parsing helper reports a schema mismatch as a ValidationError of
    its own, as [test_invalid_request] expects of it. *)
Definition sample_safe_load (text : string) : Res string :=
  if String.eqb text "key: [unclosed"
  then Raise (LibraryError "while parsing a flow sequence")
  else Ok text.

Definition sample_parse_yaml_with_model (tree : string)
  : Res (DataProduct.t + ValidationError) :=
  if String.eqb tree "valid descriptor" then Ok (inl sample_dp)
  else Ok (inr (mkValidationError ["Failed to parse the descriptor"])).

Definition sample_format_kind (kind : DescriptorKind) : string :=
  match kind with
  | DATAPRODUCT_DESCRIPTOR => "DATAPRODUCT_DESCRIPTOR"
  | COMPONENT_DESCRIPTOR => "COMPONENT_DESCRIPTOR"
  | DATAPRODUCT_DESCRIPTOR_WITH_RESULTS => "DATAPRODUCT_DESCRIPTOR_WITH_RESULTS"
  end.

(** ** Further operations of the sources *)

(** [OpenMetadataClientService.get_classification_tag] and
    [get_glossary_term]: point lookups by fully-qualified name. *)
Section PointLookups.
Context {S : Type}.
Variable openmetadata_client : OpenMetadata.t S.

Definition get_classification_tag (fqn : string) : M S (option Entity.t) :=
  OpenMetadataClientService.wrap
    ("Failed to retrieve classification tag " +:+ fqn +:+ ".")
    (OpenMetadata.get_by_name openmetadata_client TagClass fqn).

Definition get_glossary_term (fqn : string) : M S (option Entity.t) :=
  OpenMetadataClientService.wrap
    ("Failed to retrieve glossary term " +:+ fqn +:+ ".")
    (OpenMetadata.get_by_name openmetadata_client GlossaryTermClass fqn).

End PointLookups.

(** [src/models/customurlpicker_models.py], the validation models. *)
Module CustomUrlPickerError.
Record t := mk {
  error : string;
  suggestion : option string
}.
End CustomUrlPickerError.

Record CustomUrlPickerValidationError := mkCustomUrlPickerValidationError {
  validation_errors : list CustomUrlPickerError.t
}.

Module CustomUrlPickerValidationRequest.
Record t := mk {
  selectedObjects : list CustomUrlPickerItem.t;
  queryParameters : option CustomUrlPickerResourcesRequestBody.t
}.
End CustomUrlPickerValidationRequest.

(** [GlossaryTermsService.validate_terms]; [lookup] is the gateway's
    [get_glossary_term]. *)
Section ValidateTerms.
Context {W : Type}.
Variable lookup : string -> M W (option Entity.t).

(** [[item for item in selected
      if not self.openmetadata_client_service.get_glossary_term(item.fqn)]] *)
Fixpoint not_found_terms (selected : list CustomUrlPickerItem.t)
  : M W (list CustomUrlPickerItem.t) :=
  match selected with
  | [] => ret []
  | item :: rest =>
      found <- lookup (CustomUrlPickerItem.fqn item) ;;
      others <- not_found_terms rest ;;
      ret (match found with
           | Some _ => others
           | None => item :: others
           end)
  end.

Definition not_found_error (term : CustomUrlPickerItem.t)
  : CustomUrlPickerError.t :=
  CustomUrlPickerError.mk
    ("Glossary term " +:+ CustomUrlPickerItem.fqn term
       +:+ " not found in OpenMetadata")
    None.

(** The result is the string, a validation error or a system error. *)
Definition validate_terms
  (validation_request : CustomUrlPickerValidationRequest.t)
  : M W (string
         + (CustomUrlPickerValidationError + CustomUrlPickerSystemError)) :=
  try_except_ServiceError
    (not_found <- not_found_terms
                    (CustomUrlPickerValidationRequest.selectedObjects
                       validation_request) ;;
     ret (match not_found with
          | [] => inl "Validation successful"
          | _ :: _ =>
              inr (inl (mkCustomUrlPickerValidationError
                          (map not_found_error not_found)))
          end))
    (fun error_msg => ret (inr (inr (mkCustomUrlPickerSystemError [error_msg])))).

End ValidateTerms.

(** Modelled from the spec: the ACL-update envelope of the missing
    [src/models/api_models.py] (spec section 6):
    [{provisionInfo: {request, result}, refs}]. *)
Module ProvisionInfo.
Record t := mk {
  request : string;
  result : string
}.
End ProvisionInfo.

Module UpdateAclRequest.
Record t := mk {
  refs : list string;
  provisionInfo : ProvisionInfo.t
}.
End UpdateAclRequest.

(** [dependencies.unpack_unprovisioning_request] and
    [dependencies.unpack_update_acl_request] *)
Section FurtherDependencies.
Context {Yaml : Type}.
Variable safe_load : string -> Res Yaml.
Variable parse_yaml_with_model : Yaml -> Res (DataProduct.t + ValidationError).
Variable format_kind : DescriptorKind -> string.

Definition unpack_unprovisioning_request
  (provisioning_request : ProvisioningRequest.t)
  : Res (DataProduct.t * bool + ValidationError) :=
  unpacked_request <~
    unpack_provisioning_request safe_load parse_yaml_with_model format_kind
      provisioning_request ;;
  let remove_data :=
    match ProvisioningRequest.removeData provisioning_request with
    | Some flag => flag
    | None => false
    end in
  match unpacked_request with
  | inr validation_error => Ok (inr validation_error)
  | inl data_product => Ok (inl (data_product, remove_data))
  end.

(** The last branch of the source (neither a data product nor a
    ValidationError) has no value of the helper's result type to reach
    it. *)
Definition unpack_update_acl_request (update_acl_request : UpdateAclRequest.t)
  : Res (DataProduct.t * list string + ValidationError) :=
  match
    (request <~
       safe_load (ProvisionInfo.request
                    (UpdateAclRequest.provisionInfo update_acl_request)) ;;
     data_product <~ parse_yaml_with_model request ;;
     match data_product with
     | inl dp => Ok (inl (dp, UpdateAclRequest.refs update_acl_request))
     | inr validation_error => Ok (inr validation_error)
     end)
  with
  | Ok r => Ok r
  | Raise ex =>
      Ok (inr (mkValidationError ["Unable to parse the descriptor."; str ex]))
  end.

End FurtherDependencies.

(** ** Vocabulary of the further statements *)

(** The gateway calls of an unprovisioning: one deletion per output port
    in descriptor order, then the deletion of the data product. *)
Definition unprovision_calls (dp : DataProduct.t) : list GatewayCall :=
  map DeleteOp (DataProduct.get_output_ports dp) ++ [DeleteDp dp].


(** The client calls that only read. *)
Definition is_read (c : ClientCall) : bool :=
  match c with
  | CallGet _ | CallGetByName _ _ | CallListAllEntities _ => true
  | _ => false
  end.

(** A term passes the filters of a lookup. *)
Definition passes_filters (lower : string -> string)
  (body : option CustomUrlPickerResourcesRequestBody.t)
  (filter : option string) (term : GlossaryTerm.t) : bool :=
  match filter with
  | Some f =>
      if Py.truthy f then GlossaryTermsService.matches_filter lower f term
      else true
  | None => true
  end
  && match GlossaryTermsService.domain_filter body with
     | Some d => GlossaryTermsService.matches_domain lower d term
     | None => true
     end.

(** A validation step lets the value pass. *)
Definition passes (report : option Exception) : bool :=
  match report with
  | None => true
  | Some _ => false
  end.

(** The catalog tag label of a descriptor tag label: the same name, label
    type, source and state. *)
Definition rendered_tag (t : OpenMetadataTagLabel.t) : TagLabel.t :=
  TagLabel.mk (OpenMetadataTagLabel.tagFQN t)
    (OpenMetadataTagLabel.labelType t)
    (TagSourceTagLabel_value (OpenMetadataTagLabel.source t))
    (OpenMetadataTagLabel.state t).

(** The catalog column of a descriptor column: the same name and data
    type, the description or the empty string, and the tag labels one by
    one. *)
Definition rendered_column (c : OpenMetadataColumn.t) : Column.t :=
  Column.mk (OpenMetadataColumn.name c) (OpenMetadataColumn.dataType c)
    (default EmptyString (OpenMetadataColumn.description c))
    (map rendered_tag (default [] (OpenMetadataColumn.tags c))).

(** The client library accepts a tag label: its name, its three
    enumeration members and the label as a whole. *)
Definition accepted_tag (lib : Library) (t : OpenMetadataTagLabel.t) : bool :=
  passes (validate_root lib TagFQN (OpenMetadataTagLabel.tagFQN t))
  && enum_member lib LabelType (OpenMetadataTagLabel.labelType t)
  && enum_member lib TagSource
       (TagSourceTagLabel_value (OpenMetadataTagLabel.source t))
  && enum_member lib State (OpenMetadataTagLabel.state t)
  && passes (validate_tag_label lib (rendered_tag t)).

(** The client library accepts a column: its name, its data type, its
    description, each of its tag labels and the column as a whole. *)
Definition accepted_column (lib : Library) (c : OpenMetadataColumn.t) : bool :=
  passes (validate_root lib ColumnName (OpenMetadataColumn.name c))
  && enum_member lib DataType (OpenMetadataColumn.dataType c)
  && passes (validate_root lib Markdown
               (default EmptyString (OpenMetadataColumn.description c)))
  && forallb (accepted_tag lib) (default [] (OpenMetadataColumn.tags c))
  && passes (validate_column lib (rendered_column c)).

(** The exception is what a constructor of the client library reports
    for some value. *)
Definition library_report (lib : Library) (e : Exception) : Prop :=
  (exists m s, validate_root lib m s = Some e)
  \/ (exists label, validate_tag_label lib label = Some e)
  \/ (exists column, validate_column lib column = Some e).

(** The exception is the key error for a name that is no member of an
    enumeration of the client library. *)
Definition unknown_member (lib : Library) (e : Exception) : Prop :=
  exists E name, e = KeyError name /\ enum_member lib E name = false.




(** The client library accepts a custom property request: its
    description and the request as a whole. *)
Definition accepted_property (lib : Library) (p : OMetaCustomProperties.t)
  : Prop :=
  validate_root lib Markdown (OMetaCustomProperties.description p) = None
  /\ validate_custom_property lib p = None.

(** The three custom properties of the container entity, typed by the id
    [i] and the name [n] of the string type. *)
Definition kind_property (i n : string) : OMetaCustomProperties.t :=
  OMetaCustomProperties.mk ContainerClass "kind" "Type of the entity." i n.

Definition platform_property (i n : string) : OMetaCustomProperties.t :=
  OMetaCustomProperties.mk ContainerClass "platform"
    "Represents the vendor: Azure, GCP, AWS, CDP on AWS, etc. It is a free field, but it is useful to understand better the platform where the component will be running."
    i n.

Definition technology_property (i n : string) : OMetaCustomProperties.t :=
  OMetaCustomProperties.mk ContainerClass "technology"
    "Represents which technology is used for the component." i n.

(** The shape of a UUID: groups of 8, 4, 4, 4 and 12 hexadecimal digits
    between hyphens. *)
Definition is_hex (c : ascii) : bool :=
  let n := nat_of_ascii c in
  (48 <=? n) && (n <=? 57) || (97 <=? n) && (n <=? 102)
  || (65 <=? n) && (n <=? 70).

Fixpoint all_hex (s : string) : bool :=
  match s with
  | EmptyString => true
  | String c rest => is_hex c && all_hex rest
  end.

Definition hex_group (n : nat) (s : string) : bool :=
  (String.length s =? n) && all_hex s.

Definition is_uuid (s : string) : bool :=
  match Py.split "-" s with
  | [a; b; c; d; e] =>
      hex_group 8 a && hex_group 4 b && hex_group 4 c && hex_group 4 d
      && hex_group 12 e
  | _ => false
  end.

(** A library for the examples that knows a few members of each
    enumeration, rejects an empty column name and a property type whose
    id has not the shape of a UUID, and validates everything else. *)
Definition known_members (E : OMEnum) : list string :=
  match E with
  | StorageServiceType => ["S3"; "ADLS"; "GCS"; "CustomStorage"]
  | DomainType => ["Source_aligned"; "Consumer_aligned"; "Aggregate"]
  | DataType => ["STRING"; "INT"; "BOOLEAN"; "DATE"]
  | LabelType => ["Manual"; "Propagated"; "Automated"; "Derived"]
  | TagSource => ["Classification"; "Glossary"]
  | State => ["Suggested"; "Confirmed"]
  end.

Definition checking_lib : Library :=
  mkLibrary (fun E name => bool_decide (name ∈ known_members E))
    (fun _ => None)
    (fun p =>
       if is_uuid (OMetaCustomProperties.propertyType_id p) then None
       else Some (LibraryError "1 validation error for EntityReference"))
    (fun host => Ok (ParseResult.mk "http" host))
    (fun '(scheme, netloc, path, _, _, _) =>
       scheme +:+ "://" +:+ netloc +:+ path)
    (fun s => s)
    (fun m s =>
       match m, s with
       | ColumnName, EmptyString =>
           Some (LibraryError "1 validation error for ColumnName")
       | _, _ => None
       end)
    (fun _ => None) (fun _ => None).

(** The definition of the string type as the catalog returns it. *)
Definition string_type_id : string := "7b0c9d1e-52a4-4f3b-9c6d-0e1f2a3b4c5d".

Definition string_type_definition : gmap string string :=
  <["id" := string_type_id]> (<["name" := "string"]> ∅).

(** A client whose catalog defines the string type, holds nothing else
    and never faults. *)
Definition typed_catalog_client : OpenMetadata.t unit :=
  OpenMetadata.mk
    (fun _ => ret (Some string_type_definition))
    (fun _ => ret tt)
    (fun _ => ret (Entity.mk "id"))
    (fun _ _ => ret None)
    (fun _ _ _ _ => ret tt)
    (ret [])
    (ret [])
    "http://localhost:8585".

(** Settings whose storage service type is no member of the
    enumeration. *)
Definition unknown_type_settings : OpenMetadataSettings :=
  mkSettings "" "" "Aggregate" "generic" "Unknown".

(** An output port whose second column has no name and whose third
    column has a data type the library does not know. *)
Definition unnamed_column_op : OutputPort.t :=
  OutputPort.mk "urn:dmb:cmp:healthcare:vaccinations:0:output-port"
    "Test Output Port" "Test Description" "outputport" None None
    (DataContract.mk
       (Some [OpenMetadataColumn.mk "test_column" "STRING" None None;
              OpenMetadataColumn.mk EmptyString "STRING" None None;
              OpenMetadataColumn.mk "other" "NOTYPE" None None])).

(** A client whose catalog holds one entity under every name. *)
Definition full_catalog_client : OpenMetadata.t unit :=
  OpenMetadata.mk
    (fun _ => ret (Some (<["id" := "1"]> (<["name" := "string"]> ∅))))
    (fun _ => ret tt)
    (fun _ => ret (Entity.mk "id"))
    (fun _ _ => ret (Some (Entity.mk "42")))
    (fun _ _ _ _ => ret tt)
    (ret [])
    (ret [])
    "http://localhost:8585".

(** A client that knows no type definition. *)
Definition untyped_catalog_client : OpenMetadata.t unit :=
  OpenMetadata.mk
    (fun _ => ret None)
    (fun _ => ret tt)
    (fun _ => ret (Entity.mk "id"))
    (fun _ _ => ret None)
    (fun _ _ _ _ => ret tt)
    (ret [])
    (ret [])
    "http://localhost:8585".

(** Listing the glossary terms faults ([test_get_terms_service_error]). *)
Definition terms_read_fault (c : GatewayCall) : option Exception :=
  match c with
  | GetAllGlossaryTerms => Some (ServiceError "Test error")
  | _ => None
  end.

(** A term whose glossary reference has no name. *)
Definition nameless_glossary_term : GlossaryTerm.t :=
  GlossaryTerm.mk (Some "glossary1.term3") "term3"
    (EntityReference.mk "1" "Glossary" None) None.

(** A point lookup on a gateway that knows exactly the term
    [glossary1.term1] and never faults. *)
Definition sample_lookup (fqn : string) : M unit (option Entity.t) :=
  ret (if String.eqb fqn "glossary1.term1" then Some (Entity.mk "1") else None).

(** A point lookup that faults on [glossary1.term2]. *)
Definition faulty_lookup (fqn : string) : M unit (option Entity.t) :=
  if String.eqb fqn "glossary1.term2" then raise (ServiceError "Test error")
  else ret None.

(** Which terms a lookup that only reads finds. *)
Definition found_by (known : string -> option Entity.t)
  (item : CustomUrlPickerItem.t) : bool :=
  match known (CustomUrlPickerItem.fqn item) with
  | Some _ => true
  | None => false
  end.

(** The client calls of a provisioning: the read of a type definition
    and upserts. *)
Definition is_upsert (c : ClientCall) : bool :=
  match c with
  | CallGet _ | CallCreateOrUpdateCustomProperty _ | CallCreateOrUpdate _ => true
  | _ => false
  end.

(** The client calls of an unprovisioning: lookups by name and deletions
    of data products and containers. *)
Definition is_removal (c : ClientCall) : bool :=
  match c with
  | CallGetByName OMDataProductClass _ | CallGetByName ContainerClass _
  | CallDelete OMDataProductClass _ _ _ | CallDelete ContainerClass _ _ _ => true
  | _ => false
  end.

(** A computation on a client with recorded calls only adds calls that
    satisfy [P] to the log. *)
Definition only_calls {S A} (P : ClientCall -> bool)
  (m : M (S * list ClientCall) A) : Prop :=
  forall s log, exists added,
    snd (fst (m (s, log))) = log ++ added /\ Forall (fun c => P c = true) added.

(** * Properties *)

(** ** The identifier codec *)

Lemma split_not_nil sep s : Py.split sep s <> [].
Proof.
  destruct s as [|c s]; simpl; [discriminate|].
  destruct (Ascii.eqb c sep); [discriminate|].
  destruct (Py.split sep s); discriminate.
Qed.

Lemma length_split sep s :
  length (Py.split sep s) = S (occurrences sep s).
Proof.
  induction s as [|c s IH]; simpl; [reflexivity|].
  destruct (Ascii.eqb c sep); simpl.
  - now rewrite IH.
  - destruct (Py.split sep s) eqn:E; simpl in *; [discriminate|]. exact IH.
Qed.

(** Joining the segments with the separator gives the string back. *)
Lemma join_split sep s : Py.join (String sep EmptyString) (Py.split sep s) = s.
Proof.
  induction s as [|c s IH]; simpl; [reflexivity|].
  destruct (Ascii.eqb_spec c sep) as [->|Hne].
  - pose proof (split_not_nil sep s) as Hnil.
    destruct (Py.split sep s) as [|seg segs]; [contradiction|].
    simpl in *. now rewrite IH.
  - pose proof (split_not_nil sep s) as Hnil.
    destruct (Py.split sep s) as [|seg segs]; [contradiction|].
    destruct segs as [|seg' segs]; simpl in *; now rewrite <- IH.
Qed.

Lemma index_Ok {A} (l : list A) i :
  i < length l -> exists x, index l i = Ok x /\ l !! i = Some x.
Proof.
  intros H. unfold index.
  destruct (lookup_lt_is_Some_2 l i H) as [x Hx]. rewrite Hx. eauto.
Qed.

Lemma index_Raise {A} (l : list A) i :
  length l <= i -> index l i = Raise IndexError.
Proof.
  intros H. unfold index. now rewrite (lookup_ge_None_2 l i H).
Qed.

Lemma dp_name_succeeds id :
  6 <= length (Py.split ":" id) ->
  exists name, OpenMetadataClientService._get_dp_name_from_id id = Ok name.
Proof.
  intros H. unfold OpenMetadataClientService._get_dp_name_from_id.
  destruct (index_Ok (Py.split ":" id) 3) as (s3 & -> & _); [lia|].
  destruct (index_Ok (Py.split ":" id) 4) as (s4 & -> & _); [lia|].
  destruct (index_Ok (Py.split ":" id) 5) as (s5 & -> & _); [lia|].
  simpl. eauto.
Qed.

Lemma dp_name_faults id :
  length (Py.split ":" id) < 6 ->
  OpenMetadataClientService._get_dp_name_from_id id = Raise IndexError.
Proof.
  intros H. unfold OpenMetadataClientService._get_dp_name_from_id.
  destruct (index (Py.split ":" id) 3) as [s3|e] eqn:E3; simpl;
    [|unfold index in E3; destruct (_ !! 3); congruence].
  destruct (index (Py.split ":" id) 4) as [s4|e] eqn:E4; simpl;
    [|unfold index in E4; destruct (_ !! 4); congruence].
  rewrite index_Raise by lia. reflexivity.
Qed.

Lemma component_name_succeeds id :
  7 <= length (Py.split ":" id) ->
  exists name,
    OpenMetadataClientService._get_component_name_from_id id = Ok name.
Proof.
  intros H. unfold OpenMetadataClientService._get_component_name_from_id.
  destruct (index_Ok (Py.split ":" id) 3) as (s3 & -> & _); [lia|].
  destruct (index_Ok (Py.split ":" id) 4) as (s4 & -> & _); [lia|].
  destruct (index_Ok (Py.split ":" id) 5) as (s5 & -> & _); [lia|].
  destruct (index_Ok (Py.split ":" id) 6) as (s6 & -> & _); [lia|].
  simpl. eauto.
Qed.

Lemma component_name_faults id :
  length (Py.split ":" id) < 7 ->
  OpenMetadataClientService._get_component_name_from_id id = Raise IndexError.
Proof.
  intros H. unfold OpenMetadataClientService._get_component_name_from_id.
  destruct (index (Py.split ":" id) 3) as [s3|e] eqn:E3; simpl;
    [|unfold index in E3; destruct (_ !! 3); congruence].
  destruct (index (Py.split ":" id) 4) as [s4|e] eqn:E4; simpl;
    [|unfold index in E4; destruct (_ !! 4); congruence].
  destruct (index (Py.split ":" id) 5) as [s5|e] eqn:E5; simpl;
    [|unfold index in E5; destruct (_ !! 5); congruence].
  rewrite index_Raise by lia. reflexivity.
Qed.

(** C3, as stated, fails: an id of exactly five colon-delimited segments
    has "at least 5 segments", yet the data-product name cannot be derived
    from it, because the derivation reads the sixth segment. *)
Lemma C3_five_segments_fault :
  5 <= length (Py.split ":" five_segment_id)
  /\ OpenMetadataClientService._get_dp_name_from_id five_segment_id
     = Raise IndexError.
Proof. split; [vm_compute; lia | reflexivity]. Qed.

(** C3, amended: data-product-name derivation succeeds exactly for the ids
    with at least 6 colon-delimited segments, component-name derivation
    exactly for those with at least 7; with fewer segments the derivation
    faults with the index-out-of-range fault, and the number of segments
    is one more than the number of colons. *)
Theorem C3_name_derivation_segments (id : string) :
  length (Py.split ":" id) = S (occurrences ":" id)
  /\ ((exists name, OpenMetadataClientService._get_dp_name_from_id id = Ok name)
      <-> 6 <= length (Py.split ":" id))
  /\ (OpenMetadataClientService._get_dp_name_from_id id = Raise IndexError
      <-> length (Py.split ":" id) < 6)
  /\ ((exists name,
         OpenMetadataClientService._get_component_name_from_id id = Ok name)
      <-> 7 <= length (Py.split ":" id))
  /\ (OpenMetadataClientService._get_component_name_from_id id
        = Raise IndexError
      <-> length (Py.split ":" id) < 7).
Proof.
  split; [apply length_split|].
  repeat split.
  - intros [name Hn].
    destruct (le_lt_dec 6 (length (Py.split ":" id))) as [|Hlt]; [assumption|].
    rewrite (dp_name_faults id Hlt) in Hn. discriminate.
  - apply dp_name_succeeds.
  - intros Hr.
    destruct (le_lt_dec 6 (length (Py.split ":" id))) as [Hle|]; [|assumption].
    destruct (dp_name_succeeds id Hle) as [name Hn]. congruence.
  - apply dp_name_faults.
  - intros [name Hn].
    destruct (le_lt_dec 7 (length (Py.split ":" id))) as [|Hlt]; [assumption|].
    rewrite (component_name_faults id Hlt) in Hn. discriminate.
  - apply component_name_succeeds.
  - intros Hr.
    destruct (le_lt_dec 7 (length (Py.split ":" id))) as [Hle|]; [|assumption].
    destruct (component_name_succeeds id Hle) as [name Hn]. congruence.
  - apply component_name_faults.
Qed.

(** C4: for an urn whose colon-delimited segments are
    [urn, dmb, cmp, A, B, C, D] the derived data-product name is [A:B:C]
    and the derived component name is [A:B:C:D].  Both derivations are
    functions of the id alone (they read no state), so equal ids always
    give equal names. *)
Theorem C4_derived_names (id A B C D : string) :
  Py.split ":" id = ["urn"; "dmb"; "cmp"; A; B; C; D] ->
  OpenMetadataClientService._get_dp_name_from_id id
    = Ok (A +:+ ":" +:+ B +:+ ":" +:+ C)
  /\ OpenMetadataClientService._get_component_name_from_id id
     = Ok (A +:+ ":" +:+ B +:+ ":" +:+ C +:+ ":" +:+ D)
  /\ (forall id', id' = id ->
        OpenMetadataClientService._get_dp_name_from_id id'
          = OpenMetadataClientService._get_dp_name_from_id id
        /\ OpenMetadataClientService._get_component_name_from_id id'
           = OpenMetadataClientService._get_component_name_from_id id).
Proof.
  intros Hsplit. split; [|split].
  - unfold OpenMetadataClientService._get_dp_name_from_id.
    rewrite Hsplit. reflexivity.
  - unfold OpenMetadataClientService._get_component_name_from_id.
    rewrite Hsplit. reflexivity.
  - intros id' ->. split; reflexivity.
Qed.

Lemma C4_derived_names_witness :
  OpenMetadataClientService._get_dp_name_from_id sample_component_id
    = Ok "healthcare:vaccinations:0"
  /\ OpenMetadataClientService._get_component_name_from_id sample_component_id
     = Ok "healthcare:vaccinations:0:snowflake-output-port".
Proof.
  pose proof (C4_derived_names sample_component_id "healthcare" "vaccinations"
                "0" "snowflake-output-port" eq_refl) as (H1 & H2 & _).
  split; [exact H1 | exact H2].
Defined.

(** ** Computations: basic equations *)

Lemma bind_Ok {W A B} (m : M W A) (k : A -> M W B) w w' a :
  m w = (w', Ok a) -> bind m k w = k a w'.
Proof. intros H. unfold bind. now rewrite H. Qed.

Lemma bind_Raise {W A B} (m : M W A) (k : A -> M W B) w w' e :
  m w = (w', Raise e) -> bind m k w = (w', Raise e).
Proof. intros H. unfold bind. now rewrite H. Qed.

Lemma bind_assoc {W A B C} (m : M W A) (k : A -> M W B) (h : B -> M W C) w :
  bind (bind m k) h w = bind m (fun a => bind (k a) h) w.
Proof. unfold bind. destruct (m w) as [w' [a|e]]; reflexivity. Qed.

Lemma bind_drop_ret {W A B} (m : M W A) (k : M W B) w :
  bind (bind m (fun _ => ret tt)) (fun _ => k) w = bind m (fun _ => k) w.
Proof. unfold bind, ret. destruct (m w) as [w' [a|e]]; reflexivity. Qed.

Lemma bind_ext {W A B} (m : M W A) (k k' : A -> M W B) w :
  (forall a w', k a w' = k' a w') -> bind m k w = bind m k' w.
Proof. intros H. unfold bind. destruct (m w) as [w' [a|e]]; auto. Qed.

Lemma bind_cong_l {W A B} (m m' : M W A) (k : A -> M W B) w :
  m w = m' w -> bind m k w = bind m' k w.
Proof. intros H. unfold bind. now rewrite H. Qed.

Lemma for_each_perform {W A} (g : Gateway.t W) (f : A -> GatewayCall)
  (body : A -> M W unit) (l : list A) w :
  (forall a w', body a w' = perform g (f a) w') ->
  for_each l body w = run_calls g (map f l) w.
Proof.
  intros Hbody. revert w. induction l as [|a l IH]; intros w; [reflexivity|].
  unfold run_calls in *. simpl. unfold bind. rewrite Hbody.
  destruct (perform g (f a) w) as [w' [[]|e]]; [apply IH | reflexivity].
Qed.

Lemma run_calls_app {W} (g : Gateway.t W) (l1 l2 : list GatewayCall) w :
  run_calls g (l1 ++ l2) w = bind (run_calls g l1) (fun _ => run_calls g l2) w.
Proof.
  revert w. induction l1 as [|c l1 IH]; intros w.
  - reflexivity.
  - unfold run_calls in *. simpl. rewrite bind_assoc. apply bind_ext.
    intros _ w'. apply IH.
Qed.

(** ** Recorded gateway calls *)

Lemma perform_observed {W} (g : Gateway.t W) (c : GatewayCall) w log :
  perform (observed_gateway g) c (w, log)
  = ((fst (perform g c w), log ++ [(c, outcome_of (snd (perform g c w)))]),
     snd (perform g c w)).
Proof.
  destruct c; simpl; unfold bind, observed, ret; simpl;
    match goal with
    | |- context [match ?m w with _ => _ end] =>
        destruct (m w) as [w' [a|e]]; reflexivity
    end.
Qed.

Lemma run_calls_observed_cons {W} (g : Gateway.t W) c calls w log :
  run_calls (observed_gateway g) (c :: calls) (w, log)
  = match perform g c w with
    | (w1, Ok _) =>
        run_calls (observed_gateway g) calls (w1, log ++ [(c, Returned)])
    | (w1, Raise e) => ((w1, log ++ [(c, Raised e)]), Raise e)
    end.
Proof.
  unfold run_calls. simpl. unfold bind. rewrite perform_observed.
  destruct (perform g c w) as [w1 [[]|e]]; reflexivity.
Qed.

(** The log of a sequence of calls: either all of them returned, or the
    log stops at the first call that raised. *)
Lemma run_calls_observed {W} (g : Gateway.t W) (calls : list GatewayCall) w log :
  let out := run_calls (observed_gateway g) calls (w, log) in
  (snd out = Ok tt /\ snd (fst out) = log ++ returned calls)
  \/ (exists n c e,
        calls !! n = Some c
        /\ snd (fst out) = log ++ returned (take n calls) ++ [(c, Raised e)]
        /\ snd out = Raise e).
Proof.
  revert w log. induction calls as [|c calls IH]; intros w log out; subst out.
  - left. split; [reflexivity|]. simpl. now rewrite app_nil_r.
  - rewrite run_calls_observed_cons.
    destruct (perform g c w) as [w1 [[]|e]] eqn:E.
    + destruct (IH w1 (log ++ [(c, Returned)]))
        as [[Hr Hl]|(n & c' & e & Hn & Hl & Hr)].
      * left. split; [exact Hr|]. rewrite Hl. now rewrite <- app_assoc.
      * right. exists (S n), c', e. repeat split; [exact Hn| |exact Hr].
        rewrite Hl. simpl. now rewrite <- app_assoc.
    + right. exists 0, c, e. repeat split.
Qed.

Lemma returned_no_raise calls c e : (c, Raised e) ∉ returned calls.
Proof.
  unfold returned. intros H. apply list_elem_of_fmap in H as (c' & Heq & _).
  discriminate.
Qed.

(** In a log that returned up to its last entry, a raised entry is the
    last one. *)
Lemma raised_is_last calls (x y : GatewayCall * Outcome) pre post e :
  y.2 = Raised e ->
  returned calls ++ [x] = pre ++ y :: post ->
  post = [] /\ x = y /\ pre = returned calls.
Proof.
  intros Hy. revert pre. induction calls as [|c calls IH]; intros pre H; simpl in H.
  - destruct pre as [|p pre]; simpl in H.
    + injection H as -> <-. auto.
    + injection H as _ H. destruct pre; discriminate.
  - destruct pre as [|p pre]; simpl in H.
    + injection H as <- _. simpl in Hy. discriminate.
    + injection H as <- H. destruct (IH pre H) as (-> & -> & ->). auto.
Qed.

(** ** Provisioning *)

(** The steps of [provision] are the calls of the plan, in order. *)
Lemma provision_runs_plan {W} (g : Gateway.t W) lib dp w :
  ProvisionService.provision g lib dp w
  = try_except_ServiceError
      (run_calls g (provision_plan dp) ;;;
       public_info <- ProvisionService._get_public_info g lib dp ;;
       ret (inl (mkProvisioningStatus COMPLETED ""
                   (Some (mkInfo public_info ∅)))))
      (fun error_msg => ret (inr (mkSystemErr error_msg))) w.
Proof.
  unfold ProvisionService.provision, try_except_ServiceError.
  match goal with
  | |- match ?a w with _ => _ end = match ?b w with _ => _ end =>
      assert (a w = b w) as ->; [|reflexivity]
  end.
  unfold provision_plan.
  rewrite (bind_cong_l _ _ _ _ (run_calls_app g _ _ w)).
  unfold run_calls at 1. simpl. unfold bind, ret.
  destruct (Gateway.create_or_update_generic_storage_service g w)
    as [w1 [a1|e]]; simpl; [|reflexivity].
  destruct (Gateway.create_or_update_container_custom_attributes g w1)
    as [w2 [a2|e]]; simpl; [|reflexivity].
  destruct (Gateway.create_or_update_domain g (DataProduct.domain dp) w2)
    as [w3 [a3|e]]; simpl; [|reflexivity].
  destruct (Gateway.create_or_update_dp g dp w3)
    as [w4 [a4|e]]; simpl; [|reflexivity].
  rewrite (for_each_perform g (CreateOrUpdateOp dp)); reflexivity.
Qed.

Lemma try_except_ServiceError_eq {W A} (m : M W A) (h : string -> M W A)
  w w' r :
  m w = (w', r) ->
  try_except_ServiceError m h w
  = match r with
    | Raise (ServiceError msg) => h msg w'
    | _ => (w', r)
    end.
Proof.
  intros H. unfold try_except_ServiceError. rewrite H.
  destruct r as [a|[]]; reflexivity.
Qed.

Lemma observed_eq {W A} (c : GatewayCall) (m : M W A) w log w' r :
  m w = (w', r) ->
  observed c m (w, log) = ((w', log ++ [(c, outcome_of r)]), r).
Proof. intros H. unfold observed. simpl. now rewrite H. Qed.

Lemma provision_observed {W} (g : Gateway.t W) lib dp w :
  let out := ProvisionService.provision (observed_gateway g) lib dp (w, []) in
  (snd (fst out) = returned (provision_calls dp)
   /\ exists public_info,
        snd out = Ok (inl (mkProvisioningStatus COMPLETED ""
                             (Some (mkInfo public_info ∅)))))
  \/ (exists n c e,
        provision_calls dp !! n = Some c
        /\ snd (fst out)
           = returned (take n (provision_calls dp)) ++ [(c, Raised e)]
        /\ snd out = fault_result (fun msg => inr (mkSystemErr msg)) e).
Proof.
  intros out. subst out. rewrite provision_runs_plan.
  destruct (run_calls_observed g (provision_plan dp) w [])
    as [[Hr Hl]|(n & c & e & Hn & Hl & Hr)];
    destruct (run_calls (observed_gateway g) (provision_plan dp) (w, []))
      as [[w1 log1] r1] eqn:Erun; simpl in Hr, Hl; subst r1 log1.
  - destruct (Gateway.get_base_url g w1) as [w2 [url|e]] eqn:Eurl.
    + destruct (Gateway._get_dp_name_from_id g (DataProduct.id dp) w2)
        as [w3 [name|e]] eqn:Ename.
      * erewrite try_except_ServiceError_eq.
        2:{ erewrite bind_Ok by exact Erun.
            erewrite bind_Ok; [reflexivity|].
            unfold ProvisionService._get_public_info.
            erewrite bind_Ok by (simpl; apply observed_eq, Eurl).
            erewrite bind_Ok by (simpl; apply observed_eq, Ename).
            reflexivity. }
        left. simpl. split; [|eauto].
        unfold provision_calls, returned. rewrite map_app, <- app_assoc.
        reflexivity.
      * erewrite try_except_ServiceError_eq.
        2:{ erewrite bind_Ok by exact Erun.
            erewrite bind_Raise; [reflexivity|].
            unfold ProvisionService._get_public_info.
            erewrite bind_Ok by (simpl; apply observed_eq, Eurl).
            erewrite bind_Raise by (simpl; apply observed_eq, Ename).
            reflexivity. }
        right. exists (S (length (provision_plan dp))),
          (GetDpNameFromId (DataProduct.id dp)), e. split; [|split].
        -- unfold provision_calls. rewrite lookup_app_r by lia.
           replace (_ - _) with 1 by lia. reflexivity.
        -- unfold provision_calls. rewrite take_app_ge by lia.
           replace (_ - _) with 1 by lia.
           destruct e; simpl; unfold returned; rewrite map_app;
             simpl; rewrite <- !app_assoc; reflexivity.
        -- destruct e; reflexivity.
    + erewrite try_except_ServiceError_eq.
      2:{ erewrite bind_Ok by exact Erun.
          erewrite bind_Raise; [reflexivity|].
          unfold ProvisionService._get_public_info.
          erewrite bind_Raise by (simpl; apply observed_eq, Eurl).
          reflexivity. }
      right. exists (length (provision_plan dp)), GetBaseUrl, e. split; [|split].
      * unfold provision_calls. rewrite lookup_app_r by lia.
        replace (_ - _) with 0 by lia. reflexivity.
      * unfold provision_calls. rewrite take_app_ge by lia.
        replace (_ - _) with 0 by lia.
        destruct e; simpl; now rewrite app_nil_r.
      * destruct e; reflexivity.
  - erewrite try_except_ServiceError_eq
      by (erewrite bind_Raise by exact Erun; reflexivity).
    right. exists n, c, e.
    assert (n < length (provision_plan dp)) by (eapply lookup_lt_Some; eauto).
    split; [|split].
    + unfold provision_calls. rewrite lookup_app_l by lia. exact Hn.
    + unfold provision_calls. rewrite take_app_le by lia.
      destruct e; reflexivity.
    + destruct e; reflexivity.
Qed.

(** C1: [provision] calls the gateway in the fixed order storage
    service, container custom attributes, domain, data product, then one
    output port per component in descriptor order (followed by the two
    reads of the gateway object that build the deep link).  The recorded
    log is either the whole sequence, every call having returned, with a
    COMPLETED status as result, or it stops at the first call that raised.
    When a call raised a service fault, it is the last call of the log (no
    later call, no compensating call) and the result is the SystemErr
    carrying that fault's message. *)
Theorem C1_provision_order {W} (g : Gateway.t W) (lib : Library)
  (dp : DataProduct.t) (w : W) :
  let out := ProvisionService.provision (observed_gateway g) lib dp (w, []) in
  let trace := snd (fst out) in
  let r := snd out in
  provision_calls dp
  = [ CreateOrUpdateGenericStorageService;
      CreateOrUpdateContainerCustomAttributes;
      CreateOrUpdateDomain (DataProduct.domain dp);
      CreateOrUpdateDp dp ]
    ++ map (CreateOrUpdateOp dp) (DataProduct.components dp)
    ++ [GetBaseUrl; GetDpNameFromId (DataProduct.id dp)]
  /\ ((trace = returned (provision_calls dp)
       /\ exists public_info,
            r = Ok (inl (mkProvisioningStatus COMPLETED ""
                           (Some (mkInfo public_info ∅)))))
      \/ (exists n c e,
            provision_calls dp !! n = Some c
            /\ trace = returned (take n (provision_calls dp)) ++ [(c, Raised e)]
            /\ r = fault_result (fun msg => inr (mkSystemErr msg)) e))
  /\ (forall pre c msg post,
        trace = pre ++ (c, Raised (ServiceError msg)) :: post ->
        post = []
        /\ (exists n, provision_calls dp !! n = Some c
                      /\ pre = returned (take n (provision_calls dp)))
        /\ r = Ok (inr (mkSystemErr msg))).
Proof.
  intros out trace r. split; [|split].
  - unfold provision_calls, provision_plan, DataProduct.get_output_ports.
    now rewrite <- app_assoc.
  - apply provision_observed.
  - intros pre c msg post Htrace.
    destruct (provision_observed g lib dp w)
      as [[Hl _]|(n & c' & e & Hn & Hl & Hr)];
      fold out in Hl; fold trace in Hl; rewrite Hl in Htrace.
    + exfalso. apply (returned_no_raise (provision_calls dp) c (ServiceError msg)).
      rewrite Htrace. apply elem_of_app. right. left.
    + fold out in Hr. fold r in Hr.
      destruct (raised_is_last (take n (provision_calls dp)) (c', Raised e)
                  (c, Raised (ServiceError msg)) pre post (ServiceError msg)
                  eq_refl Htrace)
        as (-> & Heq & ->).
      injection Heq as -> ->.
      split; [reflexivity|]. split; [eauto|]. exact Hr.
Qed.

Lemma C1_provision_order_witness :
  snd (ProvisionService.provision
         (observed_gateway (mock_gateway attributes_fault [] [])) sample_lib
         sample_dp (tt, []))
  = Ok (inr (mkSystemErr "Test error")).
Proof.
  destruct (C1_provision_order (mock_gateway attributes_fault [] [])
              sample_lib sample_dp tt) as (_ & _ & H).
  destruct (H [(CreateOrUpdateGenericStorageService, Returned)]
              CreateOrUpdateContainerCustomAttributes "Test error" [] eq_refl)
    as (_ & _ & Hr).
  exact Hr.
Defined.

(** The scenario of spec section 8: the second call faults. *)
Example provision_second_call_faults :
  ProvisionService.provision
    (observed_gateway (mock_gateway attributes_fault [] [])) sample_lib
    sample_dp (tt, [])
  = ((tt, [ (CreateOrUpdateGenericStorageService, Returned);
            (CreateOrUpdateContainerCustomAttributes,
             Raised (ServiceError "Test error")) ]),
     Ok (inr (mkSystemErr "Test error"))).
Proof. reflexivity. Qed.

Example provision_all_calls_return :
  snd (fst (ProvisionService.provision
              (observed_gateway (mock_gateway no_fault [] [])) sample_lib
              sample_dp (tt, [])))
  = returned
      [ CreateOrUpdateGenericStorageService;
        CreateOrUpdateContainerCustomAttributes;
        CreateOrUpdateDomain "domain";
        CreateOrUpdateDp sample_dp;
        CreateOrUpdateOp sample_dp sample_op;
        GetBaseUrl;
        GetDpNameFromId "urn:dmb:cmp:healthcare:vaccinations:0" ].
Proof. reflexivity. Qed.

(** ** Validation *)

Lemma elem_of_columns dp column :
  column ∈ ProvisionService.columns dp
  <-> exists op columns,
        op ∈ DataProduct.components dp
        /\ DataContract.schema_ (OutputPort.dataContract op) = Some columns
        /\ column ∈ columns.
Proof.
  unfold ProvisionService.columns, DataProduct.get_output_ports.
  rewrite list_elem_of_In, in_flat_map. split.
  - intros (op & Hop & Hc).
    destruct (DataContract.schema_ (OutputPort.dataContract op))
      as [columns|] eqn:E; simpl in Hc; [|contradiction].
    exists op, columns. rewrite !list_elem_of_In. auto.
  - intros (op & columns & Hop & E & Hc). exists op.
    rewrite E. simpl. rewrite <- !list_elem_of_In. auto.
Qed.

Lemma elem_of_tags dp t :
  t ∈ ProvisionService.tags dp
  <-> exists column labels,
        column ∈ ProvisionService.columns dp
        /\ OpenMetadataColumn.tags column = Some labels
        /\ t ∈ labels.
Proof.
  unfold ProvisionService.tags.
  rewrite list_elem_of_In, in_flat_map. split.
  - intros (column & Hc & Ht). apply filter_In in Hc as [Hc _].
    destruct (OpenMetadataColumn.tags column) as [labels|] eqn:E;
      simpl in Ht; [|contradiction].
    exists column, labels. rewrite !list_elem_of_In. auto.
  - intros (column & labels & Hc & E & Ht). exists column. split.
    + apply filter_In. split; [now apply list_elem_of_In|].
      rewrite E. destruct labels; [inversion Ht | reflexivity].
    + rewrite E. simpl. now apply list_elem_of_In.
Qed.

Lemma elem_of_tags_of_source src dp fqn :
  fqn ∈ ProvisionService.tags_of_source src dp <-> referenced src dp fqn.
Proof.
  unfold ProvisionService.tags_of_source, referenced.
  rewrite elem_of_list_to_set, list_elem_of_fmap. split.
  - intros (t & -> & Ht). apply list_elem_of_In, filter_In in Ht as [Ht Hs].
    apply bool_decide_eq_true in Hs.
    apply list_elem_of_In, elem_of_tags in Ht
      as (column & labels & Hc & El & Ht).
    apply elem_of_columns in Hc as (op & columns & Hop & Ec & Hc).
    exists op, columns, column, labels, t. auto 10.
  - intros (op & columns & column & labels & t & Hop & Ec & Hc & El & Ht & Hs & Hf).
    exists t. split; [now symmetry|].
    apply list_elem_of_In, filter_In. split.
    + apply list_elem_of_In, elem_of_tags. exists column, labels.
      split; [|auto]. apply elem_of_columns. eauto.
    + now apply bool_decide_eq_true.
Qed.

Lemma elem_of_existing_tags all_tags fqn :
  fqn ∈ ProvisionService.existing_tags all_tags
  <-> fqn <> EmptyString /\ in_catalog_tags all_tags fqn.
Proof.
  unfold ProvisionService.existing_tags, in_catalog_tags.
  rewrite elem_of_list_to_set, list_elem_of_omap. split.
  - intros (t & Ht & Hf).
    destruct (Tag.fullyQualifiedName t) as [s|] eqn:E; simpl in Hf;
      [|discriminate].
    destruct s; simpl in Hf; [discriminate|]. injection Hf as <-.
    split; [discriminate|eauto].
  - intros (Hne & t & Ht & E). exists t. split; [exact Ht|].
    rewrite E. destruct fqn; [contradiction|reflexivity].
Qed.

Lemma elem_of_existing_terms all_terms fqn :
  fqn ∈ ProvisionService.existing_terms all_terms
  <-> in_catalog_terms all_terms fqn.
Proof.
  unfold ProvisionService.existing_terms, in_catalog_terms.
  rewrite elem_of_list_to_set, list_elem_of_omap. reflexivity.
Qed.

Section IterationOrder.
Variable iter : gset string -> list string.
Hypothesis iter_elements : forall X, iter X ≡ₚ elements X.

Lemma elem_of_iter X x : x ∈ iter X <-> x ∈ X.
Proof. rewrite (iter_elements X). apply elem_of_elements. Qed.

Lemma NoDup_iter X : NoDup (iter X).
Proof. rewrite (iter_elements X). apply NoDup_elements. Qed.

Lemma iter_nil X : iter X = [] <-> X = ∅.
Proof.
  split.
  - intros H. apply leibniz_equiv, elements_empty_inv.
    apply Permutation_nil_r. rewrite <- H. symmetry. apply iter_elements.
  - intros ->. apply Permutation_nil_r.
    rewrite (iter_elements ∅), elements_empty. reflexivity.
Qed.

Lemma nonempty_iter X : nonempty X = match iter X with [] => false | _ => true end.
Proof.
  unfold nonempty. destruct (iter X) eqn:E.
  - apply iter_nil in E. subst. now apply bool_decide_eq_false_2.
  - apply bool_decide_eq_true_2. intros HX. apply iter_nil in HX. congruence.
Qed.

End IterationOrder.

(** What [validate] returns once both catalog reads have returned. *)
Lemma validate_reads_return {W} (g : Gateway.t W) iter dp w w1 w2
  all_tags all_terms :
  (forall X, iter X ≡ₚ elements X) ->
  Gateway.get_all_classification_tags g w = (w1, Ok all_tags) ->
  Gateway.get_all_glossary_terms g w1 = (w2, Ok all_terms) ->
  ProvisionService.validate g iter dp w
  = (w2,
     Ok (validation_answer
           (iter (ProvisionService.classification_tags dp
                    ∖ ProvisionService.existing_tags all_tags))
           (iter (ProvisionService.glossary_terms dp
                    ∖ ProvisionService.existing_terms all_terms)))).
Proof.
  intros Hiter Htags Hterms.
  unfold ProvisionService.validate, try_except_ServiceError, bind.
  rewrite Htags, Hterms, !(nonempty_iter iter Hiter).
  unfold validation_answer, category_message,
    ProvisionService.missing_tags_message,
    ProvisionService.missing_terms_message.
  destruct (iter (_ ∖ ProvisionService.existing_tags _));
    destruct (iter (_ ∖ ProvisionService.existing_terms _)); reflexivity.
Qed.

(** What [validate] returns when a catalog read raised. *)
Lemma validate_read_raises {W} (g : Gateway.t W) iter dp w w' e :
  Gateway.get_all_classification_tags g w = (w', Raise e)
  \/ (exists w1 all_tags,
        Gateway.get_all_classification_tags g w = (w1, Ok all_tags)
        /\ Gateway.get_all_glossary_terms g w1 = (w', Raise e)) ->
  ProvisionService.validate g iter dp w
  = (w', fault_result (fun msg => Some (inr (mkSystemErr msg))) e).
Proof.
  intros [Htags|(w1 & all_tags & Htags & Hterms)];
    unfold ProvisionService.validate.
  - erewrite try_except_ServiceError_eq
      by (erewrite bind_Raise by exact Htags; reflexivity).
    destruct e; reflexivity.
  - erewrite try_except_ServiceError_eq.
    2:{ erewrite bind_Ok by exact Htags. erewrite bind_Raise by exact Hterms.
        reflexivity. }
    destruct e; reflexivity.
Qed.

(** C2: once both catalog reads have returned, [validate] answers from
    the duplicate-free collections of the referenced classification tags
    and glossary terms that the catalog lacks: no error exactly when every
    referenced tag and term exists (in particular when every schema is
    empty), otherwise a ValidationError with one message per non-empty
    category, the classification message first, each comma-joining the
    missing identifiers.  The catalog's tags are assumed to carry no empty
    name. *)
Theorem C2_validate_missing_references {W} (g : Gateway.t W)
  (iter : gset string -> list string) (dp : DataProduct.t) (w w1 w2 : W)
  (all_tags : list Tag.t) (all_terms : list GlossaryTerm.t) :
  (forall X, iter X ≡ₚ elements X) ->
  Gateway.get_all_classification_tags g w = (w1, Ok all_tags) ->
  Gateway.get_all_glossary_terms g w1 = (w2, Ok all_terms) ->
  (forall t, t ∈ all_tags -> Tag.fullyQualifiedName t <> Some EmptyString) ->
  exists missing_tags missing_terms : list string,
    NoDup missing_tags
    /\ (forall fqn, fqn ∈ missing_tags
          <-> referenced CLASSIFICATION dp fqn
              /\ ~ in_catalog_tags all_tags fqn)
    /\ NoDup missing_terms
    /\ (forall fqn, fqn ∈ missing_terms
          <-> referenced GLOSSARY dp fqn
              /\ ~ in_catalog_terms all_terms fqn)
    /\ ProvisionService.validate g iter dp w
       = (w2, Ok (validation_answer missing_tags missing_terms))
    /\ (validation_answer missing_tags missing_terms = None
        <-> (forall fqn, referenced CLASSIFICATION dp fqn ->
                         in_catalog_tags all_tags fqn)
            /\ (forall fqn, referenced GLOSSARY dp fqn ->
                            in_catalog_terms all_terms fqn))
    /\ ((forall op, op ∈ DataProduct.components dp ->
           or_empty (DataContract.schema_ (OutputPort.dataContract op)) = []) ->
        validation_answer missing_tags missing_terms = None).
Proof.
  intros Hiter Htags Hterms Hnamed.
  set (mt := ProvisionService.classification_tags dp
               ∖ ProvisionService.existing_tags all_tags).
  set (mg := ProvisionService.glossary_terms dp
               ∖ ProvisionService.existing_terms all_terms).
  assert (Hex : forall fqn,
             fqn ∈ ProvisionService.existing_tags all_tags
             <-> in_catalog_tags all_tags fqn).
  { intros fqn. rewrite elem_of_existing_tags. split; [tauto|].
    intros Hin. split; [|exact Hin].
    intros ->. destruct Hin as (t & Ht & E). exact (Hnamed t Ht E). }
  assert (Hmt : forall fqn, fqn ∈ iter mt
             <-> referenced CLASSIFICATION dp fqn
                 /\ ~ in_catalog_tags all_tags fqn).
  { intros fqn. rewrite (elem_of_iter iter Hiter). unfold mt.
    rewrite elem_of_difference. unfold ProvisionService.classification_tags.
    now rewrite elem_of_tags_of_source, Hex. }
  assert (Hmg : forall fqn, fqn ∈ iter mg
             <-> referenced GLOSSARY dp fqn
                 /\ ~ in_catalog_terms all_terms fqn).
  { intros fqn. rewrite (elem_of_iter iter Hiter). unfold mg.
    rewrite elem_of_difference. unfold ProvisionService.glossary_terms.
    now rewrite elem_of_tags_of_source, elem_of_existing_terms. }
  assert (Hnone : validation_answer (iter mt) (iter mg) = None
                  <-> iter mt = [] /\ iter mg = []).
  { unfold validation_answer.
    destruct (iter mt), (iter mg); split; intros H;
      try discriminate; try (destruct H; discriminate); auto. }
  exists (iter mt), (iter mg).
  split; [apply (NoDup_iter iter Hiter)|].
  split; [exact Hmt|].
  split; [apply (NoDup_iter iter Hiter)|].
  split; [exact Hmg|].
  split; [now apply (validate_reads_return g iter dp w w1 w2)|].
  split.
  - rewrite Hnone. split.
    + intros [Et Eg]. split; intros fqn Href.
      * destruct (decide (fqn ∈ ProvisionService.existing_tags all_tags))
          as [Hin|Hout]; [now apply Hex|].
        exfalso. assert (fqn ∈ iter mt) as Hm.
        { apply Hmt. split; [exact Href|]. now rewrite <- Hex. }
        rewrite Et in Hm. inversion Hm.
      * destruct (decide (fqn ∈ ProvisionService.existing_terms all_terms))
          as [Hin|Hout]; [now apply elem_of_existing_terms|].
        exfalso. assert (fqn ∈ iter mg) as Hm.
        { apply Hmg. split; [exact Href|].
          now rewrite <- elem_of_existing_terms. }
        rewrite Eg in Hm. inversion Hm.
    + intros [Ht Hg]. split.
      * destruct (iter mt) as [|fqn l] eqn:E; [reflexivity|].
        assert (fqn ∈ fqn :: l) as Hm by left.
        apply Hmt in Hm as [Href Hout]. destruct (Hout (Ht fqn Href)).
      * destruct (iter mg) as [|fqn l] eqn:E; [reflexivity|].
        assert (fqn ∈ fqn :: l) as Hm by left.
        apply Hmg in Hm as [Href Hout]. destruct (Hout (Hg fqn Href)).
  - intros Hempty. rewrite Hnone.
    assert (Hnoref : forall src fqn, ~ referenced src dp fqn).
    { intros src fqn (op & columns & column & labels & t & Hop & E & Hc & _).
      specialize (Hempty op Hop). rewrite E in Hempty. simpl in Hempty.
      subst columns. inversion Hc. }
    split.
    + destruct (iter mt) as [|fqn l] eqn:E; [reflexivity|].
      assert (fqn ∈ fqn :: l) as Hm by left.
      apply Hmt in Hm as [Href _]. destruct (Hnoref _ _ Href).
    + destruct (iter mg) as [|fqn l] eqn:E; [reflexivity|].
      assert (fqn ∈ fqn :: l) as Hm by left.
      apply Hmg in Hm as [Href _]. destruct (Hnoref _ _ Href).
Qed.

Lemma elements_is_iteration_order (X : gset string) : elements X ≡ₚ elements X.
Proof. reflexivity. Defined.

Lemma sample_catalog_tags_named t :
  t ∈ sample_catalog_tags -> Tag.fullyQualifiedName t <> Some EmptyString.
Proof.
  intros Ht. apply list_elem_of_In in Ht.
  destruct Ht as [<-|[]]. discriminate.
Defined.

Lemma C2_validate_missing_references_witness :
  exists missing_tags missing_terms : list string,
    NoDup missing_tags
    /\ (forall fqn, fqn ∈ missing_tags
          <-> referenced CLASSIFICATION sample_dp fqn
              /\ ~ in_catalog_tags sample_catalog_tags fqn)
    /\ NoDup missing_terms
    /\ (forall fqn, fqn ∈ missing_terms
          <-> referenced GLOSSARY sample_dp fqn
              /\ ~ in_catalog_terms sample_catalog_terms fqn)
    /\ ProvisionService.validate
         (mock_gateway no_fault sample_catalog_tags sample_catalog_terms)
         elements sample_dp tt
       = (tt, Ok (validation_answer missing_tags missing_terms))
    /\ (validation_answer missing_tags missing_terms = None
        <-> (forall fqn, referenced CLASSIFICATION sample_dp fqn ->
                         in_catalog_tags sample_catalog_tags fqn)
            /\ (forall fqn, referenced GLOSSARY sample_dp fqn ->
                            in_catalog_terms sample_catalog_terms fqn))
    /\ ((forall op, op ∈ DataProduct.components sample_dp ->
           or_empty (DataContract.schema_ (OutputPort.dataContract op)) = []) ->
        validation_answer missing_tags missing_terms = None).
Proof.
  exact (C2_validate_missing_references
           (mock_gateway no_fault sample_catalog_tags sample_catalog_terms)
           elements sample_dp tt tt tt sample_catalog_tags sample_catalog_terms
           elements_is_iteration_order eq_refl eq_refl
           sample_catalog_tags_named).
Defined.

(** C7: when a catalog read of [validate] raises the gateway's service
    error, be it the read of the classification tags or, after that one
    returned, the read of the glossary terms, the result is the SystemErr
    carrying the service error's message, whatever the descriptor
    references; it is not a ValidationError. *)
Theorem C7_validate_catalog_fault {W} (g : Gateway.t W)
  (iter : gset string -> list string) (dp : DataProduct.t) (w w' : W)
  (msg : string) :
  Gateway.get_all_classification_tags g w = (w', Raise (ServiceError msg))
  \/ (exists w1 all_tags,
        Gateway.get_all_classification_tags g w = (w1, Ok all_tags)
        /\ Gateway.get_all_glossary_terms g w1
           = (w', Raise (ServiceError msg))) ->
  ProvisionService.validate g iter dp w
  = (w', Ok (Some (inr (mkSystemErr msg)))).
Proof. intros H. now rewrite (validate_read_raises g iter dp w w' _ H). Qed.

Lemma C7_validate_catalog_fault_witness :
  ProvisionService.validate (mock_gateway tags_read_fault [] []) elements
    sample_dp tt
  = (tt, Ok (Some (inr (mkSystemErr "Test error")))).
Proof.
  apply (C7_validate_catalog_fault (mock_gateway tags_read_fault [] [])
           elements sample_dp tt tt "Test error").
  left. reflexivity.
Defined.

Example validate_both_missing :
  ProvisionService.validate (mock_gateway no_fault [] []) elements sample_dp tt
  = (tt,
     Ok (Some (inl (mkValidationError
                      [ "Missing classification tags classification.tag1 in OpenMetadata";
                        "Missing glossary terms glossary.term1 in OpenMetadata" ])))).
Proof. vm_compute. reflexivity. Qed.

Example validate_all_present :
  ProvisionService.validate
    (mock_gateway no_fault sample_catalog_tags sample_catalog_terms)
    elements sample_dp tt
  = (tt, Ok None).
Proof. vm_compute. reflexivity. Qed.

(** ** Unprovisioning *)

Lemma wrap_eq {S A} (message : string) (body : M S A) s s' r :
  body s = (s', r) ->
  OpenMetadataClientService.wrap message body s
  = (s', match r with
         | Ok a => Ok a
         | Raise e =>
             Raise (ServiceError (message +:+ " Details: " +:+ str e))
         end).
Proof.
  intros H. unfold OpenMetadataClientService.wrap, try_except.
  rewrite H. destruct r; reflexivity.
Qed.

(** A gateway method raises nothing but the service error. *)
Lemma wrap_raises_ServiceError {S A} (message : string) (body : M S A) s s' e :
  OpenMetadataClientService.wrap message body s = (s', Raise e) ->
  exists msg, e = ServiceError msg.
Proof.
  destruct (body s) as [s1 r] eqn:E. rewrite (wrap_eq message body s s1 r E).
  destruct r; intros H; inversion H. eauto.
Qed.

Lemma recorded_eq {S C A} (c : C) (m : M S A) s log s' r :
  m s = (s', r) -> recorded c m (s, log) = ((s', log ++ [c]), r).
Proof. intros H. unfold recorded. simpl. now rewrite H. Qed.

Lemma delete_dp_absent {S} (client : OpenMetadata.t S) dp name s s' log :
  OpenMetadataClientService._get_dp_name_from_id (DataProduct.id dp) = Ok name ->
  OpenMetadata.get_by_name client OMDataProductClass name s = (s', Ok None) ->
  OpenMetadataClientService.delete_dp (recording_client client) dp (s, log)
  = ((s', log ++ [CallGetByName OMDataProductClass name]), Ok tt).
Proof.
  intros Hname Hget. unfold OpenMetadataClientService.delete_dp.
  rewrite (wrap_eq _ _ (s, log)
             (s', log ++ [CallGetByName OMDataProductClass name]) (Ok tt));
    [reflexivity|].
  rewrite Hname. unfold bind, lift. simpl.
  erewrite recorded_eq by exact Hget. reflexivity.
Qed.

Lemma delete_op_absent {S} (client : OpenMetadata.t S) settings op name
  s s' log :
  OpenMetadataClientService._get_component_name_from_id (OutputPort.id op)
    = Ok name ->
  OpenMetadata.get_by_name client ContainerClass
    (default_storage_service_name settings +:+ "." +:+ name) s = (s', Ok None) ->
  OpenMetadataClientService.delete_op (recording_client client) settings op
    (s, log)
  = ((s', log ++ [CallGetByName ContainerClass
                    (default_storage_service_name settings +:+ "." +:+ name)]),
     Ok tt).
Proof.
  intros Hname Hget. unfold OpenMetadataClientService.delete_op.
  rewrite (wrap_eq _ _ (s, log)
             (s', log ++ [CallGetByName ContainerClass
                            (default_storage_service_name settings +:+ "."
                               +:+ name)]) (Ok tt));
    [reflexivity|].
  rewrite Hname. unfold bind, lift. simpl.
  erewrite recorded_eq by exact Hget. reflexivity.
Qed.

(** C6: deleting a data product whose derived name the catalog does not
    know ([get_by_name] returns nothing) makes the lookup and no other
    call on the catalog, in particular no delete, and [unprovision], once
    its output ports are handled, answers COMPLETED; deleting an output
    port whose container, looked up as storage-service name, a dot and the
    derived component name, is absent likewise makes the lookup only. *)
Theorem C6_delete_absent_is_noop {S} (client : OpenMetadata.t S)
  (settings : OpenMetadataSettings) (lib : Library)
  (dp : DataProduct.t) (remove_data : bool) (name : string) (s1 s2 : S)
  (op : OutputPort.t) (component_name : string) (s s' : S) :
  let gateway :=
    openmetadata_client_service (recording_client client) settings lib in
  OpenMetadataClientService._get_dp_name_from_id (DataProduct.id dp) = Ok name ->
  OpenMetadata.get_by_name client OMDataProductClass name s1 = (s2, Ok None) ->
  OpenMetadataClientService._get_component_name_from_id (OutputPort.id op)
    = Ok component_name ->
  OpenMetadata.get_by_name client ContainerClass
    (default_storage_service_name settings +:+ "." +:+ component_name) s
    = (s', Ok None) ->
  (forall log,
     Gateway.delete_dp gateway dp (s1, log)
     = ((s2, log ++ [CallGetByName OMDataProductClass name]), Ok tt))
  /\ (forall w0 log1,
        for_each (DataProduct.get_output_ports dp) (Gateway.delete_op gateway)
          w0 = ((s1, log1), Ok tt) ->
        ProvisionService.unprovision gateway dp remove_data w0
        = ((s2, log1 ++ [CallGetByName OMDataProductClass name]),
           Ok (inl (mkProvisioningStatus COMPLETED "" None))))
  /\ (forall log,
        Gateway.delete_op gateway op (s, log)
        = ((s', log ++ [CallGetByName ContainerClass
                          (default_storage_service_name settings +:+ "."
                             +:+ component_name)]),
           Ok tt)).
Proof.
  intros gateway Hname Hget Hcname Hcget.
  assert (Hdp : forall log,
             Gateway.delete_dp gateway dp (s1, log)
             = ((s2, log ++ [CallGetByName OMDataProductClass name]), Ok tt))
    by (intros log; apply delete_dp_absent; assumption).
  split; [exact Hdp|]. split.
  - intros w0 log1 Hports. unfold ProvisionService.unprovision.
    rewrite (try_except_ServiceError_eq _ _ w0
               (s2, log1 ++ [CallGetByName OMDataProductClass name])
               (Ok (inl (mkProvisioningStatus COMPLETED "" None))));
      [reflexivity|].
    erewrite bind_Ok by exact Hports.
    erewrite bind_Ok by apply Hdp. reflexivity.
  - intros log. apply delete_op_absent; assumption.
Qed.

(** [test_delete_dp_not_found], [test_delete_op_not_found] and an
    unprovisioning on a catalog that holds nothing. *)
Lemma C6_delete_absent_is_noop_witness :
  let gateway :=
    openmetadata_client_service (recording_client empty_catalog_client)
      sample_settings sample_lib in
  Gateway.delete_dp gateway sample_dp (tt, [])
    = ((tt, [CallGetByName OMDataProductClass "healthcare:vaccinations:0"]),
       Ok tt)
  /\ ProvisionService.unprovision gateway sample_dp true (tt, [])
     = ((tt, [CallGetByName ContainerClass
                "generic.healthcare:vaccinations:0:output-port";
              CallGetByName OMDataProductClass "healthcare:vaccinations:0"]),
        Ok (inl (mkProvisioningStatus COMPLETED "" None)))
  /\ Gateway.delete_op gateway sample_op (tt, [])
     = ((tt, [CallGetByName ContainerClass
                "generic.healthcare:vaccinations:0:output-port"]),
        Ok tt).
Proof.
  intros gateway.
  destruct (C6_delete_absent_is_noop empty_catalog_client sample_settings
              sample_lib sample_dp true "healthcare:vaccinations:0" tt tt
              sample_op "healthcare:vaccinations:0:output-port" tt tt
              eq_refl eq_refl eq_refl eq_refl) as (Hdp & Hun & Hop).
  split; [exact (Hdp [])|]. split; [|exact (Hop [])].
  exact (Hun (tt, [])
           [CallGetByName ContainerClass
              "generic.healthcare:vaccinations:0:output-port"] eq_refl).
Defined.

(** ** Descriptor unpacking *)

Section Unpacking.
Context {Yaml : Type}.
Variable safe_load : string -> Res Yaml.
Variable parse_yaml_with_model : Yaml -> Res (DataProduct.t + ValidationError).
Variable format_kind : DescriptorKind -> string.

Lemma unpack_unexpected_kind request :
  ProvisioningRequest.descriptorKind request <> DATAPRODUCT_DESCRIPTOR ->
  ProvisioningRequest.descriptorKind request
    <> DATAPRODUCT_DESCRIPTOR_WITH_RESULTS ->
  unpack_provisioning_request safe_load parse_yaml_with_model format_kind request
  = Ok (inr (mkValidationError
               ["Expecting a DATAPRODUCT_DESCRIPTOR but got a "
                  +:+ format_kind (ProvisioningRequest.descriptorKind request)
                  +:+ " instead; please check with the platform team."])).
Proof.
  intros H1 H2. unfold unpack_provisioning_request.
  rewrite !bool_decide_eq_false_2 by assumption. reflexivity.
Qed.

Lemma unpack_accepted_kind request :
  ProvisioningRequest.descriptorKind request = DATAPRODUCT_DESCRIPTOR
  \/ ProvisioningRequest.descriptorKind request
     = DATAPRODUCT_DESCRIPTOR_WITH_RESULTS ->
  unpack_provisioning_request safe_load parse_yaml_with_model format_kind request
  = match
      res_bind (safe_load (ProvisioningRequest.descriptor request))
        parse_yaml_with_model
    with
    | Ok data_product_or_error => Ok data_product_or_error
    | Raise ex =>
        Ok (inr (mkValidationError ["Unable to parse the descriptor."; str ex]))
    end.
Proof.
  intros [H|H]; unfold unpack_provisioning_request; rewrite H; reflexivity.
Qed.

End Unpacking.

(** C5, as stated, fails for schema-validation failures: with an accepted
    kind and a descriptor that loads but does not fit the schema, the
    parsing helper returns a ValidationError of its own, which
    [unpack_provisioning_request] hands back unchanged; the fixed message
    "Unable to parse the descriptor." is not in it. *)
Lemma C5_schema_failure_keeps_helper_errors :
  unpack_provisioning_request sample_safe_load sample_parse_yaml_with_model
    sample_format_kind
    (ProvisioningRequest.mk DATAPRODUCT_DESCRIPTOR "invalid_field: Invalid Value"
       None)
  = Ok (inr (mkValidationError ["Failed to parse the descriptor"]))
  /\ ~ ("Unable to parse the descriptor."
          ∈ ["Failed to parse the descriptor"]).
Proof.
  split; [reflexivity|].
  intros H. apply list_elem_of_In in H. destruct H as [H|[]]. discriminate.
Qed.

(** C5, amended: a descriptor kind other than the two accepted ones gives
    the ValidationError naming that kind.  For an accepted kind, an
    exception raised while loading the descriptor text or while parsing
    the loaded tree gives the ValidationError made of the fixed message
    "Unable to parse the descriptor." followed by the exception's text;
    whatever the parsing helper returns (a data product, or its own
    ValidationError for a schema mismatch) is returned unchanged.  No fault
    is left unhandled. *)
Theorem C5_unpack_provisioning_request {Yaml : Type}
  (safe_load : string -> Res Yaml)
  (parse_yaml_with_model : Yaml -> Res (DataProduct.t + ValidationError))
  (format_kind : DescriptorKind -> string)
  (request : ProvisioningRequest.t) :
  let kind := ProvisioningRequest.descriptorKind request in
  let text := ProvisioningRequest.descriptor request in
  let r := unpack_provisioning_request safe_load parse_yaml_with_model
             format_kind request in
  (kind <> DATAPRODUCT_DESCRIPTOR ->
   kind <> DATAPRODUCT_DESCRIPTOR_WITH_RESULTS ->
   r = Ok (inr (mkValidationError
                  ["Expecting a DATAPRODUCT_DESCRIPTOR but got a "
                     +:+ format_kind kind
                     +:+ " instead; please check with the platform team."])))
  /\ (kind = DATAPRODUCT_DESCRIPTOR
      \/ kind = DATAPRODUCT_DESCRIPTOR_WITH_RESULTS ->
      (forall ex, safe_load text = Raise ex ->
         r = Ok (inr (mkValidationError
                        ["Unable to parse the descriptor."; str ex])))
      /\ (forall tree ex,
            safe_load text = Ok tree ->
            parse_yaml_with_model tree = Raise ex ->
            r = Ok (inr (mkValidationError
                           ["Unable to parse the descriptor."; str ex])))
      /\ (forall tree data_product_or_error,
            safe_load text = Ok tree ->
            parse_yaml_with_model tree = Ok data_product_or_error ->
            r = Ok data_product_or_error))
  /\ (exists data_product_or_error, r = Ok data_product_or_error).
Proof.
  intros kind text r. split; [|split].
  - apply unpack_unexpected_kind.
  - intros Hkind. subst r.
    rewrite (unpack_accepted_kind _ _ _ request Hkind). fold text.
    split; [|split].
    + intros ex ->. reflexivity.
    + intros tree ex -> Hp. simpl. now rewrite Hp.
    + intros tree v -> Hp. simpl. now rewrite Hp.
  - subst r.
    destruct (decide (kind = DATAPRODUCT_DESCRIPTOR)) as [H1|H1];
      [|destruct (decide (kind = DATAPRODUCT_DESCRIPTOR_WITH_RESULTS))
          as [H2|H2]].
    + rewrite (unpack_accepted_kind _ _ _ request (or_introl H1)).
      destruct (res_bind _ _); eauto.
    + rewrite (unpack_accepted_kind _ _ _ request (or_intror H2)).
      destruct (res_bind _ _); eauto.
    + rewrite (unpack_unexpected_kind _ _ _ request H1 H2). eauto.
Qed.

Lemma C5_unpack_provisioning_request_witness :
  unpack_provisioning_request sample_safe_load sample_parse_yaml_with_model
    sample_format_kind
    (ProvisioningRequest.mk COMPONENT_DESCRIPTOR "valid descriptor" None)
  = Ok (inr (mkValidationError
               ["Expecting a DATAPRODUCT_DESCRIPTOR but got a COMPONENT_DESCRIPTOR instead; please check with the platform team."]))
  /\ unpack_provisioning_request sample_safe_load sample_parse_yaml_with_model
       sample_format_kind
       (ProvisioningRequest.mk DATAPRODUCT_DESCRIPTOR "key: [unclosed" None)
     = Ok (inr (mkValidationError
                  ["Unable to parse the descriptor.";
                   "while parsing a flow sequence"]))
  /\ unpack_provisioning_request sample_safe_load sample_parse_yaml_with_model
       sample_format_kind
       (ProvisioningRequest.mk DATAPRODUCT_DESCRIPTOR_WITH_RESULTS
          "valid descriptor" None)
     = Ok (inl sample_dp).
Proof.
  split; [|split].
  - apply (C5_unpack_provisioning_request sample_safe_load
             sample_parse_yaml_with_model sample_format_kind
             (ProvisioningRequest.mk COMPONENT_DESCRIPTOR "valid descriptor"
                None)); discriminate.
  - destruct (C5_unpack_provisioning_request sample_safe_load
                sample_parse_yaml_with_model sample_format_kind
                (ProvisioningRequest.mk DATAPRODUCT_DESCRIPTOR "key: [unclosed"
                   None)) as (_ & H & _).
    destruct (H (or_introl eq_refl)) as (Hload & _ & _).
    exact (Hload (LibraryError "while parsing a flow sequence") eq_refl).
  - destruct (C5_unpack_provisioning_request sample_safe_load
                sample_parse_yaml_with_model sample_format_kind
                (ProvisioningRequest.mk DATAPRODUCT_DESCRIPTOR_WITH_RESULTS
                   "valid descriptor" None)) as (_ & H & _).
    destruct (H (or_intror eq_refl)) as (_ & _ & Hparse).
    exact (Hparse "valid descriptor" (inl sample_dp) eq_refl eq_refl).
Defined.

(** ** Glossary lookup *)

Lemma slice_page {A} (l : list A) (start size : Z) :
  (0 <= start)%Z -> (0 <= size)%Z ->
  Py.slice l start (start + size)
  = take (Z.to_nat size) (drop (Z.to_nat start) l).
Proof.
  intros Hstart Hsize. unfold Py.slice, Py.slice_bound.
  destruct (Z.ltb_spec start 0) as [|_]; [lia|].
  destruct (Z.ltb_spec (start + size) 0) as [|_]; [lia|].
  destruct (Z_le_gt_dec (Z.of_nat (length l)) start) as [Hout|Hin].
  - rewrite Z.min_r by lia.
    rewrite (drop_ge l (Z.to_nat start)) by lia.
    rewrite drop_ge by lia. now rewrite !take_nil.
  - rewrite (Z.min_l start) by lia.
    destruct (Z_le_gt_dec (start + size) (Z.of_nat (length l))) as [Hfit|Hcut].
    + rewrite Z.min_l by lia. do 2 f_equal. lia.
    + rewrite Z.min_r by lia.
      rewrite !take_ge; [reflexivity| |]; rewrite length_drop; lia.
Qed.

Lemma lookup_page {A} (l : list A) (start size k : nat) :
  take size (drop start l) !! k
  = if decide (k < size) then l !! (start + k) else None.
Proof. rewrite lookup_take. destruct (decide (k < size)); [apply lookup_drop|reflexivity]. Qed.

(** Rendering a page raises nothing but the item constructor's
    rejection. *)
Lemma picker_items_raises (page : list GlossaryTerm.t) e :
  GlossaryTermsService.picker_items page = Raise e ->
  e = LibraryError "1 validation error for CustomUrlPickerItem".
Proof.
  induction page as [|t page IH]; simpl; [discriminate|].
  destruct (GlossaryTerm.fullyQualifiedName t) as [root|]; [|exact IH].
  unfold GlossaryTermsService.picker_item.
  destruct (EntityReference.name (GlossaryTerm.glossary t)); simpl.
  - destruct (GlossaryTermsService.picker_items page); simpl;
      [discriminate|]. intros H. injection H as <-. now apply IH.
  - intros H. now injection H as <-.
Qed.

Lemma get_terms_eq {W} (g : Gateway.t W) (lower : string -> string)
  body offset limit filter w w' all_terms :
  Gateway.get_all_glossary_terms g w = (w', Ok all_terms) ->
  GlossaryTermsService.get_terms g lower body offset limit filter w
  = (w',
     match
       GlossaryTermsService.picker_items
         (Py.slice (candidates lower body filter all_terms)
            (offset * limit) (offset * limit + limit))
     with
     | Ok items => Ok (inl items)
     | Raise e => Raise e
     end).
Proof.
  intros Hget.
  unfold GlossaryTermsService.get_terms, try_except_ServiceError, bind, lift.
  rewrite Hget. unfold candidates, GlossaryTermsService.paginated_terms.
  destruct (GlossaryTermsService.picker_items _) as [items|e] eqn:E;
    [reflexivity|].
  now rewrite (picker_items_raises _ e E).
Qed.

Lemma picker_items_all (page : list GlossaryTerm.t) :
  (forall t, t ∈ page -> is_Some (item_of t)) ->
  exists items,
    GlossaryTermsService.picker_items page = Ok items
    /\ map Some items = map item_of page.
Proof.
  induction page as [|t page IH]; intros Hall.
  - exists []. split; reflexivity.
  - destruct IH as (items & Hitems & Hmap).
    { intros t' Ht'. apply Hall. now right. }
    destruct (Hall t) as [item Hitem]; [left|].
    unfold item_of in Hitem. simpl.
    unfold GlossaryTermsService.picker_item.
    destruct (GlossaryTerm.fullyQualifiedName t) as [root|] eqn:Ef;
      [|discriminate].
    destruct (EntityReference.name (GlossaryTerm.glossary t)) as [gname|] eqn:Eg;
      [|discriminate].
    simpl. rewrite Hitems. simpl. exists (item :: items). split.
    + now injection Hitem as ->.
    + simpl. unfold item_of at 1. rewrite Ef, Eg, Hmap. now rewrite Hitem.
Qed.

(** Every item comes from a term of the page that has a fully-qualified
    name: no term without one is ever rendered. *)
Lemma picker_items_named (page : list GlossaryTerm.t) items item :
  GlossaryTermsService.picker_items page = Ok items ->
  item ∈ items ->
  exists t, t ∈ page /\ item_of t = Some item.
Proof.
  revert items. induction page as [|t page IH]; intros items Hitems Hin.
  - injection Hitems as <-. inversion Hin.
  - simpl in Hitems. unfold item_of.
    destruct (GlossaryTerm.fullyQualifiedName t) as [root|] eqn:Ef.
    + unfold GlossaryTermsService.picker_item in Hitems.
      destruct (EntityReference.name (GlossaryTerm.glossary t)) as [gname|] eqn:Eg;
        simpl in Hitems; [|discriminate].
      destruct (GlossaryTermsService.picker_items page) as [rest|] eqn:Er;
        simpl in Hitems; [|discriminate].
      injection Hitems as <-.
      apply elem_of_cons in Hin as [->|Hin].
      * exists t. split; [left|]. now rewrite Ef, Eg.
      * destruct (IH rest eq_refl Hin) as (t' & Ht' & Hi).
        exists t'. split; [now right|exact Hi].
    + destruct (IH items Hitems Hin) as (t' & Ht' & Hi).
      exists t'. split; [now right|exact Hi].
Qed.

(** C8: [get_terms] renders the slice
    [[offset*limit : offset*limit+limit]] of the filtered list; for a page
    number [offset] and a page size [limit] that are not negative this is
    the run of at most [limit] terms starting at position [offset*limit],
    in the order of the list; and when each term of the slice has a
    fully-qualified name and a named glossary, the result is the list of
    their items, one per term, in that order. *)
Theorem C8_get_terms_page {W} (g : Gateway.t W) (lower : string -> string)
  (body : option CustomUrlPickerResourcesRequestBody.t)
  (offset limit : Z) (filter : option string) (w w' : W)
  (all_terms : list GlossaryTerm.t) :
  Gateway.get_all_glossary_terms g w = (w', Ok all_terms) ->
  let filtered := candidates lower body filter all_terms in
  let page := Py.slice filtered (offset * limit) (offset * limit + limit) in
  GlossaryTermsService.get_terms g lower body offset limit filter w
  = (w', match GlossaryTermsService.picker_items page with
         | Ok items => Ok (inl items)
         | Raise e => Raise e
         end)
  /\ ((0 <= offset)%Z -> (0 <= limit)%Z ->
      page = take (Z.to_nat limit) (drop (Z.to_nat (offset * limit)) filtered)
      /\ forall k : nat,
           page !! k
           = if decide (k < Z.to_nat limit)
             then filtered !! (Z.to_nat (offset * limit) + k)
             else None)
  /\ ((forall t, t ∈ page -> is_Some (item_of t)) ->
      exists items,
        GlossaryTermsService.get_terms g lower body offset limit filter w
        = (w', Ok (inl items))
        /\ map Some items = map item_of page).
Proof.
  intros Hget filtered page.
  pose proof (get_terms_eq g lower body offset limit filter w w' all_terms Hget)
    as Heq.
  fold filtered in Heq. fold page in Heq.
  split; [exact Heq|]. split.
  - intros Hoffset Hlimit.
    assert (page = take (Z.to_nat limit)
                     (drop (Z.to_nat (offset * limit)) filtered)) as Hpage
      by (apply slice_page; lia).
    split; [exact Hpage|]. intros k. rewrite Hpage. apply lookup_page.
  - intros Hall. destruct (picker_items_all page Hall) as (items & Hitems & Hmap).
    exists items. split; [|exact Hmap]. rewrite Heq, Hitems. reflexivity.
Qed.

(** The two pages of [test_get_terms_with_pagination]. *)
Lemma C8_get_terms_page_witness :
  GlossaryTermsService.get_terms
    (mock_gateway no_fault [] [sample_term; sample_term2]) sample_lower
    None 0 1 None tt
  = (tt, Ok (inl [sample_item]))
  /\ GlossaryTermsService.get_terms
       (mock_gateway no_fault [] [sample_term; sample_term2]) sample_lower
       None 1 1 None tt
     = (tt, Ok (inl [sample_item2])).
Proof.
  split.
  - exact (proj1 (C8_get_terms_page
                    (mock_gateway no_fault [] [sample_term; sample_term2])
                    sample_lower None 0 1 None tt tt
                    [sample_term; sample_term2] eq_refl)).
  - exact (proj1 (C8_get_terms_page
                    (mock_gateway no_fault [] [sample_term; sample_term2])
                    sample_lower None 1 1 None tt tt
                    [sample_term; sample_term2] eq_refl)).
Defined.

Lemma elem_of_slice {A} (l : list A) (start stop : Z) x :
  x ∈ Py.slice l start stop -> x ∈ l.
Proof.
  unfold Py.slice. intros H.
  apply (subseteq_drop (Z.to_nat (Py.slice_bound (Z.of_nat (length l)) start)) l).
  exact (subseteq_take _ _ _ H).
Qed.

Lemma elem_of_bool_filter {A} (p : A -> bool) (l : list A) x :
  x ∈ List.filter p l <-> x ∈ l /\ p x = true.
Proof. rewrite !list_elem_of_In. apply filter_In. Qed.

Lemma matches_domain_named lower domain t :
  GlossaryTermsService.matches_domain lower domain t = true ->
  has_named_domain t /\ is_Some (GlossaryTerm.fullyQualifiedName t).
Proof.
  unfold GlossaryTermsService.matches_domain, has_named_domain.
  destruct (GlossaryTerm.fullyQualifiedName t) as [root|]; [|discriminate].
  destruct (GlossaryTerm.domain t) as [d|]; [|discriminate].
  destruct (EntityReference.name d) as [name|] eqn:E; [|discriminate].
  intros H. apply andb_true_iff in H as [Hname _].
  split; [|eauto]. exists d, name. repeat split; [exact E|].
  intros ->. discriminate.
Qed.

Lemma matches_filter_named lower filter t :
  GlossaryTermsService.matches_filter lower filter t = true ->
  is_Some (GlossaryTerm.fullyQualifiedName t).
Proof.
  unfold GlossaryTermsService.matches_filter.
  destruct (GlossaryTerm.fullyQualifiedName t); [eauto|discriminate].
Qed.

Lemma domain_filter_Some body d :
  GlossaryTermsService.domain_filter body = Some d
  <-> exists b,
        body = Some b
        /\ CustomUrlPickerResourcesRequestBody.domain b = Some d
        /\ d <> EmptyString.
Proof.
  unfold GlossaryTermsService.domain_filter. split.
  - destruct body as [b|]; [|discriminate].
    destruct (CustomUrlPickerResourcesRequestBody.domain b) as [d'|] eqn:E;
      [|discriminate].
    destruct d' as [|c d']; simpl; [discriminate|].
    intros H. injection H as <-. exists b. repeat split; [exact E|discriminate].
  - intros (b & -> & -> & Hd). destruct d; [contradiction|reflexivity].
Qed.

Lemma domain_filter_None body :
  GlossaryTermsService.domain_filter body = None
  <-> body = None
      \/ exists b,
           body = Some b
           /\ (CustomUrlPickerResourcesRequestBody.domain b = None
               \/ CustomUrlPickerResourcesRequestBody.domain b
                  = Some EmptyString).
Proof.
  unfold GlossaryTermsService.domain_filter. split.
  - destruct body as [b|]; [|auto].
    destruct (CustomUrlPickerResourcesRequestBody.domain b) as [d|] eqn:E;
      [|eauto].
    destruct d; simpl; [eauto|discriminate].
  - intros [->|(b & -> & [->| ->])]; reflexivity.
Qed.

(** With a text filter or a domain filter, the terms without a
    fully-qualified name are dropped before the page is cut. *)
Lemma candidates_named lower body filter all_terms t :
  Py.truthy_opt filter = true
  \/ is_Some (GlossaryTermsService.domain_filter body) ->
  t ∈ candidates lower body filter all_terms ->
  is_Some (GlossaryTerm.fullyQualifiedName t).
Proof.
  unfold candidates, GlossaryTermsService.filtered_terms_by_domain,
    GlossaryTermsService.filtered_terms.
  intros [Hf|[d Hd]].
  - destruct filter as [f|]; [|discriminate]. simpl in Hf. rewrite Hf.
    destruct (GlossaryTermsService.domain_filter body); intros Ht.
    + apply elem_of_bool_filter in Ht as [Ht _].
      apply elem_of_bool_filter in Ht as [_ Ht].
      eapply matches_filter_named, Ht.
    + apply elem_of_bool_filter in Ht as [_ Ht].
      eapply matches_filter_named, Ht.
  - rewrite Hd. intros Ht. apply elem_of_bool_filter in Ht as [_ Ht].
    eapply matches_domain_named, Ht.
Qed.

(** C9 at the failing input: without any filter, a term that has no
    fully-qualified name is not rendered, but it holds the only place of
    the first page of size one, so the page comes back empty; without
    that term the same request returns the named term. *)
Lemma C9_unnamed_term_takes_page_slot :
  GlossaryTermsService.get_terms
    (mock_gateway no_fault [] [unnamed_term; sample_term]) sample_lower
    None 0 1 None tt
  = (tt, Ok (inl []))
  /\ GlossaryTermsService.get_terms
       (mock_gateway no_fault [] [sample_term]) sample_lower
       None 0 1 None tt
     = (tt, Ok (inl [sample_item])).
Proof. split; reflexivity. Qed.

(** The sibling path: with a text filter the same unnamed term is dropped
    before the page is cut and the named term is returned. *)
Example get_terms_filter_drops_unnamed_first :
  GlossaryTermsService.get_terms
    (mock_gateway no_fault [] [unnamed_term; sample_term]) sample_lower
    None 0 1 (Some "Term") tt
  = (tt, Ok (inl [sample_item])).
Proof. reflexivity. Qed.

Lemma bool_filter_map {A B} (p : B -> bool) (q : A -> bool) (f : A -> B)
  (l : list A) :
  (forall x, p (f x) = q x) ->
  List.filter p (map f l) = map f (List.filter q l).
Proof.
  intros H. induction l as [|x l IH]; simpl; [reflexivity|].
  rewrite H. destruct (q x); simpl; now rewrite IH.
Qed.

Lemma slice_map {A B} (f : A -> B) (l : list A) (start stop : Z) :
  Py.slice (map f l) start stop = map f (Py.slice l start stop).
Proof.
  unfold Py.slice. rewrite List.length_map.
  now rewrite List.skipn_map, List.firstn_map.
Qed.

(** The text filter and the rendering of a page do not read the domain
    reference of a term. *)
Lemma filtered_terms_without_domain lower filter all_terms :
  GlossaryTermsService.filtered_terms lower filter (map without_domain all_terms)
  = map without_domain
      (GlossaryTermsService.filtered_terms lower filter all_terms).
Proof.
  unfold GlossaryTermsService.filtered_terms.
  destruct filter as [f|]; [|reflexivity].
  destruct (Py.truthy f); [|reflexivity].
  apply bool_filter_map. reflexivity.
Qed.

Lemma picker_items_without_domain (page : list GlossaryTerm.t) :
  GlossaryTermsService.picker_items (map without_domain page)
  = GlossaryTermsService.picker_items page.
Proof.
  induction page as [|t page IH]; [reflexivity|].
  simpl. rewrite IH. reflexivity.
Qed.

Lemma picker_items_returns_named (page : list GlossaryTerm.t) items t item :
  GlossaryTermsService.picker_items page = Ok items ->
  t ∈ page -> item_of t = Some item -> item ∈ items.
Proof.
  revert items. induction page as [|t' page IH]; intros items Hitems Hin Hitem.
  - inversion Hin.
  - simpl in Hitems. unfold GlossaryTermsService.picker_item in Hitems.
    apply elem_of_cons in Hin as [<-|Hin].
    + unfold item_of in Hitem.
      destruct (GlossaryTerm.fullyQualifiedName t) as [root|]; [|discriminate].
      destruct (EntityReference.name (GlossaryTerm.glossary t)) as [gname|];
        [|discriminate].
      simpl in Hitems.
      destruct (GlossaryTermsService.picker_items page) as [rest|];
        simpl in Hitems; [|discriminate].
      injection Hitems as <-. injection Hitem as <-. left.
    + destruct (GlossaryTerm.fullyQualifiedName t') as [root|];
        [|now apply IH].
      destruct (EntityReference.name (GlossaryTerm.glossary t')) as [gname|];
        simpl in Hitems; [|discriminate].
      destruct (GlossaryTermsService.picker_items page) as [rest|];
        simpl in Hitems; [|discriminate].
      injection Hitems as <-. right. now apply (IH rest).
Qed.

(** C10: when the request supplies a non-empty domain name, every term
    the page is cut from, every term of the page and every returned item
    belongs to a term whose domain reference carries a non-empty name, so
    a term without a domain reference, or whose domain has no name, is
    excluded; when no domain name is supplied (no body, no domain, or the
    empty string), the page is cut from the text-filtered list as it is
    and [get_terms] renders that page: a term of that page that can be
    rendered is among the returned items whether or not it has a domain,
    and the result is the same for any catalog whose terms differ from
    these in their domain references only. *)
Theorem C10_domain_filter {W} (g : Gateway.t W) (lower : string -> string)
  (body : option CustomUrlPickerResourcesRequestBody.t)
  (offset limit : Z) (filter : option string) (w w' : W)
  (all_terms : list GlossaryTerm.t) :
  Gateway.get_all_glossary_terms g w = (w', Ok all_terms) ->
  let filtered := candidates lower body filter all_terms in
  let page := Py.slice filtered (offset * limit) (offset * limit + limit) in
  let text_page :=
    Py.slice (GlossaryTermsService.filtered_terms lower filter all_terms)
      (offset * limit) (offset * limit + limit) in
  (forall b d,
     body = Some b ->
     CustomUrlPickerResourcesRequestBody.domain b = Some d ->
     d <> EmptyString ->
     (forall t, t ∈ filtered -> has_named_domain t)
     /\ (forall t, t ∈ page -> has_named_domain t)
     /\ (forall items item,
           GlossaryTermsService.get_terms g lower body offset limit filter w
             = (w', Ok (inl items)) ->
           item ∈ items ->
           exists t, t ∈ all_terms /\ has_named_domain t
                     /\ item_of t = Some item))
  /\ (body = None
      \/ (exists b,
            body = Some b
            /\ (CustomUrlPickerResourcesRequestBody.domain b = None
                \/ CustomUrlPickerResourcesRequestBody.domain b
                   = Some EmptyString)) ->
      filtered = GlossaryTermsService.filtered_terms lower filter all_terms
      /\ GlossaryTermsService.get_terms g lower body offset limit filter w
         = (w', match GlossaryTermsService.picker_items text_page with
                | Ok items => Ok (inl items)
                | Raise e => Raise e
                end)
      /\ (forall items t item,
            GlossaryTermsService.get_terms g lower body offset limit filter w
              = (w', Ok (inl items)) ->
            t ∈ text_page ->
            item_of t = Some item ->
            item ∈ items)
      /\ (forall (g2 : Gateway.t W) (w2 w2' : W)
                 (all_terms2 : list GlossaryTerm.t),
            Gateway.get_all_glossary_terms g2 w2 = (w2', Ok all_terms2) ->
            map without_domain all_terms2 = map without_domain all_terms ->
            snd (GlossaryTermsService.get_terms g2 lower body offset limit
                   filter w2)
            = snd (GlossaryTermsService.get_terms g lower body offset limit
                     filter w))).
Proof.
  intros Hget filtered page text_page. split.
  - intros b d Hb Hd Hne.
    assert (GlossaryTermsService.domain_filter body = Some d) as Hdf
      by (apply domain_filter_Some; eauto).
    assert (Hfiltered : forall t, t ∈ filtered ->
              has_named_domain t /\ t ∈ all_terms).
    { intros t. unfold filtered, candidates,
        GlossaryTermsService.filtered_terms_by_domain.
      rewrite Hdf. intros Ht. apply elem_of_bool_filter in Ht as [Ht Hm].
      split; [eapply matches_domain_named, Hm|].
      unfold GlossaryTermsService.filtered_terms in Ht.
      destruct filter as [f|]; [|exact Ht].
      destruct (Py.truthy f); [|exact Ht].
      now apply elem_of_bool_filter in Ht as [Ht _]. }
    split; [intros t Ht; now apply Hfiltered|].
    split.
    + intros t Ht. apply Hfiltered. eapply elem_of_slice, Ht.
    + intros items item Hres Hin.
      rewrite (get_terms_eq g lower body offset limit filter w w' all_terms Hget)
        in Hres.
      fold filtered in Hres. fold page in Hres.
      destruct (GlossaryTermsService.picker_items page) as [items'|e] eqn:E;
        [|discriminate].
      injection Hres as ->.
      destruct (picker_items_named page items item E Hin) as (t & Ht & Hi).
      exists t. apply elem_of_slice in Ht.
      destruct (Hfiltered t Ht). auto.
  - intros Hnone. apply domain_filter_None in Hnone.
    assert (forall terms,
              candidates lower body filter terms
              = GlossaryTermsService.filtered_terms lower filter terms)
      as Hcand.
    { intros terms.
      unfold candidates, GlossaryTermsService.filtered_terms_by_domain.
      now rewrite Hnone. }
    assert (forall (g1 : Gateway.t W) w1 w1' terms,
              Gateway.get_all_glossary_terms g1 w1 = (w1', Ok terms) ->
              GlossaryTermsService.get_terms g1 lower body offset limit filter
                w1
              = (w1',
                 match
                   GlossaryTermsService.picker_items
                     (Py.slice
                        (GlossaryTermsService.filtered_terms lower filter terms)
                        (offset * limit) (offset * limit + limit))
                 with
                 | Ok items => Ok (inl items)
                 | Raise e => Raise e
                 end)) as Heq.
    { intros g1 w1 w1' terms H1.
      rewrite (get_terms_eq g1 lower body offset limit filter w1 w1' terms H1).
      now rewrite Hcand. }
    split; [apply Hcand|]. split; [exact (Heq g w w' all_terms Hget)|]. split.
    + intros items t item Hres Ht Hitem.
      rewrite (Heq g w w' all_terms Hget) in Hres. fold text_page in Hres.
      destruct (GlossaryTermsService.picker_items text_page) as [items'|e]
        eqn:E; [|discriminate].
      injection Hres as ->.
      eapply picker_items_returns_named; eassumption.
    + intros g2 w2 w2' all_terms2 Hget2 Hsame.
      rewrite (Heq g2 w2 w2' all_terms2 Hget2), (Heq g w w' all_terms Hget).
      simpl.
      rewrite <- (picker_items_without_domain (Py.slice _ _ _)).
      rewrite <- (picker_items_without_domain
                    (Py.slice
                       (GlossaryTermsService.filtered_terms lower filter
                          all_terms) _ _)).
      rewrite <- !slice_map, <- !filtered_terms_without_domain, Hsame.
      reflexivity.
Qed.

(** With the domain filter [Domain1] every candidate has a named domain;
    without a domain filter the second term, which has no domain, is
    returned with the first. *)
Lemma C10_domain_filter_witness :
  (forall t,
     t ∈ candidates sample_lower
           (Some (CustomUrlPickerResourcesRequestBody.mk (Some "Domain1")))
           None [sample_term; sample_term2] ->
     has_named_domain t)
  /\ candidates sample_lower None None [sample_term; sample_term2]
     = GlossaryTermsService.filtered_terms sample_lower None
         [sample_term; sample_term2]
  /\ GlossaryTermsService.get_terms
       (mock_gateway no_fault [] [sample_term; sample_term2]) sample_lower
       None 0 10 None tt
     = (tt, Ok (inl [sample_item; sample_item2])).
Proof.
  split; [|split].
  - destruct (C10_domain_filter
                (mock_gateway no_fault [] [sample_term; sample_term2])
                sample_lower
                (Some (CustomUrlPickerResourcesRequestBody.mk (Some "Domain1")))
                0 10 None tt tt [sample_term; sample_term2] eq_refl)
      as [H _].
    destruct (H (CustomUrlPickerResourcesRequestBody.mk (Some "Domain1"))
                "Domain1" eq_refl eq_refl ltac:(discriminate)) as [Hf _].
    exact Hf.
  - destruct (C10_domain_filter
                (mock_gateway no_fault [] [sample_term; sample_term2])
                sample_lower None 0 10 None tt tt
                [sample_term; sample_term2] eq_refl)
      as [_ H].
    exact (proj1 (H (or_introl eq_refl))).
  - destruct (C10_domain_filter
                (mock_gateway no_fault [] [sample_term; sample_term2])
                sample_lower None 0 10 None tt tt
                [sample_term; sample_term2] eq_refl)
      as [_ H].
    exact (proj1 (proj2 (H (or_introl eq_refl)))).
Defined.

(** [test_get_terms_with_domain_filter], with a second term that has no
    domain: only the term of the requested domain is returned; without a
    domain filter both are. *)
Example get_terms_with_domain_filter :
  GlossaryTermsService.get_terms
    (mock_gateway no_fault [] [sample_term; sample_term2]) sample_lower
    (Some (CustomUrlPickerResourcesRequestBody.mk (Some "Domain1"))) 0 10 None tt
  = (tt, Ok (inl [sample_item]))
  /\ GlossaryTermsService.get_terms
       (mock_gateway no_fault [] [sample_term; sample_term2]) sample_lower
       None 0 10 None tt
     = (tt, Ok (inl [sample_item; sample_item2])).
Proof. split; reflexivity. Qed.

(** ** The real gateway under the services *)

(** Every step of the provisioning plan, run on the real gateway, raises
    nothing but the service error: a fault of the client, of a library or
    of the name derivation reaches [provision] as a service error and
    becomes a SystemErr. *)
Lemma plan_step_raises_ServiceError {S} (client : OpenMetadata.t S)
  settings lib dp c s s' e :
  c ∈ provision_plan dp ->
  perform (openmetadata_client_service client settings lib) c s
    = (s', Raise e) ->
  exists msg, e = ServiceError msg.
Proof.
  intros Hc. unfold provision_plan in Hc.
  assert (forall A (message : string) (body : M S A),
            bind (OpenMetadataClientService.wrap message body)
              (fun _ => ret tt) s = (s', Raise e) ->
            exists msg, e = ServiceError msg) as Hwrap.
  { intros A message body. unfold bind.
    destruct (OpenMetadataClientService.wrap message body s) as [s1 [a|e1]] eqn:E;
      unfold ret; intros H; inversion H; subst.
    eapply wrap_raises_ServiceError, E. }
  apply elem_of_app in Hc as [Hc|Hc].
  - repeat (apply elem_of_cons in Hc as [->|Hc]); [..|inversion Hc];
      simpl; apply Hwrap.
  - apply list_elem_of_fmap in Hc as (op & -> & _). simpl. apply Hwrap.
Qed.

(** On the real gateway a fault of the client while the classification
    tags are listed is reported with the gateway's message and the
    cause's text. *)
Lemma validate_client_fault {S} (client : OpenMetadata.t S) settings lib
  iter dp s s' e :
  OpenMetadata.list_all_tags client s = (s', Raise e) ->
  ProvisionService.validate (openmetadata_client_service client settings lib)
    iter dp s
  = (s', Ok (Some (inr (mkSystemErr
                          ("Failed to retrieve classification tags. Details: "
                             +:+ str e))))).
Proof.
  intros Hlist.
  rewrite (validate_read_raises _ iter dp s s'
             (ServiceError ("Failed to retrieve classification tags."
                              +:+ " Details: " +:+ str e))).
  - reflexivity.
  - left. simpl. unfold OpenMetadataClientService.get_all_classification_tags.
    now rewrite (wrap_eq _ _ s s' (Raise e) Hlist).
Qed.

(** * Further properties *)

(** ** Bootstrap of the custom attributes *)

(** X2: when the catalog has no definition of the string type (the read
    returns nothing, or an empty object), the bootstrap fails with the
    service error that says so, after the read alone: no custom property
    is upserted. *)
Theorem custom_attributes_without_string_type {S} (client : OpenMetadata.t S)
  (lib : Library) (s s' : S) (log : list ClientCall)
  (string_type : option (gmap string string)) :
  OpenMetadata.get client "/metadata/types/name/string" s
    = (s', Ok string_type) ->
  string_type = None \/ string_type = Some ∅ ->
  OpenMetadataClientService.create_or_update_container_custom_attributes
    (recording_client client) lib (s, log)
  = ((s', log ++ [CallGet "/metadata/types/name/string"]),
     Raise (ServiceError
              "Failed to create or update container custom attributes. Details: Unable to retrieve the string type definition. Please contact the platform team.")).
Proof.
  intros Hget Hnone.
  unfold OpenMetadataClientService.create_or_update_container_custom_attributes.
  erewrite wrap_eq.
  2:{ erewrite bind_Ok by (simpl; apply recorded_eq, Hget).
      destruct Hnone as [->| ->]; [reflexivity|].
      rewrite decide_True by reflexivity. reflexivity. }
  reflexivity.
Qed.

Lemma custom_attributes_without_string_type_witness :
  OpenMetadataClientService.create_or_update_container_custom_attributes
    (recording_client untyped_catalog_client) sample_lib (tt, [])
  = ((tt, [CallGet "/metadata/types/name/string"]),
     Raise (ServiceError
              "Failed to create or update container custom attributes. Details: Unable to retrieve the string type definition. Please contact the platform team.")).
Proof.
  exact (custom_attributes_without_string_type untyped_catalog_client
           sample_lib tt tt [] None eq_refl (or_introl eq_refl)).
Defined.

(** X3: when the catalog defines the string type with an id and a name,
    the client library accepts the three property requests built from
    them, and the three upserts, made one after the other from the state
    the read left, return, the bootstrap reads the type once and then
    upserts exactly the three properties kind, platform and technology,
    in this order, each on the container entity and typed by the id and
    name that were read; it ends in the state the last upsert left. *)
Theorem custom_attributes_upserts_three {S} (client : OpenMetadata.t S)
  (lib : Library) (s s0 s1 s2 s3 : S) (log : list ClientCall)
  (d : gmap string string) (i n : string) :
  OpenMetadata.get client "/metadata/types/name/string" s = (s0, Ok (Some d)) ->
  d !! "id" = Some i ->
  d !! "name" = Some n ->
  accepted_property lib (kind_property i n) ->
  accepted_property lib (platform_property i n) ->
  accepted_property lib (technology_property i n) ->
  OpenMetadata.create_or_update_custom_property client (kind_property i n) s0
    = (s1, Ok tt) ->
  OpenMetadata.create_or_update_custom_property client (platform_property i n)
    s1 = (s2, Ok tt) ->
  OpenMetadata.create_or_update_custom_property client
    (technology_property i n) s2 = (s3, Ok tt) ->
  OpenMetadataClientService.create_or_update_container_custom_attributes
    (recording_client client) lib (s, log)
  = ((s3,
      log ++ [CallGet "/metadata/types/name/string";
              CallCreateOrUpdateCustomProperty (kind_property i n);
              CallCreateOrUpdateCustomProperty (platform_property i n);
              CallCreateOrUpdateCustomProperty (technology_property i n)]),
     Ok tt).
Proof.
  intros Hget Hid Hname [Hd1 Hv1] [Hd2 Hv2] [Hd3 Hv3] H1 H2 H3.
  simpl in Hd1, Hd2, Hd3.
  unfold OpenMetadataClientService.create_or_update_container_custom_attributes.
  erewrite wrap_eq.
  2:{ erewrite bind_Ok by (simpl; apply recorded_eq, Hget).
      cbv beta iota.
      rewrite decide_False by (intros ->; rewrite lookup_empty in Hid; discriminate).
      unfold OpenMetadataClientService.custom_attributes, for_each, bind, lift,
        getitem, res_bind, checked.
      rewrite Hd1, Hd2, Hd3, Hid, Hname.
      fold (kind_property i n) (platform_property i n)
        (technology_property i n).
      rewrite Hv1, Hv2, Hv3. simpl.
      erewrite recorded_eq by exact H1.
      erewrite recorded_eq by exact H2.
      erewrite recorded_eq by exact H3.
      unfold ret. reflexivity. }
  simpl. rewrite <- !app_assoc. reflexivity.
Qed.

Lemma custom_attributes_upserts_three_witness :
  OpenMetadataClientService.create_or_update_container_custom_attributes
    (recording_client typed_catalog_client) checking_lib (tt, [])
  = ((tt,
      [] ++ [CallGet "/metadata/types/name/string";
             CallCreateOrUpdateCustomProperty
               (kind_property string_type_id "string");
             CallCreateOrUpdateCustomProperty
               (platform_property string_type_id "string");
             CallCreateOrUpdateCustomProperty
               (technology_property string_type_id "string")]),
     Ok tt).
Proof.
  exact (custom_attributes_upserts_three typed_catalog_client checking_lib
           tt tt tt tt tt [] string_type_definition string_type_id "string"
           eq_refl eq_refl eq_refl (conj eq_refl eq_refl)
           (conj eq_refl eq_refl) (conj eq_refl eq_refl)
           eq_refl eq_refl eq_refl).
Defined.

(** A type definition whose id has not the shape of a UUID is rejected by
    a library that checks it: the type is read and nothing is upserted. *)
Example custom_attributes_rejects_a_malformed_id :
  OpenMetadataClientService.create_or_update_container_custom_attributes
    (recording_client empty_catalog_client) checking_lib (tt, [])
  = ((tt, [CallGet "/metadata/types/name/string"]),
     Raise (ServiceError
              "Failed to create or update container custom attributes. Details: 1 validation error for EntityReference")).
Proof. reflexivity. Qed.

(** ** Malformed ids, present entities, and the names that are addressed *)

Lemma append_assoc (a b c : string) : (a +:+ b) +:+ c = a +:+ b +:+ c.
Proof.
  induction a as [|x a IH]; [reflexivity|].
  change (String x ((a +:+ b) +:+ c) = String x (a +:+ b +:+ c)).
  now rewrite IH.
Qed.

(** X4: for a data product whose id has fewer than six colon-delimited
    segments, creating and deleting the data product fail with the service
    error that reports the index fault, before any call reaches the
    catalog (state and call log are unchanged). *)
Theorem malformed_dp_id_is_a_service_error {S} (client : OpenMetadata.t S)
  (lib : Library) (dp : DataProduct.t) (s : S) (log : list ClientCall) :
  length (Py.split ":" (DataProduct.id dp)) < 6 ->
  OpenMetadataClientService.create_or_update_dp (recording_client client) lib
    dp (s, log)
  = ((s, log),
     Raise (ServiceError
              ("Failed to create or update DP " +:+ DataProduct.id dp
                 +:+ ". Details: list index out of range")))
  /\ OpenMetadataClientService.delete_dp (recording_client client) dp (s, log)
     = ((s, log),
        Raise (ServiceError
                 ("Failed to delete DP " +:+ DataProduct.id dp
                    +:+ ". Details: list index out of range"))).
Proof.
  intros Hshort. pose proof (dp_name_faults _ Hshort) as Hname.
  unfold OpenMetadataClientService.create_or_update_dp,
    OpenMetadataClientService.delete_dp.
  split.
  - erewrite wrap_eq by (rewrite Hname; reflexivity).
    simpl. now rewrite !append_assoc.
  - erewrite wrap_eq by (rewrite Hname; reflexivity).
    simpl. now rewrite !append_assoc.
Qed.

Lemma malformed_dp_id_is_a_service_error_witness :
  OpenMetadataClientService.create_or_update_dp
    (recording_client empty_catalog_client) sample_lib
    (DataProduct.mk five_segment_id "n" "d" "domain" []) (tt, [])
  = ((tt, []),
     Raise (ServiceError
              "Failed to create or update DP urn:dmb:cmp:healthcare:vaccinations. Details: list index out of range"))
  /\ OpenMetadataClientService.delete_dp (recording_client empty_catalog_client)
       (DataProduct.mk five_segment_id "n" "d" "domain" []) (tt, [])
     = ((tt, []),
        Raise (ServiceError
                 "Failed to delete DP urn:dmb:cmp:healthcare:vaccinations. Details: list index out of range")).
Proof.
  apply (malformed_dp_id_is_a_service_error empty_catalog_client sample_lib
           (DataProduct.mk five_segment_id "n" "d" "domain" []) tt []).
  vm_compute. lia.
Defined.

(** X5: for an output port whose id has fewer than seven colon-delimited
    segments, creating and deleting the output port fail with the service
    error that reports the index fault, before any call reaches the
    catalog, whatever the data product is. *)
Theorem malformed_op_id_is_a_service_error {S} (client : OpenMetadata.t S)
  (settings : OpenMetadataSettings) (lib : Library) (dp : DataProduct.t)
  (op : OutputPort.t) (s : S) (log : list ClientCall) :
  length (Py.split ":" (OutputPort.id op)) < 7 ->
  OpenMetadataClientService.create_or_update_op (recording_client client)
    settings lib dp op (s, log)
  = ((s, log),
     Raise (ServiceError
              ("Failed to create or update Output Port " +:+ OutputPort.id op
                 +:+ ". Details: list index out of range")))
  /\ OpenMetadataClientService.delete_op (recording_client client) settings op
       (s, log)
     = ((s, log),
        Raise (ServiceError
                 ("Failed to delete Output Port " +:+ OutputPort.id op
                    +:+ ". Details: list index out of range"))).
Proof.
  intros Hshort. pose proof (component_name_faults _ Hshort) as Hname.
  unfold OpenMetadataClientService.create_or_update_op,
    OpenMetadataClientService.delete_op.
  split.
  - erewrite wrap_eq by (rewrite Hname; reflexivity).
    simpl. now rewrite !append_assoc.
  - erewrite wrap_eq by (rewrite Hname; reflexivity).
    simpl. now rewrite !append_assoc.
Qed.

Lemma malformed_op_id_is_a_service_error_witness :
  OpenMetadataClientService.delete_op (recording_client empty_catalog_client)
    sample_settings
    (OutputPort.mk "urn:dmb:cmp:healthcare:vaccinations:0" "n" "d" "outputport"
       None None (DataContract.mk None)) (tt, [])
  = ((tt, []),
     Raise (ServiceError
              "Failed to delete Output Port urn:dmb:cmp:healthcare:vaccinations:0. Details: list index out of range")).
Proof.
  apply (malformed_op_id_is_a_service_error empty_catalog_client
           sample_settings sample_lib sample_dp
           (OutputPort.mk "urn:dmb:cmp:healthcare:vaccinations:0" "n" "d"
              "outputport" None None (DataContract.mk None)) tt []).
  vm_compute. lia.
Defined.

(** X6: when the lookup finds the data product, [delete_dp] deletes the
    entity that was found, by its id, with the flags [False, True], and
    makes no other call; a fault of the deletion is raised as the service
    error.  [delete_op] does the same for the container found under
    storage-service name, dot, component name. *)
Theorem delete_found_entity {S} (client : OpenMetadata.t S)
  (settings : OpenMetadataSettings) (dp : DataProduct.t) (name : string)
  (found : Entity.t) (s s1 s2 : S) (r : Res unit)
  (op : OutputPort.t) (component_name : string) (found_op : Entity.t)
  (t t1 t2 : S) (r_op : Res unit) (log : list ClientCall) :
  OpenMetadataClientService._get_dp_name_from_id (DataProduct.id dp) = Ok name ->
  OpenMetadata.get_by_name client OMDataProductClass name s
    = (s1, Ok (Some found)) ->
  OpenMetadata.delete client OMDataProductClass (Entity.id found) false true s1
    = (s2, r) ->
  OpenMetadataClientService._get_component_name_from_id (OutputPort.id op)
    = Ok component_name ->
  OpenMetadata.get_by_name client ContainerClass
    (default_storage_service_name settings +:+ "." +:+ component_name) t
    = (t1, Ok (Some found_op)) ->
  OpenMetadata.delete client ContainerClass (Entity.id found_op) false true t1
    = (t2, r_op) ->
  OpenMetadataClientService.delete_dp (recording_client client) dp (s, log)
  = ((s2, log ++ [CallGetByName OMDataProductClass name;
                  CallDelete OMDataProductClass (Entity.id found) false true]),
     match r with
     | Ok _ => Ok tt
     | Raise cause =>
         Raise (ServiceError
                  ("Failed to delete DP " +:+ DataProduct.id dp
                     +:+ ". Details: " +:+ str cause))
     end)
  /\ OpenMetadataClientService.delete_op (recording_client client) settings op
       (t, log)
     = ((t2, log ++ [CallGetByName ContainerClass
                       (default_storage_service_name settings +:+ "."
                          +:+ component_name);
                     CallDelete ContainerClass (Entity.id found_op)
                       false true]),
        match r_op with
        | Ok _ => Ok tt
        | Raise cause =>
            Raise (ServiceError
                     ("Failed to delete Output Port " +:+ OutputPort.id op
                        +:+ ". Details: " +:+ str cause))
        end).
Proof.
  intros Hname Hget Hdel Hcname Hcget Hcdel.
  unfold OpenMetadataClientService.delete_dp,
    OpenMetadataClientService.delete_op.
  split.
  - erewrite wrap_eq.
    2:{ rewrite Hname. unfold bind at 1, lift.
        erewrite bind_Ok by (simpl; apply recorded_eq, Hget).
        simpl. apply recorded_eq, Hdel. }
    rewrite <- app_assoc. destruct r as [[]|cause]; simpl;
      [reflexivity | now rewrite !append_assoc].
  - erewrite wrap_eq.
    2:{ rewrite Hcname. unfold bind at 1, lift.
        erewrite bind_Ok by (simpl; apply recorded_eq, Hcget).
        simpl. apply recorded_eq, Hcdel. }
    rewrite <- app_assoc. destruct r_op as [[]|cause]; simpl;
      [reflexivity | now rewrite !append_assoc].
Qed.

Lemma delete_found_entity_witness :
  OpenMetadataClientService.delete_dp (recording_client full_catalog_client)
    sample_dp (tt, [])
  = ((tt, [] ++ [CallGetByName OMDataProductClass "healthcare:vaccinations:0";
                 CallDelete OMDataProductClass "42" false true]),
     Ok tt)
  /\ OpenMetadataClientService.delete_op (recording_client full_catalog_client)
       sample_settings sample_op (tt, [])
     = ((tt, [] ++ [CallGetByName ContainerClass
                      "generic.healthcare:vaccinations:0:output-port";
                    CallDelete ContainerClass "42" false true]),
        Ok tt).
Proof.
  exact (delete_found_entity full_catalog_client sample_settings sample_dp
           "healthcare:vaccinations:0" (Entity.mk "42") tt tt tt (Ok tt)
           sample_op "healthcare:vaccinations:0:output-port" (Entity.mk "42")
           tt tt tt (Ok tt) [] eq_refl eq_refl eq_refl eq_refl eq_refl eq_refl).
Defined.

Lemma delete_dp_looks_up {S} (client : OpenMetadata.t S) dp name s log :
  OpenMetadataClientService._get_dp_name_from_id (DataProduct.id dp) = Ok name ->
  exists rest,
    snd (fst (OpenMetadataClientService.delete_dp (recording_client client) dp
                (s, log)))
    = log ++ CallGetByName OMDataProductClass name :: rest.
Proof.
  intros Hname.
  unfold OpenMetadataClientService.delete_dp, OpenMetadataClientService.wrap,
    try_except, bind, lift, raise, ret.
  rewrite Hname. simpl. unfold recorded. simpl.
  destruct (OpenMetadata.get_by_name client OMDataProductClass name s)
    as [s1 [[found|]|err]]; simpl.
  - destruct (OpenMetadata.delete client OMDataProductClass (Entity.id found)
                false true s1) as [s2 [[]|err]]; simpl;
      eexists; rewrite <- app_assoc; reflexivity.
  - exists []. reflexivity.
  - exists []. reflexivity.
Qed.

Lemma delete_op_looks_up {S} (client : OpenMetadata.t S) settings op name
  s log :
  OpenMetadataClientService._get_component_name_from_id (OutputPort.id op)
    = Ok name ->
  exists rest,
    snd (fst (OpenMetadataClientService.delete_op (recording_client client)
                settings op (s, log)))
    = log ++ CallGetByName ContainerClass
               (default_storage_service_name settings +:+ "." +:+ name)
             :: rest.
Proof.
  intros Hname.
  unfold OpenMetadataClientService.delete_op, OpenMetadataClientService.wrap,
    try_except, bind, lift, raise, ret.
  rewrite Hname. simpl. unfold recorded. simpl.
  destruct (OpenMetadata.get_by_name client ContainerClass
              (default_storage_service_name settings +:+ "." +:+ name) s)
    as [s1 [[found|]|err]]; simpl.
  - destruct (OpenMetadata.delete client ContainerClass (Entity.id found)
                false true s1) as [s2 [[]|err]]; simpl;
      eexists; rewrite <- app_assoc; reflexivity.
  - exists []. reflexivity.
  - exists []. reflexivity.
Qed.

(** X7: when [create_or_update_dp] returns, it has made exactly one call,
    the upsert of a data product request that carries the derived name
    and the descriptor's name, description and domain; and the first call
    of [delete_dp] for the same descriptor, in any state, is the lookup of
    that very name: both address the same catalog resource. *)
Theorem dp_upsert_and_delete_address_the_same_name {S}
  (client : OpenMetadata.t S) (lib : Library) (dp : DataProduct.t)
  (s s1 : S) (log log1 : list ClientCall) (created : Entity.t) :
  OpenMetadataClientService.create_or_update_dp (recording_client client) lib
    dp (s, log) = ((s1, log1), Ok created) ->
  exists name,
    OpenMetadataClientService._get_dp_name_from_id (DataProduct.id dp) = Ok name
    /\ log1 = log ++ [CallCreateOrUpdate
                        (CreateDataProductRequest name (DataProduct.name dp)
                           (DataProduct.description dp)
                           (DataProduct.domain dp))]
    /\ forall s' log', exists rest,
         snd (fst (OpenMetadataClientService.delete_dp
                     (recording_client client) dp (s', log')))
         = log' ++ CallGetByName OMDataProductClass name :: rest.
Proof.
  unfold OpenMetadataClientService.create_or_update_dp,
    OpenMetadataClientService.wrap, try_except, bind, lift, raise, res_bind,
    checked.
  destruct (OpenMetadataClientService._get_dp_name_from_id (DataProduct.id dp))
    as [name|e] eqn:Hname; [|discriminate].
  destruct (validate_request lib _) as [e|]; [discriminate|].
  simpl. unfold recorded. simpl.
  destruct (OpenMetadata.create_or_update client _ s) as [s2 [e|err]];
    intros H; inversion H; subst.
  exists name. split; [reflexivity|]. split; [reflexivity|].
  intros s' log'. now apply delete_dp_looks_up.
Qed.

Lemma dp_upsert_and_delete_address_the_same_name_witness :
  exists name,
    OpenMetadataClientService._get_dp_name_from_id (DataProduct.id sample_dp)
      = Ok name
    /\ [CallCreateOrUpdate
          (CreateDataProductRequest "healthcare:vaccinations:0" "Test DP"
             "Test Description" "domain")]
       = [] ++ [CallCreateOrUpdate
                  (CreateDataProductRequest name (DataProduct.name sample_dp)
                     (DataProduct.description sample_dp)
                     (DataProduct.domain sample_dp))]
    /\ forall s' log', exists rest,
         snd (fst (OpenMetadataClientService.delete_dp
                     (recording_client empty_catalog_client) sample_dp
                     (s', log')))
         = log' ++ CallGetByName OMDataProductClass name :: rest.
Proof.
  exact (dp_upsert_and_delete_address_the_same_name empty_catalog_client
           sample_lib sample_dp tt tt [] _ (Entity.mk "id") eq_refl).
Defined.

(** X8: when [create_or_update_op] returns, it has made exactly one call,
    the upsert of a container request that is named by the derived
    component name, attached to the parent data product under its derived
    name and to the configured storage service, with kind, platform and
    technology in its extension (an absent platform or technology as the
    empty string); and the first call of [delete_op] for the same output
    port is the lookup of service name, dot, container name of that
    request. *)
Theorem op_upsert_and_delete_address_the_same_name {S}
  (client : OpenMetadata.t S) (settings : OpenMetadataSettings)
  (lib : Library) (dp : DataProduct.t) (op : OutputPort.t)
  (s s1 : S) (log log1 : list ClientCall) (created : Entity.t) :
  OpenMetadataClientService.create_or_update_op (recording_client client)
    settings lib dp op (s, log) = ((s1, log1), Ok created) ->
  exists r dp_name,
    log1 = log ++ [CallCreateOrUpdate (CreateContainer r)]
    /\ OpenMetadataClientService._get_component_name_from_id (OutputPort.id op)
       = Ok (CreateContainerRequest.name r)
    /\ OpenMetadataClientService._get_dp_name_from_id (DataProduct.id dp)
       = Ok dp_name
    /\ CreateContainerRequest.dataProducts r = [dp_name]
    /\ CreateContainerRequest.service r = default_storage_service_name settings
    /\ CreateContainerRequest.extension r !! "kind" = Some (OutputPort.kind op)
    /\ CreateContainerRequest.extension r !! "platform"
       = Some (default EmptyString (OutputPort.platform op))
    /\ CreateContainerRequest.extension r !! "technology"
       = Some (default EmptyString (OutputPort.technology op))
    /\ forall s' log', exists rest,
         snd (fst (OpenMetadataClientService.delete_op
                     (recording_client client) settings op (s', log')))
         = log' ++ CallGetByName ContainerClass
                     (CreateContainerRequest.service r +:+ "."
                        +:+ CreateContainerRequest.name r)
                   :: rest.
Proof.
  unfold OpenMetadataClientService.create_or_update_op,
    OpenMetadataClientService.wrap, try_except, bind, lift, raise, res_bind,
    checked.
  destruct (OpenMetadataClientService._get_component_name_from_id
              (OutputPort.id op)) as [name|e] eqn:Hname; [|discriminate].
  destruct (OpenMetadataClientService._get_dp_name_from_id (DataProduct.id dp))
    as [dp_name|e] eqn:Hdp; [|discriminate].
  destruct (validate_root lib FullyQualifiedEntityName dp_name) as [e|];
    [discriminate|].
  destruct (OpenMetadataClientService._to_om_column_list lib op)
    as [columns|e]; [|discriminate].
  destruct (validate_request lib _) as [e|]; [discriminate|].
  simpl. unfold recorded. simpl.
  destruct (OpenMetadata.create_or_update client _ s) as [s2 [e|err]];
    intros H; inversion H; subst.
  eexists _, dp_name. split; [reflexivity|]. simpl.
  repeat split; try reflexivity; try assumption.
  intros s' log'. now apply delete_op_looks_up.
Qed.

Lemma op_upsert_and_delete_address_the_same_name_witness :
  exists r dp_name,
    snd (fst (OpenMetadataClientService.create_or_update_op
                (recording_client empty_catalog_client) sample_settings
                sample_lib sample_dp sample_op (tt, [])))
    = [] ++ [CallCreateOrUpdate (CreateContainer r)]
    /\ OpenMetadataClientService._get_component_name_from_id
         (OutputPort.id sample_op)
       = Ok (CreateContainerRequest.name r)
    /\ OpenMetadataClientService._get_dp_name_from_id (DataProduct.id sample_dp)
       = Ok dp_name
    /\ CreateContainerRequest.dataProducts r = [dp_name]
    /\ CreateContainerRequest.service r
       = default_storage_service_name sample_settings
    /\ CreateContainerRequest.extension r !! "kind"
       = Some (OutputPort.kind sample_op)
    /\ CreateContainerRequest.extension r !! "platform"
       = Some (default EmptyString (OutputPort.platform sample_op))
    /\ CreateContainerRequest.extension r !! "technology"
       = Some (default EmptyString (OutputPort.technology sample_op))
    /\ forall s' log', exists rest,
         snd (fst (OpenMetadataClientService.delete_op
                     (recording_client empty_catalog_client) sample_settings
                     sample_op (s', log')))
         = log' ++ CallGetByName ContainerClass
                     (CreateContainerRequest.service r +:+ "."
                        +:+ CreateContainerRequest.name r)
                   :: rest.
Proof.
  exact (op_upsert_and_delete_address_the_same_name empty_catalog_client
           sample_settings sample_lib sample_dp sample_op tt tt [] _
           (Entity.mk "id") eq_refl).
Defined.

(** ** Translation of the data contract *)

Lemma passes_checked {A} (report : option Exception) (a : A) :
  match checked report a with
  | Ok a' => passes report = true /\ a' = a
  | Raise e => passes report = false /\ report = Some e
  end.
Proof. destruct report; simpl; auto. Qed.

(** The comprehension stops at the first element that faults. *)
Lemma map_res_first {A B} (f : A -> Res B) (acc : A -> bool) (g : A -> B)
  (P : Exception -> Prop) :
  (forall x, match f x with
             | Ok y => acc x = true /\ y = g x
             | Raise e => acc x = false /\ P e
             end) ->
  forall l,
    match map_res f l with
    | Ok ys => forallb acc l = true /\ ys = map g l
    | Raise e =>
        exists before x after,
          l = before ++ x :: after
          /\ forallb acc before = true /\ acc x = false /\ P e
    end.
Proof.
  intros Hf. induction l as [|x l IH]; simpl; [auto|].
  specialize (Hf x). destruct (f x) as [y|e].
  - destruct Hf as [Hacc ->]. rewrite Hacc. simpl.
    destruct (map_res f l) as [ys|e].
    + destruct IH as [Hall ->]. auto.
    + destruct IH as (before & x' & after & -> & Hall & Hx & HP).
      exists (x :: before), x', after. simpl. rewrite Hacc. auto.
  - destruct Hf as [Hacc HP]. exists [], x, l. auto.
Qed.

Lemma to_om_tag_spec lib t :
  match OpenMetadataClientService.to_om_tag lib t with
  | Ok label => accepted_tag lib t = true /\ label = rendered_tag t
  | Raise e =>
      accepted_tag lib t = false
      /\ (unknown_member lib e \/ library_report lib e)
  end.
Proof.
  unfold OpenMetadataClientService.to_om_tag, accepted_tag, res_bind.
  pose proof (passes_checked
                (validate_root lib TagFQN (OpenMetadataTagLabel.tagFQN t))
                (OpenMetadataTagLabel.tagFQN t)) as H0.
  destruct (checked (validate_root lib TagFQN _) _) as [fqn|e].
  2:{ destruct H0 as [-> H0]. split; [reflexivity|].
      right. left. eauto. }
  destruct H0 as [-> ->]. simpl.
  unfold enum_getitem.
  destruct (enum_member lib LabelType _) eqn:H1; simpl.
  2:{ split; [reflexivity|]. left. unfold unknown_member. eauto. }
  destruct (enum_member lib TagSource _) eqn:H2; simpl.
  2:{ split; [reflexivity|]. left. unfold unknown_member. eauto. }
  destruct (enum_member lib State _) eqn:H3; simpl.
  2:{ split; [reflexivity|]. left. unfold unknown_member. eauto. }
  fold (rendered_tag t).
  pose proof (passes_checked (validate_tag_label lib (rendered_tag t))
                (rendered_tag t)) as H4.
  destruct (checked (validate_tag_label lib _) _) as [label|e].
  - destruct H4 as [-> ->]. auto.
  - destruct H4 as [-> H4]. split; [reflexivity|].
    right. right. left. eauto.
Qed.

Lemma to_om_tag_list_spec lib c :
  match OpenMetadataClientService._to_om_tag_list lib c with
  | Ok labels =>
      forallb (accepted_tag lib) (default [] (OpenMetadataColumn.tags c)) = true
      /\ labels = map rendered_tag (default [] (OpenMetadataColumn.tags c))
  | Raise e =>
      forallb (accepted_tag lib) (default [] (OpenMetadataColumn.tags c))
        = false
      /\ (unknown_member lib e \/ library_report lib e)
  end.
Proof.
  unfold OpenMetadataClientService._to_om_tag_list.
  destruct (truthy_list (OpenMetadataColumn.tags c)) eqn:Ht.
  - pose proof (map_res_first (OpenMetadataClientService.to_om_tag lib)
                  (accepted_tag lib) rendered_tag _ (to_om_tag_spec lib)
                  (or_empty (OpenMetadataColumn.tags c))) as H.
    unfold or_empty in *.
    destruct (map_res _ _) as [labels|e]; [exact H|].
    destruct H as (before & t & after & -> & Hall & Ht' & HP).
    split; [|exact HP].
    rewrite forallb_app. simpl. rewrite Ht'.
    now rewrite andb_false_r.
  - destruct (OpenMetadataColumn.tags c) as [[|t l]|]; simpl in *;
      try discriminate; auto.
Qed.

Lemma to_om_column_spec lib c :
  match OpenMetadataClientService.to_om_column lib c with
  | Ok column => accepted_column lib c = true /\ column = rendered_column c
  | Raise e =>
      accepted_column lib c = false
      /\ (unknown_member lib e \/ library_report lib e)
  end.
Proof.
  unfold OpenMetadataClientService.to_om_column, accepted_column, res_bind,
    or_empty_str.
  pose proof (passes_checked
                (validate_root lib ColumnName (OpenMetadataColumn.name c))
                (OpenMetadataColumn.name c)) as H0.
  destruct (checked (validate_root lib ColumnName _) _) as [name|e].
  2:{ destruct H0 as [-> H0]. split; [reflexivity|].
      right. left. eauto. }
  destruct H0 as [-> ->]. simpl.
  unfold enum_getitem.
  destruct (enum_member lib DataType _) eqn:H1; simpl.
  2:{ split; [reflexivity|]. left. unfold unknown_member. eauto. }
  pose proof (passes_checked
                (validate_root lib Markdown
                   (default EmptyString (OpenMetadataColumn.description c)))
                (default EmptyString (OpenMetadataColumn.description c)))
    as H2.
  destruct (checked (validate_root lib Markdown _) _) as [description|e].
  2:{ destruct H2 as [-> H2]. split; [reflexivity|].
      right. left. eauto. }
  destruct H2 as [-> ->]. simpl.
  pose proof (to_om_tag_list_spec lib c) as H3.
  destruct (OpenMetadataClientService._to_om_tag_list lib c) as [labels|e].
  2:{ destruct H3 as [-> H3]. split; [reflexivity|exact H3]. }
  destruct H3 as [-> ->]. simpl.
  fold (rendered_column c).
  pose proof (passes_checked (validate_column lib (rendered_column c))
                (rendered_column c)) as H4.
  destruct (checked (validate_column lib _) _) as [column|e].
  - destruct H4 as [-> ->]. auto.
  - destruct H4 as [-> H4]. split; [reflexivity|].
    right. right. right. eauto.
Qed.

(** X9: [_to_om_column_list] returns exactly when the client library
    accepts every column of the schema (name, data type, description,
    tag labels and the column as a whole), and then it returns one
    catalog column per schema column, in order, each with the same name
    and data type, the description or the empty string and the tag labels
    one by one (no column for a missing or empty schema); when it raises,
    the columns before some column are all accepted, that column is not,
    and the exception is the key error for a name an enumeration does not
    know or the report of a constructor of the client library. *)
Theorem om_column_list_renders_schema (lib : Library) (op : OutputPort.t) :
  let schema := default [] (DataContract.schema_ (OutputPort.dataContract op)) in
  (forall columns,
     OpenMetadataClientService._to_om_column_list lib op = Ok columns
     <-> forallb (accepted_column lib) schema = true
         /\ columns = map rendered_column schema)
  /\ (forall e,
        OpenMetadataClientService._to_om_column_list lib op = Raise e ->
        exists before c after,
          schema = before ++ c :: after
          /\ forallb (accepted_column lib) before = true
          /\ accepted_column lib c = false
          /\ (unknown_member lib e \/ library_report lib e)).
Proof.
  intros schema.
  assert (match OpenMetadataClientService._to_om_column_list lib op with
          | Ok columns =>
              forallb (accepted_column lib) schema = true
              /\ columns = map rendered_column schema
          | Raise e =>
              exists before c after,
                schema = before ++ c :: after
                /\ forallb (accepted_column lib) before = true
                /\ accepted_column lib c = false
                /\ (unknown_member lib e \/ library_report lib e)
          end) as Hspec.
  { unfold OpenMetadataClientService._to_om_column_list, schema.
    destruct (truthy_list (DataContract.schema_ (OutputPort.dataContract op)))
      eqn:Ht.
    - exact (map_res_first (OpenMetadataClientService.to_om_column lib)
               (accepted_column lib) rendered_column _
               (to_om_column_spec lib) _).
    - destruct (DataContract.schema_ (OutputPort.dataContract op))
        as [[|c l]|]; simpl in *; try discriminate; auto. }
  destruct (OpenMetadataClientService._to_om_column_list lib op)
    as [columns0|e0].
  - split.
    + intros columns. split.
      * intros H. injection H as <-. exact Hspec.
      * intros [_ ->]. destruct Hspec as [_ ->]. reflexivity.
    + intros e H. discriminate.
  - split.
    + intros columns. split; [discriminate|].
      intros [Hall _].
      destruct Hspec as (before & c & after & Hs & _ & Hc & _).
      rewrite Hs, forallb_app in Hall. simpl in Hall. rewrite Hc in Hall.
      now rewrite andb_false_r in Hall.
    + intros e H. injection H as <-. exact Hspec.
Qed.

(** The sample output port of the tests is rendered column by column; a
    column without a name is rejected by a library that wants one, before
    the unknown data type of the column after it is looked at. *)
Lemma om_column_list_renders_schema_witness :
  OpenMetadataClientService._to_om_column_list checking_lib sample_op
  = Ok [Column.mk "test_column" "STRING" "Test description"
          [TagLabel.mk "classification.tag1" "Manual" "Classification"
             "Confirmed";
           TagLabel.mk "glossary.term1" "Manual" "Glossary" "Confirmed"]].
Proof.
  exact (proj2 (proj1 (om_column_list_renders_schema checking_lib sample_op) _)
           (conj eq_refl eq_refl)).
Defined.

Example om_column_list_rejects_an_empty_name :
  OpenMetadataClientService._to_om_column_list checking_lib unnamed_column_op
  = Raise (LibraryError "1 validation error for ColumnName").
Proof. reflexivity. Qed.

(** ** The origin of the gateway's faults *)




















(** ** Unprovisioning and provisioning, continued *)

Lemma bind_drop_ret_unit {W} (m : M W unit) w :
  bind m (fun _ => ret tt) w = m w.
Proof. unfold bind, ret. destruct (m w) as [w' [[]|e]]; reflexivity. Qed.

Lemma unprovision_runs_calls {W} (g : Gateway.t W) dp remove_data w :
  ProvisionService.unprovision g dp remove_data w
  = try_except_ServiceError
      (run_calls g (unprovision_calls dp) ;;;
       ret (inl (mkProvisioningStatus COMPLETED "" None)))
      (fun error_msg => ret (inr (mkSystemErr error_msg))) w.
Proof.
  unfold ProvisionService.unprovision, try_except_ServiceError.
  match goal with
  | |- match ?a w with _ => _ end = match ?b w with _ => _ end =>
      assert (a w = b w) as ->; [|reflexivity]
  end.
  unfold unprovision_calls.
  rewrite (bind_cong_l _ _ _ _ (run_calls_app g _ _ w)).
  rewrite bind_assoc.
  rewrite (bind_cong_l _ _ _ _
             (for_each_perform g DeleteOp _ _ w
                (fun a w' => eq_sym (bind_drop_ret_unit _ w')))).
  apply bind_ext. intros _ w1.
  unfold run_calls. simpl. unfold bind, ret.
  destruct (Gateway.delete_dp g dp w1) as [w2 [[]|e]]; reflexivity.
Qed.

(** X10: [unprovision] deletes the output ports in descriptor order and
    then the data product; the recorded calls are either all of these,
    every one having returned, with the COMPLETED status without info as
    result, or they stop at the first call that raised, a service error
    becoming the SystemErr with its message.  The [remove_data] flag
    changes nothing. *)
Theorem unprovision_order {W} (g : Gateway.t W) (dp : DataProduct.t)
  (remove_data : bool) (w : W) :
  let out :=
    ProvisionService.unprovision (observed_gateway g) dp remove_data (w, []) in
  let trace := snd (fst out) in
  let r := snd out in
  unprovision_calls dp
  = map DeleteOp (DataProduct.components dp) ++ [DeleteDp dp]
  /\ ((trace = returned (unprovision_calls dp)
       /\ r = Ok (inl (mkProvisioningStatus COMPLETED "" None)))
      \/ (exists n c e,
            unprovision_calls dp !! n = Some c
            /\ trace
               = returned (take n (unprovision_calls dp)) ++ [(c, Raised e)]
            /\ r = fault_result (fun msg => inr (mkSystemErr msg)) e))
  /\ out
     = ProvisionService.unprovision (observed_gateway g) dp (negb remove_data)
         (w, []).
Proof.
  intros out trace r. split; [reflexivity|]. split; [|reflexivity].
  subst trace r out. rewrite unprovision_runs_calls.
  destruct (run_calls_observed g (unprovision_calls dp) w [])
    as [[Hr Hl]|(n & c & e & Hn & Hl & Hr)];
    destruct (run_calls (observed_gateway g) (unprovision_calls dp) (w, []))
      as [[w1 log1] r1] eqn:Erun; simpl in Hr, Hl; subst r1 log1.
  - left.
    rewrite (try_except_ServiceError_eq _ _ (w, [])
               (w1, returned (unprovision_calls dp))
               (Ok (inl (mkProvisioningStatus COMPLETED "" None))))
      by (erewrite bind_Ok by exact Erun; reflexivity).
    split; reflexivity.
  - right. exists n, c, e. split; [exact Hn|].
    erewrite try_except_ServiceError_eq
      by (erewrite bind_Raise by exact Erun; reflexivity).
    destruct e; split; reflexivity.
Qed.

(** X11: when every step of the plan has returned and the gateway gives
    the base url and the data-product name, [provision] returns the
    COMPLETED status with an empty result, no private info, and a public
    info that has one entry, under the data product's id, whose
    [system_url] link points to base url, [dataProduct/], and the quoted
    name. *)
Theorem provision_deep_link {W} (g : Gateway.t W) (lib : Library)
  (dp : DataProduct.t) (w w1 w2 w3 : W) (base_url name : string) :
  run_calls g (provision_plan dp) w = (w1, Ok tt) ->
  Gateway.get_base_url g w1 = (w2, Ok base_url) ->
  Gateway._get_dp_name_from_id g (DataProduct.id dp) w2 = (w3, Ok name) ->
  exists public_info system_url,
    ProvisionService.provision g lib dp w
    = (w3, Ok (inl (mkProvisioningStatus COMPLETED ""
                      (Some (mkInfo public_info ∅)))))
    /\ dom public_info = {[DataProduct.id dp]}
    /\ public_info !! DataProduct.id dp = Some {["system_url" := system_url]}
    /\ system_url !! "href"
       = Some (base_url +:+ "dataProduct/" +:+ quote lib name)
    /\ system_url !! "type" = Some "string"
    /\ system_url !! "label" = Some "OpenMetadata URL"
    /\ system_url !! "value" = Some "View in OpenMetadata".
Proof.
  intros Hplan Hurl Hname.
  set (system_url :=
         <["type" := "string"]>
           (<["label" := "OpenMetadata URL"]>
              (<["value" := "View in OpenMetadata"]>
                 (<["href" := base_url +:+ "dataProduct/" +:+ quote lib name]>
                    (∅ : gmap string string))))).
  exists (<[DataProduct.id dp := <["system_url" := system_url]> ∅]> ∅),
    system_url.
  split.
  - rewrite provision_runs_plan.
    rewrite (try_except_ServiceError_eq _ _ w w3
               (Ok (inl (mkProvisioningStatus COMPLETED ""
                           (Some (mkInfo
                                    (<[DataProduct.id dp :=
                                         <["system_url" := system_url]> ∅]> ∅)
                                    ∅))))));
      [reflexivity|].
    erewrite bind_Ok by exact Hplan.
    unfold ProvisionService._get_public_info.
    rewrite bind_assoc. erewrite bind_Ok by exact Hurl.
    rewrite bind_assoc. erewrite bind_Ok by exact Hname.
    reflexivity.
  - split; [now rewrite dom_insert_L, dom_empty_L, union_empty_r_L|].
    split; [now rewrite lookup_insert_eq, insert_empty|].
    repeat split; reflexivity.
Qed.

Lemma provision_deep_link_witness :
  exists public_info system_url,
    ProvisionService.provision (mock_gateway no_fault [] []) sample_lib
      sample_dp tt
    = (tt, Ok (inl (mkProvisioningStatus COMPLETED ""
                      (Some (mkInfo public_info ∅)))))
    /\ dom public_info = {[DataProduct.id sample_dp]}
    /\ public_info !! DataProduct.id sample_dp
       = Some {["system_url" := system_url]}
    /\ system_url !! "href"
       = Some ("http://localhost:8585/" +:+ "dataProduct/"
                 +:+ quote sample_lib "DP Name")
    /\ system_url !! "type" = Some "string"
    /\ system_url !! "label" = Some "OpenMetadata URL"
    /\ system_url !! "value" = Some "View in OpenMetadata".
Proof.
  exact (provision_deep_link (mock_gateway no_fault [] []) sample_lib sample_dp
           tt tt tt tt "http://localhost:8585/" "DP Name"
           eq_refl eq_refl eq_refl).
Defined.

Lemma try_except_ServiceError_Ok {W A} (m : M W A) (h : string -> M W A)
  w w' a :
  m w = (w', Ok a) -> try_except_ServiceError m h w = (w', Ok a).
Proof. intros H. unfold try_except_ServiceError. now rewrite H. Qed.

Lemma try_except_ServiceError_caught {W A} (m : M W A) (h : string -> M W A)
  w w' msg :
  m w = (w', Raise (ServiceError msg)) ->
  try_except_ServiceError m h w = h msg w'.
Proof. intros H. unfold try_except_ServiceError. now rewrite H. Qed.

Lemma run_calls_raises {W} (g : Gateway.t W) calls w w' e :
  run_calls g calls w = (w', Raise e) ->
  exists c w0, c ∈ calls /\ perform g c w0 = (w', Raise e).
Proof.
  revert w. induction calls as [|c calls IH]; intros w; unfold run_calls; simpl.
  - unfold ret. discriminate.
  - unfold bind. destruct (perform g c w) as [w1 [[]|e1]] eqn:E.
    + intros H. destruct (IH w1 H) as (c' & w0 & Hc & Hp).
      exists c', w0. split; [now right|exact Hp].
    + intros H. injection H as <- <-. exists c, w. split; [left|exact E].
Qed.

Lemma run_calls_returns {W} (g : Gateway.t W) calls w w' c :
  run_calls g calls w = (w', Ok tt) ->
  c ∈ calls ->
  exists w0 w1, perform g c w0 = (w1, Ok tt).
Proof.
  revert w. induction calls as [|c' calls IH]; intros w Hrun Hc;
    [inversion Hc|].
  unfold run_calls in Hrun. simpl in Hrun. unfold bind in Hrun.
  destruct (perform g c' w) as [w1 [[]|e1]] eqn:E; [|discriminate].
  apply elem_of_cons in Hc as [->|Hc]; [eauto|].
  exact (IH w1 Hrun Hc).
Qed.

(** When the real gateway has upserted the data product, the name of the
    data product could be derived. *)
Lemma create_or_update_dp_returns_named {S} (client : OpenMetadata.t S) lib dp
  s s' v :
  OpenMetadataClientService.create_or_update_dp client lib dp s = (s', Ok v) ->
  exists name,
    OpenMetadataClientService._get_dp_name_from_id (DataProduct.id dp) = Ok name.
Proof.
  unfold OpenMetadataClientService.create_or_update_dp,
    OpenMetadataClientService.wrap, try_except, bind, lift, raise, res_bind.
  destruct (OpenMetadataClientService._get_dp_name_from_id (DataProduct.id dp))
    as [name|e]; [eauto|discriminate].
Qed.

(** X12: on the real gateway [provision] leaves no fault unhandled as long
    as the configured host parses as an url: whatever the client, the
    libraries and the descriptor do, the result is a ProvisioningStatus or
    a SystemErr.  In particular the name derivation for the deep link
    cannot fault, since the data product was upserted under that name
    before. *)
Theorem provision_leaves_no_fault_unhandled {S} (client : OpenMetadata.t S)
  (settings : OpenMetadataSettings) (lib : Library) (dp : DataProduct.t)
  (s : S) (parsed : ParseResult.t) :
  urlparse lib (OpenMetadata.hostPort client) = Ok parsed ->
  exists s' answer,
    ProvisionService.provision
      (openmetadata_client_service client settings lib) lib dp s
    = (s', Ok answer).
Proof.
  intros Hparse. rewrite provision_runs_plan.
  set (g := openmetadata_client_service client settings lib).
  destruct (run_calls g (provision_plan dp) s) as [s1 [[]|e]] eqn:Hrun.
  - destruct (run_calls_returns g (provision_plan dp) s s1 (CreateOrUpdateDp dp)
                Hrun) as (s2 & s3 & Hdp).
    { unfold provision_plan. apply elem_of_app. left.
      do 3 right. left. }
    simpl in Hdp. unfold bind in Hdp.
    destruct (OpenMetadataClientService.create_or_update_dp client lib dp s2)
      as [s4 [v|e]] eqn:Hup; [|discriminate].
    destruct (create_or_update_dp_returns_named client lib dp s2 s4 v Hup)
      as [name Hname].
    eexists _, _.
    apply try_except_ServiceError_Ok.
    erewrite bind_Ok by exact Hrun.
    unfold ProvisionService._get_public_info, g. simpl.
    unfold OpenMetadataClientService.get_base_url, bind, lift, ret, res_bind.
    rewrite Hparse, Hname. reflexivity.
  - destruct (run_calls_raises g (provision_plan dp) s s1 e Hrun)
      as (c & s0 & Hc & Hp).
    destruct (plan_step_raises_ServiceError client settings lib dp c s0 s1 e
                Hc Hp) as [msg ->].
    eexists _, _.
    erewrite try_except_ServiceError_caught
      by (erewrite bind_Raise by exact Hrun; reflexivity).
    reflexivity.
Qed.

Lemma provision_leaves_no_fault_unhandled_witness :
  exists s' answer,
    ProvisionService.provision
      (openmetadata_client_service untyped_catalog_client sample_settings
         sample_lib) sample_lib sample_dp tt
    = (s', Ok answer).
Proof.
  exact (provision_leaves_no_fault_unhandled untyped_catalog_client
           sample_settings sample_lib sample_dp tt
           (ParseResult.mk "http" "http://localhost:8585") eq_refl).
Defined.


(** ** Glossary lookup, continued *)

Lemma bool_filter_filter {A} (p q : A -> bool) (l : list A) :
  List.filter p (List.filter q l) = List.filter (fun x => q x && p x) l.
Proof.
  induction l as [|x l IH]; simpl; [reflexivity|].
  destruct (q x); simpl; [destruct (p x)|]; now rewrite IH.
Qed.

Lemma bool_filter_true {A} (l : list A) : List.filter (fun _ => true) l = l.
Proof. induction l as [|x l IH]; simpl; [reflexivity|now rewrite IH]. Qed.

Lemma bool_filter_ext {A} (p q : A -> bool) (l : list A) :
  (forall x, p x = q x) -> List.filter p l = List.filter q l.
Proof.
  intros H. induction l as [|x l IH]; simpl; [reflexivity|].
  now rewrite H, IH.
Qed.

Lemma sublist_bool_filter {A} (p : A -> bool) (l : list A) :
  List.filter p l `sublist_of` l.
Proof.
  induction l as [|x l IH]; simpl; [constructor|].
  destruct (p x); now constructor.
Qed.

Lemma sublist_slice {A} (l : list A) (start stop : Z) :
  Py.slice l start stop `sublist_of` l.
Proof.
  unfold Py.slice. etransitivity; [apply sublist_take|apply sublist_drop].
Qed.

Lemma sublist_omap {A B} (f : A -> option B) (l1 l2 : list A) :
  l1 `sublist_of` l2 -> omap f l1 `sublist_of` omap f l2.
Proof.
  induction 1 as [|x l1 l2 _ IH|x l1 l2 _ IH]; simpl.
  - constructor.
  - destruct (f x); [now constructor|exact IH].
  - destruct (f x); [now constructor|exact IH].
Qed.

Lemma length_omap_le {A B} (f : A -> option B) (l : list A) :
  length (omap f l) <= length l.
Proof.
  induction l as [|x l IH]; [simpl; lia|]. cbn. destruct (f x); simpl; lia.
Qed.

Lemma picker_items_omap (page : list GlossaryTerm.t) items :
  GlossaryTermsService.picker_items page = Ok items ->
  items = omap item_of page.
Proof.
  revert items. induction page as [|t page IH]; intros items; simpl.
  - now intros [= <-].
  - unfold item_of at 1, GlossaryTermsService.picker_item.
    destruct (GlossaryTerm.fullyQualifiedName t) as [root|]; [|apply IH].
    destruct (EntityReference.name (GlossaryTerm.glossary t)) as [gname|];
      simpl; [|discriminate].
    destruct (GlossaryTermsService.picker_items page) as [rest|]; simpl;
      [|discriminate].
    intros [= <-]. now rewrite (IH rest eq_refl).
Qed.

Lemma candidates_eq_filter (lower : string -> string)
  (body : option CustomUrlPickerResourcesRequestBody.t)
  (filter : option string) (all_terms : list GlossaryTerm.t) :
  candidates lower body filter all_terms
  = List.filter (passes_filters lower body filter) all_terms.
Proof.
  unfold candidates, GlossaryTermsService.filtered_terms_by_domain,
    GlossaryTermsService.filtered_terms, passes_filters.
  destruct filter as [f|]; [destruct (Py.truthy f)|];
    destruct (GlossaryTermsService.domain_filter body) as [d|];
    rewrite ?bool_filter_filter; simpl;
    try (apply bool_filter_ext; intros x;
         now rewrite ?andb_true_r);
    now rewrite bool_filter_true.
Qed.

Lemma picker_items_renders_all (page : list GlossaryTerm.t) :
  (forall t, t ∈ page ->
     is_Some (GlossaryTerm.fullyQualifiedName t) ->
     is_Some (EntityReference.name (GlossaryTerm.glossary t))) ->
  GlossaryTermsService.picker_items page = Ok (omap item_of page).
Proof.
  induction page as [|t page IH]; intros Hall; [reflexivity|].
  assert (GlossaryTermsService.picker_items page = Ok (omap item_of page))
    as Hrest by (apply IH; intros t' Ht'; apply Hall; now right).
  simpl. unfold GlossaryTermsService.picker_item. cbn [omap list_omap].
  unfold item_of at 1.
  destruct (GlossaryTerm.fullyQualifiedName t) as [root|] eqn:Ef;
    [|exact Hrest].
  destruct (Hall t) as [gname Hg]; [left|eauto|].
  rewrite Hg. simpl. rewrite Hrest. reflexivity.
Qed.

(** X14: the items [get_terms] returns are those of the catalog terms
    that pass the filters in force (a text filter that is given and not
    empty, a domain name that is given and not empty).  Every returned
    item belongs to a catalog term that passes them; and on the first
    page, with a limit no smaller than the number of catalog terms, when
    every passing term that has a fully-qualified name has a named
    glossary, the items of all passing terms are returned, in the
    catalog's order. *)
Theorem get_terms_returns_the_terms_that_pass {W} (g : Gateway.t W)
  (lower : string -> string)
  (body : option CustomUrlPickerResourcesRequestBody.t)
  (offset limit : Z) (filter : option string) (w w' : W)
  (all_terms : list GlossaryTerm.t) :
  Gateway.get_all_glossary_terms g w = (w', Ok all_terms) ->
  (forall items item,
     GlossaryTermsService.get_terms g lower body offset limit filter w
       = (w', Ok (inl items)) ->
     item ∈ items ->
     exists t,
       t ∈ all_terms /\ passes_filters lower body filter t = true
       /\ item_of t = Some item)
  /\ ((Z.of_nat (length all_terms) <= limit)%Z ->
      (forall t, t ∈ all_terms ->
         passes_filters lower body filter t = true ->
         is_Some (GlossaryTerm.fullyQualifiedName t) ->
         is_Some (EntityReference.name (GlossaryTerm.glossary t))) ->
      GlossaryTermsService.get_terms g lower body 0 limit filter w
      = (w', Ok (inl (omap item_of
                        (List.filter (passes_filters lower body filter)
                           all_terms))))).
Proof.
  intros Hget. split.
  - intros items item Hres Hin.
    rewrite (get_terms_eq g lower body offset limit filter w w' all_terms Hget)
      in Hres.
    destruct (GlossaryTermsService.picker_items _) as [items'|e] eqn:E;
      [|discriminate].
    injection Hres as ->.
    destruct (picker_items_named _ _ _ E Hin) as (t & Ht & Hitem).
    apply elem_of_slice in Ht. rewrite candidates_eq_filter in Ht.
    apply elem_of_bool_filter in Ht as [Ht Hpass]. eauto.
  - intros Hlimit Hall.
    rewrite (get_terms_eq g lower body 0 limit filter w w' all_terms Hget).
    rewrite candidates_eq_filter.
    assert (length (List.filter (passes_filters lower body filter) all_terms)
            <= length all_terms) as Hlen
      by apply sublist_length, sublist_bool_filter.
    assert (Py.slice (List.filter (passes_filters lower body filter) all_terms)
              (0 * limit) (0 * limit + limit)
            = List.filter (passes_filters lower body filter) all_terms)
      as ->.
    { change (0 * limit)%Z with 0%Z.
      rewrite slice_page by lia. simpl. apply take_ge. lia. }
    rewrite picker_items_renders_all; [reflexivity|].
    intros t Ht. apply elem_of_bool_filter in Ht as [Ht Hpass].
    now apply Hall.
Qed.

(** With the text filter [TERM2] and room for every term, exactly the
    second term is returned. *)
Lemma get_terms_returns_the_terms_that_pass_witness :
  GlossaryTermsService.get_terms
    (mock_gateway no_fault [] [sample_term; sample_term2]) sample_lower
    None 0 10 (Some "TERM2") tt
  = (tt, Ok (inl [sample_item2])).
Proof.
  change (GlossaryTermsService.get_terms
            (mock_gateway no_fault [] [sample_term; sample_term2]) sample_lower
            None 0 10 (Some "TERM2") tt
          = (tt, Ok (inl (omap item_of
                            (List.filter (passes_filters sample_lower None
                                            (Some "TERM2"))
                               [sample_term; sample_term2]))))).
  apply (proj2 (get_terms_returns_the_terms_that_pass
                  (mock_gateway no_fault [] [sample_term; sample_term2])
                  sample_lower None 0 10 (Some "TERM2") tt tt
                  [sample_term; sample_term2] eq_refl)).
  - simpl. lia.
  - intros t Ht _ _.
    repeat (apply elem_of_cons in Ht as [->|Ht]; [simpl; eauto|]).
    inversion Ht.
Defined.

(** X15: whatever the offset and the limit, the items [get_terms] returns
    are items of catalog terms, in the catalog's order and without
    repetition of a position; and for an offset and a limit that are not
    negative there are at most [limit] of them. *)
Theorem get_terms_items_come_from_the_catalog {W} (g : Gateway.t W)
  (lower : string -> string)
  (body : option CustomUrlPickerResourcesRequestBody.t)
  (offset limit : Z) (filter : option string) (w w' : W)
  (all_terms : list GlossaryTerm.t) (items : list CustomUrlPickerItem.t) :
  Gateway.get_all_glossary_terms g w = (w', Ok all_terms) ->
  GlossaryTermsService.get_terms g lower body offset limit filter w
    = (w', Ok (inl items)) ->
  items `sublist_of` omap item_of all_terms
  /\ ((0 <= offset)%Z -> (0 <= limit)%Z -> length items <= Z.to_nat limit).
Proof.
  intros Hget Hres.
  rewrite (get_terms_eq g lower body offset limit filter w w' all_terms Hget)
    in Hres.
  destruct (GlossaryTermsService.picker_items _) as [items'|e] eqn:E;
    [|discriminate].
  injection Hres as ->. apply picker_items_omap in E. subst items.
  split.
  - apply sublist_omap. etransitivity; [apply sublist_slice|].
    rewrite candidates_eq_filter. apply sublist_bool_filter.
  - intros Hoffset Hlimit. rewrite slice_page by lia.
    etransitivity; [apply length_omap_le|].
    rewrite length_take. lia.
Qed.

Lemma get_terms_items_come_from_the_catalog_witness :
  [sample_item] `sublist_of` omap item_of [sample_term; sample_term2]
  /\ ((0 <= 0)%Z -> (0 <= 1)%Z -> length [sample_item] <= Z.to_nat 1).
Proof.
  exact (get_terms_items_come_from_the_catalog
           (mock_gateway no_fault [] [sample_term; sample_term2]) sample_lower
           None 0 1 None tt tt [sample_term; sample_term2] [sample_item]
           eq_refl eq_refl).
Defined.

(** X16: with a text filter that is not empty, every returned item has a
    fully-qualified name whose lower-cased form contains the lower-cased
    filter, and the item's id is that fully-qualified name. *)
Theorem get_terms_items_match_the_text_filter {W} (g : Gateway.t W)
  (lower : string -> string)
  (body : option CustomUrlPickerResourcesRequestBody.t)
  (offset limit : Z) (filter : string) (w w' : W)
  (all_terms : list GlossaryTerm.t) (items : list CustomUrlPickerItem.t) :
  Gateway.get_all_glossary_terms g w = (w', Ok all_terms) ->
  filter <> EmptyString ->
  GlossaryTermsService.get_terms g lower body offset limit (Some filter) w
    = (w', Ok (inl items)) ->
  forall item, item ∈ items ->
    Py.contains (lower filter) (lower (CustomUrlPickerItem.fqn item)) = true
    /\ CustomUrlPickerItem.id item = CustomUrlPickerItem.fqn item.
Proof.
  intros Hget Hne Hres item Hin.
  rewrite (get_terms_eq g lower body offset limit (Some filter) w w' all_terms
             Hget) in Hres.
  destruct (GlossaryTermsService.picker_items _) as [items'|e] eqn:E;
    [|discriminate].
  injection Hres as ->.
  destruct (picker_items_named _ _ _ E Hin) as (t & Ht & Hitem).
  apply elem_of_slice in Ht.
  rewrite candidates_eq_filter in Ht. apply elem_of_bool_filter in Ht as [_ Hpass].
  unfold passes_filters in Hpass. apply andb_true_iff in Hpass as [Hf _].
  destruct filter as [|c filter]; [contradiction|]. simpl in Hf.
  unfold GlossaryTermsService.matches_filter in Hf. unfold item_of in Hitem.
  destruct (GlossaryTerm.fullyQualifiedName t) as [root|]; [|discriminate].
  destruct (EntityReference.name (GlossaryTerm.glossary t)); [|discriminate].
  injection Hitem as <-. simpl. auto.
Qed.

Lemma get_terms_items_match_the_text_filter_witness :
  Py.contains (sample_lower "TERM2")
    (sample_lower (CustomUrlPickerItem.fqn sample_item2)) = true
  /\ CustomUrlPickerItem.id sample_item2 = CustomUrlPickerItem.fqn sample_item2.
Proof.
  apply (get_terms_items_match_the_text_filter
           (mock_gateway no_fault [] [sample_term; sample_term2]) sample_lower
           None 0 10 "TERM2" tt tt [sample_term; sample_term2] [sample_item2]
           eq_refl); [discriminate|reflexivity|left].
Defined.

(** X17: when listing the glossary terms raises the service error,
    [get_terms] answers the system error whose single message is the
    service error's; any other exception of the gateway object is not
    caught. *)
Theorem get_terms_listing_fault {W} (g : Gateway.t W)
  (lower : string -> string)
  (body : option CustomUrlPickerResourcesRequestBody.t)
  (offset limit : Z) (filter : option string) (w w' : W) (e : Exception) :
  Gateway.get_all_glossary_terms g w = (w', Raise e) ->
  GlossaryTermsService.get_terms g lower body offset limit filter w
  = (w', fault_result
           (fun msg => inr (mkCustomUrlPickerSystemError [msg])) e).
Proof.
  intros Hget.
  unfold GlossaryTermsService.get_terms, try_except_ServiceError, bind.
  rewrite Hget. destruct e; reflexivity.
Qed.

Lemma get_terms_listing_fault_witness :
  GlossaryTermsService.get_terms (mock_gateway terms_read_fault [] [])
    sample_lower None 0 10 None tt
  = (tt, Ok (inr (mkCustomUrlPickerSystemError ["Test error"]))).
Proof.
  exact (get_terms_listing_fault (mock_gateway terms_read_fault [] [])
           sample_lower None 0 10 None tt tt (ServiceError "Test error")
           eq_refl).
Defined.

Lemma picker_items_Ok_named_glossary (page : list GlossaryTerm.t) items t :
  GlossaryTermsService.picker_items page = Ok items ->
  t ∈ page ->
  is_Some (GlossaryTerm.fullyQualifiedName t) ->
  is_Some (EntityReference.name (GlossaryTerm.glossary t)).
Proof.
  revert items. induction page as [|t' page IH]; intros items Hok Hin Hf;
    [inversion Hin|].
  simpl in Hok. unfold GlossaryTermsService.picker_item in Hok.
  apply elem_of_cons in Hin as [->|Hin].
  - destruct Hf as [root Hf]. rewrite Hf in Hok.
    destruct (EntityReference.name (GlossaryTerm.glossary t')); [eauto|].
    discriminate.
  - destruct (GlossaryTerm.fullyQualifiedName t') as [root|].
    + destruct (EntityReference.name (GlossaryTerm.glossary t')); simpl in Hok;
        [|discriminate].
      destruct (GlossaryTermsService.picker_items page) as [rest|] eqn:E;
        [|discriminate].
      exact (IH rest eq_refl Hin Hf).
    + exact (IH items Hok Hin Hf).
Qed.

(** X18: when the page holds a term that has a fully-qualified name but
    whose glossary reference has no name, [get_terms] does not answer: the
    rejection of the item by its constructor is raised to the caller, it
    is not turned into the system error. *)
Theorem get_terms_nameless_glossary_is_unhandled {W} (g : Gateway.t W)
  (lower : string -> string)
  (body : option CustomUrlPickerResourcesRequestBody.t)
  (offset limit : Z) (filter : option string) (w w' : W)
  (all_terms : list GlossaryTerm.t) (t : GlossaryTerm.t) :
  Gateway.get_all_glossary_terms g w = (w', Ok all_terms) ->
  t ∈ Py.slice (candidates lower body filter all_terms)
        (offset * limit) (offset * limit + limit) ->
  is_Some (GlossaryTerm.fullyQualifiedName t) ->
  EntityReference.name (GlossaryTerm.glossary t) = None ->
  exists msg,
    GlossaryTermsService.get_terms g lower body offset limit filter w
    = (w', Raise (LibraryError msg)).
Proof.
  intros Hget Hin Hf Hg.
  rewrite (get_terms_eq g lower body offset limit filter w w' all_terms Hget).
  destruct (GlossaryTermsService.picker_items _) as [items|e] eqn:E.
  - destruct (picker_items_Ok_named_glossary _ _ _ E Hin Hf) as [name Hname].
    congruence.
  - rewrite (picker_items_raises _ e E). eauto.
Qed.

Lemma get_terms_nameless_glossary_is_unhandled_witness :
  exists msg,
    GlossaryTermsService.get_terms
      (mock_gateway no_fault [] [sample_term; nameless_glossary_term])
      sample_lower None 0 10 None tt
    = (tt, Raise (LibraryError msg)).
Proof.
  apply (get_terms_nameless_glossary_is_unhandled
           (mock_gateway no_fault [] [sample_term; nameless_glossary_term])
           sample_lower None 0 10 None tt tt
           [sample_term; nameless_glossary_term] nameless_glossary_term
           eq_refl).
  - right. left.
  - eexists. reflexivity.
  - reflexivity.
Defined.

(** ** Validation of selected glossary terms *)

Lemma not_found_terms_pure {W} (lookup : string -> M W (option Entity.t))
  (known : string -> option Entity.t) selected w :
  (forall item, item ∈ selected ->
     lookup (CustomUrlPickerItem.fqn item) w
     = (w, Ok (known (CustomUrlPickerItem.fqn item)))) ->
  not_found_terms lookup selected w
  = (w, Ok (List.filter (fun item => negb (found_by known item)) selected)).
Proof.
  induction selected as [|item rest IH]; intros Hpure; [reflexivity|].
  simpl. unfold bind at 1. rewrite (Hpure item) by left.
  unfold bind. rewrite IH by (intros i Hi; apply Hpure; now right).
  unfold ret, found_by.
  destruct (known (CustomUrlPickerItem.fqn item)); reflexivity.
Qed.

(** X19: with a lookup that only reads (it returns what the catalog knows
    and leaves the state as it is), [validate_terms] answers "Validation
    successful" exactly when every selected term is found, and otherwise
    the validation error with one entry per term that is not found, in the
    order of the selection, each naming the term's fully-qualified name. *)
Theorem validate_terms_reports_the_terms_not_found {W}
  (lookup : string -> M W (option Entity.t))
  (known : string -> option Entity.t)
  (validation_request : CustomUrlPickerValidationRequest.t) (w : W) :
  let selected :=
    CustomUrlPickerValidationRequest.selectedObjects validation_request in
  (forall item, item ∈ selected ->
     lookup (CustomUrlPickerItem.fqn item) w
     = (w, Ok (known (CustomUrlPickerItem.fqn item)))) ->
  let not_found :=
    List.filter (fun item => negb (found_by known item)) selected in
  (validate_terms lookup validation_request w
   = (w, Ok (inl "Validation successful"))
   <-> forall item, item ∈ selected ->
         is_Some (known (CustomUrlPickerItem.fqn item)))
  /\ (not_found <> [] ->
      validate_terms lookup validation_request w
      = (w, Ok (inr (inl (mkCustomUrlPickerValidationError
                            (map (fun item =>
                                    CustomUrlPickerError.mk
                                      ("Glossary term "
                                         +:+ CustomUrlPickerItem.fqn item
                                         +:+ " not found in OpenMetadata")
                                      None)
                               not_found)))))).
Proof.
  intros selected Hpure not_found.
  assert (validate_terms lookup validation_request w
          = (w, Ok (match not_found with
                    | [] => inl "Validation successful"
                    | _ :: _ =>
                        inr (inl (mkCustomUrlPickerValidationError
                                    (map not_found_error not_found)))
                    end))) as Heq.
  { unfold validate_terms, try_except_ServiceError, bind.
    fold selected. rewrite (not_found_terms_pure lookup known selected w Hpure).
    reflexivity. }
  split.
  - rewrite Heq. split.
    + intros H item Hitem.
      destruct (known (CustomUrlPickerItem.fqn item)) as [e|] eqn:Hk; [eauto|].
      assert (item ∈ not_found) as Hnf.
      { apply elem_of_bool_filter. split; [exact Hitem|].
        unfold found_by. now rewrite Hk. }
      destruct not_found; [inversion Hnf|discriminate].
    + intros Hall. destruct not_found as [|item rest] eqn:E; [reflexivity|].
      assert (item ∈ not_found) as Hnf by (rewrite E; left).
      apply elem_of_bool_filter in Hnf as [Hitem Hnot].
      destruct (Hall item Hitem) as [e He].
      unfold found_by in Hnot. rewrite He in Hnot. discriminate.
  - intros Hne. rewrite Heq. destruct not_found; [contradiction|reflexivity].
Qed.

Lemma validate_terms_reports_the_terms_not_found_witness :
  validate_terms sample_lookup
    (CustomUrlPickerValidationRequest.mk [sample_item; sample_item2] None) tt
  = (tt, Ok (inr (inl (mkCustomUrlPickerValidationError
                         [CustomUrlPickerError.mk
                            "Glossary term glossary1.term2 not found in OpenMetadata"
                            None])))).
Proof.
  apply (validate_terms_reports_the_terms_not_found sample_lookup
           (fun fqn => if String.eqb fqn "glossary1.term1"
                       then Some (Entity.mk "1") else None)
           (CustomUrlPickerValidationRequest.mk [sample_item; sample_item2] None)
           tt).
  - intros item _. reflexivity.
  - discriminate.
Defined.

(** X20: when a lookup raises the service error, [validate_terms] answers
    the system error with that message, whatever was found or not found
    before it; the terms after it are not looked up (the state is the one
    the faulting lookup left). *)
Theorem validate_terms_stops_at_a_fault {W}
  (lookup : string -> M W (option Entity.t))
  (known : string -> option Entity.t)
  (before after : list CustomUrlPickerItem.t) (item : CustomUrlPickerItem.t)
  (query : option CustomUrlPickerResourcesRequestBody.t)
  (w w' : W) (msg : string) :
  (forall i, i ∈ before ->
     lookup (CustomUrlPickerItem.fqn i) w
     = (w, Ok (known (CustomUrlPickerItem.fqn i)))) ->
  lookup (CustomUrlPickerItem.fqn item) w = (w', Raise (ServiceError msg)) ->
  validate_terms lookup
    (CustomUrlPickerValidationRequest.mk (before ++ item :: after) query) w
  = (w', Ok (inr (inr (mkCustomUrlPickerSystemError [msg])))).
Proof.
  intros Hpure Hfault.
  assert (not_found_terms lookup (before ++ item :: after) w
          = (w', Raise (ServiceError msg))) as Hnf.
  { induction before as [|i before IH]; simpl.
    - unfold bind. now rewrite Hfault.
    - unfold bind at 1. rewrite (Hpure i) by left.
      unfold bind at 1. rewrite IH by (intros j Hj; apply Hpure; now right).
      reflexivity. }
  unfold validate_terms. simpl.
  erewrite try_except_ServiceError_caught
    by (erewrite bind_Raise by exact Hnf; reflexivity).
  reflexivity.
Qed.

Lemma validate_terms_stops_at_a_fault_witness :
  validate_terms faulty_lookup
    (CustomUrlPickerValidationRequest.mk
       ([sample_item] ++ sample_item2 :: [sample_item]) None) tt
  = (tt, Ok (inr (inr (mkCustomUrlPickerSystemError ["Test error"])))).
Proof.
  apply (validate_terms_stops_at_a_fault faulty_lookup (fun _ => None)
           [sample_item] [sample_item] sample_item2 None tt tt "Test error").
  - intros i Hi. apply list_elem_of_In in Hi. destruct Hi as [<-|[]].
    reflexivity.
  - reflexivity.
Defined.

(** ** What the operations call on the catalog *)

Section OnlyCalls.
Context {S : Type}.
Variable P : ClientCall -> bool.

Lemma only_calls_ret {A} (a : A) : only_calls (S := S) P (ret a).
Proof. intros s log. exists []. now rewrite app_nil_r. Qed.

Lemma only_calls_raise {A} e : only_calls (S := S) (A := A) P (raise e).
Proof. intros s log. exists []. now rewrite app_nil_r. Qed.

Lemma only_calls_lift {A} (r : Res A) : only_calls (S := S) P (lift r).
Proof. intros s log. exists []. now rewrite app_nil_r. Qed.

Lemma only_calls_bind {A B} (m : M (S * list ClientCall) A)
  (k : A -> M (S * list ClientCall) B) :
  only_calls P m -> (forall a, only_calls P (k a)) -> only_calls P (bind m k).
Proof.
  intros Hm Hk s log. unfold bind.
  destruct (Hm s log) as (added & Hl & HP).
  destruct (m (s, log)) as [[s1 log1] [a|e]]; simpl in Hl; subst log1.
  - destruct (Hk a s1 (log ++ added)) as (added' & Hl' & HP').
    exists (added ++ added'). rewrite Hl', app_assoc.
    split; [reflexivity|now apply Forall_app].
  - exists added. auto.
Qed.

Lemma only_calls_try_except {A} (m : M (S * list ClientCall) A)
  (h : Exception -> M (S * list ClientCall) A) :
  only_calls P m -> (forall e, only_calls P (h e)) ->
  only_calls P (try_except m h).
Proof.
  intros Hm Hh s log. unfold try_except.
  destruct (Hm s log) as (added & Hl & HP).
  destruct (m (s, log)) as [[s1 log1] [a|e]]; simpl in Hl; subst log1.
  - exists added. auto.
  - destruct (Hh e s1 (log ++ added)) as (added' & Hl' & HP').
    exists (added ++ added'). rewrite Hl', app_assoc.
    split; [reflexivity|now apply Forall_app].
Qed.

Lemma only_calls_try_except_ServiceError {A} (m : M (S * list ClientCall) A)
  (h : string -> M (S * list ClientCall) A) :
  only_calls P m -> (forall msg, only_calls P (h msg)) ->
  only_calls P (try_except_ServiceError m h).
Proof.
  intros Hm Hh s log. unfold try_except_ServiceError.
  destruct (Hm s log) as (added & Hl & HP).
  destruct (m (s, log)) as [[s1 log1] [a|[msg| | | |]]]; simpl in Hl; subst log1;
    try (exists added; auto; fail).
  destruct (Hh msg s1 (log ++ added)) as (added' & Hl' & HP').
  exists (added ++ added'). rewrite Hl', app_assoc.
  split; [reflexivity|now apply Forall_app].
Qed.

Lemma only_calls_wrap {A} message (m : M (S * list ClientCall) A) :
  only_calls P m -> only_calls P (OpenMetadataClientService.wrap message m).
Proof.
  intros Hm. apply only_calls_try_except; [exact Hm|].
  intros e. apply only_calls_raise.
Qed.

Lemma only_calls_for_each {A} (l : list A)
  (body : A -> M (S * list ClientCall) unit) :
  (forall a, only_calls P (body a)) -> only_calls P (for_each l body).
Proof.
  intros Hbody. induction l as [|a l IH]; simpl.
  - apply only_calls_ret.
  - apply only_calls_bind; [apply Hbody|intros _; exact IH].
Qed.

Lemma only_calls_recorded {A} (c : ClientCall) (m : M S A) :
  P c = true -> only_calls P (recorded c m).
Proof.
  intros Hc s log. unfold recorded. simpl.
  destruct (m s) as [s1 r]. exists [c]. split; [reflexivity|].
  now constructor.
Qed.

End OnlyCalls.

(** X21: on the real gateway, a provisioning calls nothing on the catalog
    but the read of a type definition and upserts (of custom properties
    and of entities): it never looks up, lists or deletes.  An
    unprovisioning calls nothing but lookups by name and deletions of
    data products and containers: it never creates or updates. *)
Theorem provision_upserts_unprovision_removes {S} (client : OpenMetadata.t S)
  (settings : OpenMetadataSettings) (lib : Library) (dp : DataProduct.t)
  (remove_data : bool) :
  let gateway :=
    openmetadata_client_service (recording_client client) settings lib in
  only_calls is_upsert (ProvisionService.provision gateway lib dp)
  /\ only_calls is_removal (ProvisionService.unprovision gateway dp remove_data).
Proof.
  intros gateway. split.
  - unfold ProvisionService.provision.
    apply only_calls_try_except_ServiceError; [|intros; apply only_calls_ret].
    apply only_calls_bind; [|intros _].
    { apply only_calls_wrap, only_calls_bind; [apply only_calls_lift|].
      intros r. now apply only_calls_recorded. }
    apply only_calls_bind; [|intros _].
    { apply only_calls_wrap, only_calls_bind;
        [now apply only_calls_recorded|].
      intros [d|]; [|apply only_calls_raise].
      destruct (decide (d = ∅)); [apply only_calls_raise|].
      apply only_calls_for_each. intros [type_name description].
      apply only_calls_bind; [apply only_calls_lift|].
      intros p. now apply only_calls_recorded. }
    apply only_calls_bind; [|intros _].
    { apply only_calls_wrap, only_calls_bind; [apply only_calls_lift|].
      intros r. now apply only_calls_recorded. }
    apply only_calls_bind; [|intros _].
    { apply only_calls_wrap, only_calls_bind; [apply only_calls_lift|].
      intros r. now apply only_calls_recorded. }
    apply only_calls_bind; [|intros _].
    { apply only_calls_for_each. intros op.
      apply only_calls_bind; [|intros _; apply only_calls_ret].
      apply only_calls_wrap, only_calls_bind; [apply only_calls_lift|].
      intros r. now apply only_calls_recorded. }
    apply only_calls_bind; [|intros; apply only_calls_ret].
    unfold ProvisionService._get_public_info.
    apply only_calls_bind; [apply only_calls_lift|intros base_url].
    apply only_calls_bind; [apply only_calls_lift|intros name].
    apply only_calls_ret.
  - unfold ProvisionService.unprovision.
    apply only_calls_try_except_ServiceError; [|intros; apply only_calls_ret].
    apply only_calls_bind; [|intros _].
    { apply only_calls_for_each. intros op.
      apply only_calls_wrap, only_calls_bind; [apply only_calls_lift|].
      intros name. apply only_calls_bind; [now apply only_calls_recorded|].
      intros [found|]; [now apply only_calls_recorded|apply only_calls_ret]. }
    apply only_calls_bind; [|intros; apply only_calls_ret].
    apply only_calls_wrap, only_calls_bind; [apply only_calls_lift|].
    intros name. apply only_calls_bind; [now apply only_calls_recorded|].
    intros [found|]; [now apply only_calls_recorded|apply only_calls_ret].
Qed.

(** ** Point lookups *)

(** X22: a point lookup of a classification tag or of a glossary term makes
    exactly one call, the lookup by name; a name the catalog does not know
    is answered by nothing, without a fault, and a fault of the client is
    raised as the service error that names the looked-up name. *)
Theorem point_lookups {S} (client : OpenMetadata.t S) (fqn : string)
  (s s1 s2 : S) (log : list ClientCall)
  (r_tag r_term : Res (option Entity.t)) :
  OpenMetadata.get_by_name client TagClass fqn s = (s1, r_tag) ->
  OpenMetadata.get_by_name client GlossaryTermClass fqn s = (s2, r_term) ->
  get_classification_tag (recording_client client) fqn (s, log)
  = ((s1, log ++ [CallGetByName TagClass fqn]),
     match r_tag with
     | Ok found => Ok found
     | Raise cause =>
         Raise (ServiceError
                  ("Failed to retrieve classification tag " +:+ fqn
                     +:+ ". Details: " +:+ str cause))
     end)
  /\ get_glossary_term (recording_client client) fqn (s, log)
     = ((s2, log ++ [CallGetByName GlossaryTermClass fqn]),
        match r_term with
        | Ok found => Ok found
        | Raise cause =>
            Raise (ServiceError
                     ("Failed to retrieve glossary term " +:+ fqn
                        +:+ ". Details: " +:+ str cause))
        end).
Proof.
  intros Htag Hterm. unfold get_classification_tag, get_glossary_term. split.
  - erewrite wrap_eq by (simpl; apply recorded_eq, Htag).
    destruct r_tag; [reflexivity|now rewrite !append_assoc].
  - erewrite wrap_eq by (simpl; apply recorded_eq, Hterm).
    destruct r_term; [reflexivity|now rewrite !append_assoc].
Qed.

Lemma point_lookups_witness :
  get_classification_tag (recording_client empty_catalog_client) "test.tag"
    (tt, [])
  = ((tt, [] ++ [CallGetByName TagClass "test.tag"]), Ok None)
  /\ get_glossary_term (recording_client empty_catalog_client) "test.tag"
       (tt, [])
     = ((tt, [] ++ [CallGetByName GlossaryTermClass "test.tag"]), Ok None).
Proof.
  exact (point_lookups empty_catalog_client "test.tag" tt tt tt [] (Ok None)
           (Ok None) eq_refl eq_refl).
Defined.

(** ** Unpacking of unprovisioning and ACL requests *)

(** X23: unpacking an unprovisioning request never faults and follows the
    unpacking of the provisioning request: a ValidationError is handed on
    unchanged, a data product comes with the remove-data flag, and a
    request without the flag is unpacked like one whose flag is false. *)
Theorem unpack_unprovisioning_follows_provisioning {Yaml : Type}
  (safe_load : string -> Res Yaml)
  (parse_yaml_with_model : Yaml -> Res (DataProduct.t + ValidationError))
  (format_kind : DescriptorKind -> string)
  (kind : DescriptorKind) (descriptor : string) (removeData : option bool) :
  (exists unpacked,
     unpack_provisioning_request safe_load parse_yaml_with_model format_kind
       (ProvisioningRequest.mk kind descriptor removeData)
     = Ok unpacked
     /\ unpack_unprovisioning_request safe_load parse_yaml_with_model
          format_kind (ProvisioningRequest.mk kind descriptor removeData)
        = Ok (match unpacked with
              | inl data_product =>
                  inl (data_product, default false removeData)
              | inr validation_error => inr validation_error
              end))
  /\ unpack_unprovisioning_request safe_load parse_yaml_with_model format_kind
       (ProvisioningRequest.mk kind descriptor None)
     = unpack_unprovisioning_request safe_load parse_yaml_with_model
         format_kind (ProvisioningRequest.mk kind descriptor (Some false)).
Proof.
  assert (forall flag, exists unpacked,
             unpack_provisioning_request safe_load parse_yaml_with_model
               format_kind (ProvisioningRequest.mk kind descriptor flag)
             = Ok unpacked
             /\ unpack_unprovisioning_request safe_load parse_yaml_with_model
                  format_kind (ProvisioningRequest.mk kind descriptor flag)
                = Ok (match unpacked with
                      | inl data_product =>
                          inl (data_product, default false flag)
                      | inr validation_error => inr validation_error
                      end)) as H.
  { intros flag. unfold unpack_unprovisioning_request.
    unfold unpack_provisioning_request. simpl.
    destruct (negb _ && negb _);
      [eexists; split; reflexivity|].
    destruct (res_bind (safe_load descriptor) parse_yaml_with_model)
      as [[dp|ve]|ex]; simpl; destruct flag; eexists; split; reflexivity. }
  split; [apply H|].
  destruct (H None) as (u1 & Hp1 & ->), (H (Some false)) as (u2 & Hp2 & ->).
  unfold unpack_provisioning_request in Hp1, Hp2. simpl in Hp1, Hp2.
  rewrite Hp1 in Hp2. injection Hp2 as <-. destruct u1; reflexivity.
Qed.

(** X24: unpacking an ACL update never faults and does not look at any
    descriptor kind: an exception raised while the request text is loaded
    or parsed gives the ValidationError made of "Unable to parse the
    descriptor." and the exception's text, a ValidationError of the
    parsing helper is handed on unchanged, and a data product comes with
    the request's references, unchanged and in their order. *)
Theorem unpack_update_acl_request_cases {Yaml : Type}
  (safe_load : string -> Res Yaml)
  (parse_yaml_with_model : Yaml -> Res (DataProduct.t + ValidationError))
  (update_acl_request : UpdateAclRequest.t) :
  let text :=
    ProvisionInfo.request (UpdateAclRequest.provisionInfo update_acl_request) in
  let r := unpack_update_acl_request safe_load parse_yaml_with_model
             update_acl_request in
  (exists answer, r = Ok answer)
  /\ (forall ex, safe_load text = Raise ex ->
        r = Ok (inr (mkValidationError
                       ["Unable to parse the descriptor."; str ex])))
  /\ (forall tree ex,
        safe_load text = Ok tree -> parse_yaml_with_model tree = Raise ex ->
        r = Ok (inr (mkValidationError
                       ["Unable to parse the descriptor."; str ex])))
  /\ (forall tree validation_error,
        safe_load text = Ok tree ->
        parse_yaml_with_model tree = Ok (inr validation_error) ->
        r = Ok (inr validation_error))
  /\ (forall tree data_product,
        safe_load text = Ok tree ->
        parse_yaml_with_model tree = Ok (inl data_product) ->
        r = Ok (inl (data_product, UpdateAclRequest.refs update_acl_request))).
Proof.
  intros text r. subst r. unfold unpack_update_acl_request. fold text.
  split; [|split; [|split; [|split]]].
  - destruct (safe_load text) as [tree|ex]; simpl; [|eauto].
    destruct (parse_yaml_with_model tree) as [[dp|ve]|ex]; simpl; eauto.
  - intros ex ->. reflexivity.
  - intros tree ex -> Hp. simpl. now rewrite Hp.
  - intros tree ve -> Hp. simpl. now rewrite Hp.
  - intros tree dp -> Hp. simpl. now rewrite Hp.
Qed.

Lemma unpack_update_acl_request_cases_witness :
  unpack_update_acl_request sample_safe_load sample_parse_yaml_with_model
    (UpdateAclRequest.mk ["user:testuser"; "bigData"]
       (ProvisionInfo.mk "valid descriptor" "result_prov"))
  = Ok (inl (sample_dp, ["user:testuser"; "bigData"]))
  /\ unpack_update_acl_request sample_safe_load sample_parse_yaml_with_model
       (UpdateAclRequest.mk ["user:testuser"; "bigData"]
          (ProvisionInfo.mk "key: [unclosed" "result_prov"))
     = Ok (inr (mkValidationError
                  ["Unable to parse the descriptor.";
                   "while parsing a flow sequence"])).
Proof.
  split.
  - destruct (unpack_update_acl_request_cases sample_safe_load
                sample_parse_yaml_with_model
                (UpdateAclRequest.mk ["user:testuser"; "bigData"]
                   (ProvisionInfo.mk "valid descriptor" "result_prov")))
      as (_ & _ & _ & _ & H).
    exact (H "valid descriptor" sample_dp eq_refl eq_refl).
  - destruct (unpack_update_acl_request_cases sample_safe_load
                sample_parse_yaml_with_model
                (UpdateAclRequest.mk ["user:testuser"; "bigData"]
                   (ProvisionInfo.mk "key: [unclosed" "result_prov")))
      as (_ & H & _).
    exact (H (LibraryError "while parsing a flow sequence") eq_refl).
Defined.

(** ** Derived names as identifiers *)

Lemma split_segments_no_sep sep s :
  Forall (fun seg => occurrences sep seg = 0) (Py.split sep s).
Proof.
  induction s as [|c s IH]; simpl; [repeat constructor|].
  destruct (Ascii.eqb c sep) eqn:Ec.
  - constructor; [reflexivity|exact IH].
  - destruct (Py.split sep s) as [|seg segs]; [repeat constructor; simpl;
      now rewrite Ec|].
    inversion IH as [|? ? Hseg Hsegs]; subst.
    constructor; [simpl; now rewrite Ec|exact Hsegs].
Qed.

Lemma split_no_sep sep a : occurrences sep a = 0 -> Py.split sep a = [a].
Proof.
  induction a as [|c a IH]; simpl; [reflexivity|].
  destruct (Ascii.eqb c sep); [discriminate|]. simpl.
  intros H. now rewrite (IH H).
Qed.

Lemma split_app_sep sep a rest :
  occurrences sep a = 0 ->
  Py.split sep (a +:+ String sep rest) = a :: Py.split sep rest.
Proof.
  induction a as [|c a IH]; intros H.
  - change (Py.split sep (String sep rest) = "" :: Py.split sep rest).
    simpl. now rewrite Ascii.eqb_refl.
  - change (Py.split sep (String c (a +:+ String sep rest))
            = String c a :: Py.split sep rest).
    simpl in H |- *. destruct (Ascii.eqb c sep); [discriminate|].
    simpl in H. now rewrite (IH H).
Qed.

Lemma lookup_segment_no_sep sep s i seg :
  Py.split sep s !! i = Some seg -> occurrences sep seg = 0.
Proof.
  intros H. eapply (proj1 (Forall_lookup _ _) (split_segments_no_sep sep s)), H.
Qed.

Lemma index_Ok_inv {A} (l : list A) i x : index l i = Ok x -> l !! i = Some x.
Proof. unfold index. destruct (l !! i); [now intros [= ->]|discriminate]. Qed.

(** X25: a derived name is made of the id's fourth to sixth (for a
    component: seventh) segments joined by colons, so it splits into
    exactly three (four) segments and is too short to be an id itself; the
    component name is the data-product name, a colon and the seventh
    segment; and behind the prefix [urn:dmb:cmp:] a derived name is an id
    from which the same names are derived again. *)
Theorem derived_names_are_stable (id : string) :
  (forall dp_name,
     OpenMetadataClientService._get_dp_name_from_id id = Ok dp_name ->
     length (Py.split ":" dp_name) = 3
     /\ OpenMetadataClientService._get_dp_name_from_id dp_name
        = Raise IndexError
     /\ OpenMetadataClientService._get_dp_name_from_id
          ("urn:dmb:cmp:" +:+ dp_name) = Ok dp_name)
  /\ (forall component_name,
        OpenMetadataClientService._get_component_name_from_id id
          = Ok component_name ->
        exists dp_name segment,
          OpenMetadataClientService._get_dp_name_from_id id = Ok dp_name
          /\ Py.split ":" id !! 6 = Some segment
          /\ component_name = dp_name +:+ ":" +:+ segment
          /\ length (Py.split ":" component_name) = 4
          /\ OpenMetadataClientService._get_component_name_from_id
               ("urn:dmb:cmp:" +:+ component_name) = Ok component_name
          /\ OpenMetadataClientService._get_dp_name_from_id
               ("urn:dmb:cmp:" +:+ component_name) = Ok dp_name).
Proof.
  assert (Hprefix : forall x,
             Py.split ":" ("urn:dmb:cmp:" +:+ x)
             = "urn" :: "dmb" :: "cmp" :: Py.split ":" x).
  { intros x.
    change ("urn:dmb:cmp:" +:+ x)
      with ("urn" +:+ String ":" ("dmb" +:+ String ":" ("cmp" +:+ String ":" x))).
    now rewrite !split_app_sep by reflexivity. }
  split.
  - intros dp_name.
    unfold OpenMetadataClientService._get_dp_name_from_id at 1.
    destruct (index (Py.split ":" id) 3) as [a|] eqn:E3; [|discriminate].
    destruct (index (Py.split ":" id) 4) as [b|] eqn:E4; [|discriminate].
    destruct (index (Py.split ":" id) 5) as [c|] eqn:E5; [|discriminate].
    simpl. intros [= <-].
    apply index_Ok_inv, lookup_segment_no_sep in E3, E4, E5.
    assert (Py.split ":" (a +:+ ":" +:+ b +:+ ":" +:+ c) = [a; b; c]) as Hs.
    { change (a +:+ ":" +:+ b +:+ ":" +:+ c)
        with (a +:+ String ":" (b +:+ String ":" c)).
      now rewrite !split_app_sep, split_no_sep by assumption. }
    split; [now rewrite Hs|]. split.
    + apply dp_name_faults. rewrite Hs. simpl. lia.
    + unfold OpenMetadataClientService._get_dp_name_from_id.
      rewrite Hprefix, Hs. reflexivity.
  - intros component_name.
    unfold OpenMetadataClientService._get_component_name_from_id at 1,
      OpenMetadataClientService._get_dp_name_from_id at 1.
    destruct (index (Py.split ":" id) 3) as [a|] eqn:E3; [|discriminate].
    destruct (index (Py.split ":" id) 4) as [b|] eqn:E4; [|discriminate].
    destruct (index (Py.split ":" id) 5) as [c|] eqn:E5; [|discriminate].
    destruct (index (Py.split ":" id) 6) as [d|] eqn:E6; [|discriminate].
    simpl. intros [= <-].
    apply index_Ok_inv in E6. pose proof E6 as E6'.
    apply index_Ok_inv, lookup_segment_no_sep in E3, E4, E5.
    apply lookup_segment_no_sep in E6'.
    assert (Py.split ":" (a +:+ ":" +:+ b +:+ ":" +:+ c +:+ ":" +:+ d)
            = [a; b; c; d]) as Hs.
    { change (a +:+ ":" +:+ b +:+ ":" +:+ c +:+ ":" +:+ d)
        with (a +:+ String ":" (b +:+ String ":" (c +:+ String ":" d))).
      now rewrite !split_app_sep, split_no_sep by assumption. }
    exists (a +:+ ":" +:+ b +:+ ":" +:+ c), d.
    split; [reflexivity|]. split; [exact E6|]. split.
    { now rewrite !append_assoc. }
    split; [now rewrite Hs|].
    unfold OpenMetadataClientService._get_component_name_from_id,
      OpenMetadataClientService._get_dp_name_from_id.
    rewrite Hprefix, Hs. split; reflexivity.
Qed.

Lemma derived_names_are_stable_witness :
  length (Py.split ":" "healthcare:vaccinations:0") = 3
  /\ OpenMetadataClientService._get_dp_name_from_id "healthcare:vaccinations:0"
     = Raise IndexError
  /\ OpenMetadataClientService._get_dp_name_from_id
       ("urn:dmb:cmp:" +:+ "healthcare:vaccinations:0")
     = Ok "healthcare:vaccinations:0".
Proof.
  exact (proj1 (derived_names_are_stable sample_component_id)
           "healthcare:vaccinations:0" eq_refl).
Defined.

(** ** The storage service and the domain *)

(** X26: the storage service is upserted under the configured name and
    type, and a domain under the given name with the configured domain
    type and the name as its description, each by exactly one call; when
    the configured type is no member of the client library's enumeration,
    the method fails with the service error whose details are the [repr]
    of the type (the text of the key error), before any call reaches the
    catalog. *)
Theorem storage_service_and_domain_requests {S} (client : OpenMetadata.t S)
  (settings : OpenMetadataSettings) (lib : Library) (name : string)
  (s : S) (log : list ClientCall) :
  (enum_member lib StorageServiceType (default_storage_service_type settings)
     = false ->
   OpenMetadataClientService.create_or_update_generic_storage_service
     (recording_client client) settings lib (s, log)
   = ((s, log),
      Raise (ServiceError
               ("Failed to create or update storage service "
                  +:+ default_storage_service_name settings
                  +:+ ". Details: "
                  +:+ Py.repr (default_storage_service_type settings)))))
  /\ (enum_member lib DomainType (default_domain_type settings) = false ->
      OpenMetadataClientService.create_or_update_domain
        (recording_client client) settings lib name (s, log)
      = ((s, log),
         Raise (ServiceError
                  ("Failed to create or update domain " +:+ name
                     +:+ ". Details: "
                     +:+ Py.repr (default_domain_type settings)))))
  /\ (forall s1 log1 created,
        OpenMetadataClientService.create_or_update_generic_storage_service
          (recording_client client) settings lib (s, log)
        = ((s1, log1), Ok created) ->
        log1 = log ++ [CallCreateOrUpdate
                         (CreateStorageServiceRequest
                            (default_storage_service_name settings)
                            (default_storage_service_type settings))])
  /\ (forall s1 log1 created,
        OpenMetadataClientService.create_or_update_domain
          (recording_client client) settings lib name (s, log)
        = ((s1, log1), Ok created) ->
        log1 = log ++ [CallCreateOrUpdate
                         (CreateDomainRequest (default_domain_type settings)
                            name name)]).
Proof.
  split; [|split; [|split]].
  - intros Hm.
    unfold OpenMetadataClientService.create_or_update_generic_storage_service.
    erewrite wrap_eq
      by (unfold enum_getitem; rewrite Hm; reflexivity).
    cbv beta iota. unfold str. now rewrite !append_assoc.
  - intros Hm. unfold OpenMetadataClientService.create_or_update_domain.
    erewrite wrap_eq
      by (unfold enum_getitem; rewrite Hm; reflexivity).
    cbv beta iota. unfold str. now rewrite !append_assoc.
  - intros s1 log1 created.
    unfold OpenMetadataClientService.create_or_update_generic_storage_service,
      OpenMetadataClientService.wrap, try_except, bind, lift, raise, res_bind,
      checked, enum_getitem.
    destruct (enum_member lib StorageServiceType _); [|discriminate].
    destruct (validate_request lib _) as [e|]; [discriminate|].
    simpl. unfold recorded. simpl.
    destruct (OpenMetadata.create_or_update client _ s) as [s2 [e|err]];
      intros H; inversion H; subst. reflexivity.
  - intros s1 log1 created.
    unfold OpenMetadataClientService.create_or_update_domain,
      OpenMetadataClientService.wrap, try_except, bind, lift, raise, res_bind,
      checked, enum_getitem.
    destruct (enum_member lib DomainType _); [|discriminate].
    destruct (validate_request lib _) as [e|]; [discriminate|].
    simpl. unfold recorded. simpl.
    destruct (OpenMetadata.create_or_update client _ s) as [s2 [e|err]];
      intros H; inversion H; subst. reflexivity.
Qed.

Lemma storage_service_and_domain_requests_witness :
  OpenMetadataClientService.create_or_update_generic_storage_service
    (recording_client empty_catalog_client) unknown_type_settings
    checking_lib (tt, [])
  = ((tt, []),
     Raise (ServiceError
              "Failed to create or update storage service generic. Details: 'Unknown'"))
  /\ [CallCreateOrUpdate (CreateStorageServiceRequest "generic" "CustomStorage")]
     = [] ++ [CallCreateOrUpdate
                (CreateStorageServiceRequest
                   (default_storage_service_name sample_settings)
                   (default_storage_service_type sample_settings))]
  /\ [CallCreateOrUpdate (CreateDomainRequest "Aggregate" "test-domain"
                            "test-domain")]
     = [] ++ [CallCreateOrUpdate
                (CreateDomainRequest (default_domain_type sample_settings)
                   "test-domain" "test-domain")].
Proof.
  split; [|split].
  - exact (proj1 (storage_service_and_domain_requests empty_catalog_client
                    unknown_type_settings checking_lib "test-domain" tt [])
             eq_refl).
  - exact (proj1 (proj2 (proj2 (storage_service_and_domain_requests
                                  empty_catalog_client sample_settings
                                  checking_lib "test-domain" tt [])))
             tt _ (Entity.mk "id") eq_refl).
  - exact (proj2 (proj2 (proj2 (storage_service_and_domain_requests
                                  empty_catalog_client sample_settings
                                  checking_lib "test-domain" tt [])))
             tt _ (Entity.mk "id") eq_refl).
Defined.

(** A configured type with a single quote is reported between double
    quotes, as [repr] writes it. *)
Example storage_service_type_with_a_quote :
  OpenMetadataClientService.create_or_update_generic_storage_service
    (recording_client empty_catalog_client)
    (mkSettings "" "" "Aggregate" "generic" "it's") checking_lib (tt, [])
  = ((tt, []),
     Raise (ServiceError
              ("Failed to create or update storage service generic. Details: "
                 +:+ String Py.double_quote
                       ("it's" +:+ String Py.double_quote EmptyString)))).
Proof. reflexivity. Qed.
